(** * Smart-farm anomaly monitoring: the anomaly-to-recommendation pipeline

    A shallow embedding of the detection and recommendation core of the
    backend: [ml_module/preprocessing.py], [ml_module/anomaly_detector.py],
    [ml_module/views.py], [ai_agent/rule_engine.py], [ai_agent/signals.py]
    and [ai_agent/agent_service.py].

    Conventions of the embedding.
    - Python floats are idealised as exact rationals [Q]; arithmetic,
      comparisons, [min], [abs] and [round] are the exact ones.
    - A raised exception is the [Raise] case of [py.result]; the exception
      classes are the built-in ones the source raises.
    - Django tables are lists of records inside [models.DB]; a query is a
      filter, a sort and a slice over such a list.
    - The fitted scikit-learn forest is an opaque scorer: a pair of functions
      giving the labels and the scores of a feature matrix. *)

From Stdlib Require Import QArith Qabs Qround Qminmax Lqa ZArith Lia.
From stdpp Require Import base option list gmap strings sorting pretty.

(** ** Python built-ins used by the source *)

Module py.

Inductive exn : Type :=
| ValueError (msg : string)
| TypeError (msg : string)
| FileNotFoundError (msg : string).

Inductive result (A : Type) : Type :=
| Ok (a : A)
| Raise (e : exn).
Arguments Ok {A} a.
Arguments Raise {A} e.

Definition bind {A B} (m : result A) (k : A → result B) : result B :=
  match m with
  | Ok a => k a
  | Raise e => Raise e
  end.

(** [for x in xs: out.append(f(x))] where [f] may raise. *)
Fixpoint for_each {A B} (f : A → result B) (xs : list A) : result (list B) :=
  match xs with
  | [] => Ok []
  | x :: xs' =>
      bind (f x) (λ y, bind (for_each f xs') (λ ys, Ok (y :: ys)))
  end.

(** Comparisons of floats. *)
Definition ltb (x y : Q) : bool := if Qlt_le_dec x y then true else false.
Definition leb (x y : Q) : bool := Qle_bool x y.
Definition gtb (x y : Q) : bool := ltb y x.
Definition geb (x y : Q) : bool := leb y x.
Definition neqb (x y : Q) : bool := negb (Qeq_bool x y).

(** [min(a, b)]: the first argument unless the second is smaller. *)
Definition min (a b : Q) : Q := if ltb b a then b else a.

Definition abs (x : Q) : Q := Qabs x.

(** Truthiness of an optional float: [None] and [0.0] are falsy. *)
Definition truthy (v : option Q) : bool :=
  match v with
  | Some x => neqb x 0
  | None => false
  end.

(** Rounding to the nearest integer, ties to even. *)
Definition round_half_even (x : Q) : Z :=
  let f := Qfloor x in
  match (x - inject_Z f ?= 1 # 2)%Q with
  | Lt => f
  | Gt => (f + 1)%Z
  | Eq => if Z.even f then f else (f + 1)%Z
  end.

Definition pow10 (n : nat) : Q := inject_Z (10 ^ Z.of_nat n).

(** [round(x, ndigits)]. *)
Definition round (x : Q) (ndigits : nat) : Q :=
  (inject_Z (round_half_even (x * pow10 ndigits)) / pow10 ndigits)%Q.

(** [max(xs)] of a non-empty list given as head and tail: the first
    maximal element is kept. *)
Definition max_list (x : Q) (xs : list Q) : Q :=
  fold_left (λ m y, if gtb y m then y else m) xs x.

Definition sum (xs : list Q) : Q := fold_left Qplus xs 0%Q.

(** [xs[i:j]] for non-negative [i] and [j]. *)
Definition slice {A} (xs : list A) (i j : nat) : list A :=
  take (j - i) (drop i xs).

(** Zero-padded decimal of a non-negative integer, as [%02d] does. *)
Fixpoint zeros (n : nat) : string :=
  match n with
  | O => ""
  | S n' => "0" +:+ zeros n'
  end.

Definition pad_left (width : nat) (s : string) : string :=
  zeros (width - String.length s) +:+ s.

(** [format(x, '.<prec>f')], and ['+.<prec>f'] when [plus] is set: the
    value rounded to [prec] decimals, with the sign of [x]. *)
Definition format_fixed (plus : bool) (prec : nat) (x : Q) : string :=
  let scaled := Z.abs (round_half_even (x * pow10 prec)) in
  let base := (10 ^ Z.of_nat prec)%Z in
  let int_part := pretty (scaled / base)%Z in
  let frac_part := pad_left prec (pretty (scaled mod base)%Z) in
  let sign := if ltb x 0 then "-" else if plus then "+" else "" in
  match prec with
  | O => sign +:+ int_part
  | _ => sign +:+ int_part +:+ "." +:+ frac_part
  end.

(** An f-string field [{v:.1f}] over a value that may be [None]:
    [None.__format__] rejects a non-empty format specification. *)
Definition format_field (plus : bool) (prec : nat) (v : option Q) : result string :=
  match v with
  | Some x => Ok (format_fixed plus prec x)
  | None => Raise (TypeError "unsupported format string passed to NoneType.__format__")
  end.

(** [x < bound] over a value that may be [None]. *)
Definition lt_field (v : option Q) (bound : Q) : result bool :=
  match v with
  | Some x => Ok (ltb x bound)
  | None => Raise (TypeError "'<' not supported between instances of 'NoneType' and 'int'")
  end.

Definition gt_field (v : option Q) (bound : Q) : result bool :=
  match v with
  | Some x => Ok (gtb x bound)
  | None => Raise (TypeError "'>' not supported between instances of 'NoneType' and 'int'")
  end.

(** [v - w] over values that may be [None]. *)
Definition sub_field (v w : option Q) : result Q :=
  match v, w with
  | Some x, Some y => Ok (x - y)%Q
  | _, _ => Raise (TypeError "unsupported operand type(s) for -: 'NoneType'")
  end.

(** [abs(v)] over a value that may be [None]. *)
Definition abs_field (v : option Q) : result Q :=
  match v with
  | Some x => Ok (abs x)
  | None => Raise (TypeError "bad operand type for abs(): 'NoneType'")
  end.

(** [sub in s] on strings. *)
Definition contains (sub s : string) : bool :=
  match String.index 0 sub s with
  | Some _ => true
  | None => false
  end.

(** [s.lower()] on the ASCII letters. *)
Definition lower_ascii (c : Ascii.ascii) : Ascii.ascii :=
  let n := Ascii.nat_of_ascii c in
  if ((65 <=? n) && (n <=? 90))%nat then Ascii.ascii_of_nat (n + 32) else c.

Fixpoint lower (s : string) : string :=
  match s with
  | EmptyString => EmptyString
  | String c s' => String (lower_ascii c) (lower s')
  end.

(** Timestamps are seconds since the epoch, in UTC. The proleptic
    Gregorian date of a day count, as [datetime] computes it. *)
Definition civil_from_days (days : Z) : Z * Z * Z :=
  let z := (days + 719468)%Z in
  let era := (z / 146097)%Z in
  let doe := (z - era * 146097)%Z in
  let yoe := ((doe - doe / 1460 + doe / 36524 - doe / 146096) / 365)%Z in
  let doy := (doe - (365 * yoe + yoe / 4 - yoe / 100))%Z in
  let mp := ((5 * doy + 2) / 153)%Z in
  let d := (doy - (153 * mp + 2) / 5 + 1)%Z in
  let m := (if mp <? 10 then mp + 3 else mp - 9)%Z in
  let y := (yoe + era * 400 + (if m <=? 2 then 1 else 0))%Z in
  (y, m, d).

Definition two_digits (n : Z) : string := pad_left 2 (pretty n).

(** [t.strftime('%H:%M')]. *)
Definition strftime_HM (t : Z) : string :=
  let secs := (t mod 86400)%Z in
  two_digits (secs / 3600) +:+ ":" +:+ two_digits (secs mod 3600 / 60).

(** [t.strftime('%Y-%m-%d at %H:%M')]. *)
Definition strftime_date_at_HM (t : Z) : string :=
  let '(y, m, d) := civil_from_days (t / 86400) in
  pad_left 4 (pretty y) +:+ "-" +:+ two_digits m +:+ "-" +:+ two_digits d
  +:+ " at " +:+ strftime_HM t.

(** [timedelta(hours=h)] in seconds. *)
Definition timedelta_hours (h : Z) : Z := (h * 3600)%Z.

End py.

Export py(exn(..), result(..)).

#[export] Instance result_bind : MBind result := λ A B k m, py.bind m k.
#[export] Instance result_ret : MRet result := λ A a, Ok a.

(** ** numpy reductions over a one-dimensional array *)

Module np.
Local Open Scope Q_scope.

Definition mean (xs : list Q) : Q :=
  py.sum xs / inject_Z (Z.of_nat (length xs)).

(** [np.std]: the population standard deviation, through the square
    root [sqrt] of the library. *)
Definition std (sqrt : Q → Q) (xs : list Q) : Q :=
  let m := mean xs in
  sqrt (mean (map (λ x, Qabs (x - m) * Qabs (x - m)) xs)).

(** [np.min] and [np.max] raise on an empty array. *)
Definition min (xs : list Q) : result Q :=
  match xs with
  | [] => Raise (ValueError "zero-size array to reduction operation minimum which has no identity")
  | x :: xs' => Ok (fold_left (λ m y, if py.ltb y m then y else m) xs' x)
  end.

Definition max (xs : list Q) : result Q :=
  match xs with
  | [] => Raise (ValueError "zero-size array to reduction operation maximum which has no identity")
  | x :: xs' => Ok (py.max_list x xs')
  end.

End np.

(** ** crop_app/models.py *)

Module models.

(** Modelled from the spec: [crop_app/models.py] is not among the sources.
    A Reading is (plot, sensor category, scalar value, timestamp); the
    fields are the ones the callers read. *)
Record SensorReading : Type := {
  sr_id : Z;
  sr_plot : Z;
  sr_sensor_type : string;
  sr_value : Q;
  sr_timestamp : Z
}.

(** Modelled from the spec: [crop_app/models.py] is not among the sources.
    An AnomalyRecord is (plot, triggering Reading or none, category, stored
    severity, model confidence, timestamp). *)
Record AnomalyEvent : Type := {
  ae_id : Z;
  ae_plot : Z;
  ae_sensor_reading : option SensorReading;
  ae_anomaly_type : string;
  ae_severity : string;
  ae_model_confidence : Q;
  ae_timestamp : Z
}.

(** Modelled from the spec: [crop_app/models.py] is not among the sources.
    A Recommendation refers to its AnomalyRecord one-to-one. *)
Record AgentRecommendation : Type := {
  rec_id : Z;
  rec_anomaly_event : Z;
  rec_recommended_action : string;
  rec_explanation_text : string;
  rec_confidence : Q;
  rec_timestamp : Z
}.

(** The database: one list per table, in insertion order, and the
    auto-increment counters of the two tables the core writes. *)
Record DB : Type := {
  field_plots : list Z;
  sensor_readings : list SensorReading;
  anomaly_events : list AnomalyEvent;
  agent_recommendations : list AgentRecommendation;
  anomaly_event_seq : Z;
  agent_recommendation_seq : Z
}.

(** [order_by('-timestamp')]: newest first. *)
Definition newer_first (r1 r2 : SensorReading) : Prop :=
  (sr_timestamp r2 ≤ sr_timestamp r1)%Z.

#[export] Instance newer_first_dec r1 r2 : Decision (newer_first r1 r2).
Proof. unfold newer_first. apply _. Defined.

Definition order_by_timestamp_desc (rs : list SensorReading) : list SensorReading :=
  merge_sort newer_first rs.

(** [SensorReading.objects.filter(plot=..., sensor_type=...)
      .order_by('-timestamp')[:count]]. *)
Definition recent_readings_of (db : DB) (plot : Z) (sensor_type : string)
    (count : nat) : list SensorReading :=
  take count
    (order_by_timestamp_desc
       (filter (λ r, sr_plot r = plot ∧ sr_sensor_type r = sensor_type)
               (sensor_readings db))).

(** [SensorReading.objects.filter(sensor_type=...)
      .order_by('-timestamp')[:count]]. *)
Definition recent_readings_all_plots_of (db : DB) (sensor_type : string)
    (count : nat) : list SensorReading :=
  take count
    (order_by_timestamp_desc
       (filter (λ r, sr_sensor_type r = sensor_type) (sensor_readings db))).

(** [SensorReading.objects.filter(plot=..., sensor_type=...,
      timestamp__lt=before).order_by('-timestamp')[:count]]. *)
Definition readings_before (db : DB) (plot : Z) (sensor_type : string)
    (before : Z) (count : nat) : list SensorReading :=
  take count
    (order_by_timestamp_desc
       (filter (λ r, sr_plot r = plot ∧ sr_sensor_type r = sensor_type
                     ∧ (sr_timestamp r < before)%Z)
               (sensor_readings db))).

(** [AnomalyEvent.objects.filter(plot=..., timestamp__gte=since).count()]. *)
Definition count_recent_anomalies (db : DB) (plot : Z) (since : Z) : nat :=
  length (filter (λ a, ae_plot a = plot ∧ (since ≤ ae_timestamp a)%Z)
                 (anomaly_events db)).

(** The reverse accessor [anomaly_event.recommendation] of the one-to-one
    relation: the recommendation row that refers to the event, if any;
    [hasattr] holds when there is one. The accessor is read from the
    table; the copy Django keeps on the Python instance is not modelled. *)
Definition recommendation_of (db : DB) (a : AnomalyEvent) : option AgentRecommendation :=
  snd <$> list_find (λ r, rec_anomaly_event r = ae_id a) (agent_recommendations db).

(** [AgentRecommendation.objects.create(...)]: the row gets the next id
    and the creation time. *)
Definition create_recommendation (db : DB) (now : Z) (a : AnomalyEvent)
    (action explanation : string) (conf : Q) : DB * AgentRecommendation :=
  let r := {| rec_id := agent_recommendation_seq db;
              rec_anomaly_event := ae_id a;
              rec_recommended_action := action;
              rec_explanation_text := explanation;
              rec_confidence := conf;
              rec_timestamp := now |} in
  ({| field_plots := field_plots db;
      sensor_readings := sensor_readings db;
      anomaly_events := anomaly_events db;
      agent_recommendations := agent_recommendations db ++ [r];
      anomaly_event_seq := anomaly_event_seq db;
      agent_recommendation_seq := (agent_recommendation_seq db + 1)%Z |}, r).

(** The row written by [AnomalyEvent.objects.create(...)], before the
    [post_save] receivers run. *)
Definition insert_anomaly_event (db : DB) (now : Z) (plot : Z)
    (reading : option SensorReading) (anomaly_type severity : string)
    (model_confidence : Q) : DB * AnomalyEvent :=
  let a := {| ae_id := anomaly_event_seq db;
              ae_plot := plot;
              ae_sensor_reading := reading;
              ae_anomaly_type := anomaly_type;
              ae_severity := severity;
              ae_model_confidence := model_confidence;
              ae_timestamp := now |} in
  ({| field_plots := field_plots db;
      sensor_readings := sensor_readings db;
      anomaly_events := anomaly_events db ++ [a];
      agent_recommendations := agent_recommendations db;
      anomaly_event_seq := (anomaly_event_seq db + 1)%Z;
      agent_recommendation_seq := agent_recommendation_seq db |}, a).

(** [order_by('-timestamp')] on anomaly events. *)
Definition newer_event_first (a1 a2 : AnomalyEvent) : Prop :=
  (ae_timestamp a2 ≤ ae_timestamp a1)%Z.

#[export] Instance newer_event_first_dec a1 a2 : Decision (newer_event_first a1 a2).
Proof. unfold newer_event_first. apply _. Defined.

(** [FieldPlot.objects.get(id=plot_id)] succeeds. *)
Definition plot_exists (db : DB) (plot_id : Z) : bool :=
  bool_decide (plot_id ∈ field_plots db).

End models.

(** ** ml_module/preprocessing.py *)

Module preprocessing.
Local Open Scope Q_scope.

Record SensorDataPreprocessor : Type := {
  window_size : nat;
  is_fitted : bool
}.

(** [SensorDataPreprocessor(window_size=...)]. *)
Definition new (window_size : nat) : SensorDataPreprocessor :=
  {| window_size := window_size; is_fitted := false |}.

Definition create_windows (self : SensorDataPreprocessor) (values : list Q)
  : result (list (list Q)) :=
  if (length values <? window_size self)%nat then
    Raise (ValueError ("Not enough data points. Need at least "
                       +:+ pretty (window_size self) +:+ ", got "
                       +:+ pretty (length values)))
  else
    Ok (map (λ i, py.slice values i (i + window_size self))
            (seq 0 (length values - window_size self + 1))).

Section features.
(** numpy's square root, used by [np.std]. *)
Variable np_sqrt : Q → Q.

Definition calculate_features (self : SensorDataPreprocessor) (window : list Q)
  : result (list Q) :=
  let mean := np.mean window in
  let std := np.std np_sqrt window in
  lo ← np.min window;
  hi ← np.max window;
  Ok [mean; std; lo; hi; hi - lo].

Definition prepare_for_model (self : SensorDataPreprocessor) (values : list Q)
    (use_features : bool) : result (list (list Q)) :=
  windows ← create_windows self values;
  if use_features then py.for_each (calculate_features self) windows
  else Ok windows.
End features.

(** The percent changes collected by the loop of [check_rapid_change]:
    one per consecutive pair whose earlier value is not zero. *)
Fixpoint percent_changes (values : list Q) : list Q :=
  match values with
  | prev :: ((cur :: _) as rest) =>
      if py.neqb prev 0
      then py.abs ((cur - prev) / prev) * 100 :: percent_changes rest
      else percent_changes rest
  | _ => []
  end.

Definition check_rapid_change (self : SensorDataPreprocessor) (values : list Q)
    (threshold_percent : Q) : bool * Q :=
  if (length values <? 2)%nat then (false, 0)
  else
    match percent_changes values with
    | [] => (false, 0)
    | c :: cs =>
        let max_change := py.max_list c cs in
        let has_rapid_change := py.geb max_change threshold_percent in
        (has_rapid_change, max_change)
    end.

(** The default of the keyword argument [threshold_percent]. *)
Definition default_threshold_percent : Q := 15.

(** The most recent [count] readings of a plot, reversed to oldest first. *)
Definition get_recent_readings (db : models.DB) (plot_id : Z) (sensor_type : string)
    (count : nat) : list Q :=
  let readings := models.recent_readings_of db plot_id sensor_type count in
  map models.sr_value (reverse readings).

(** The same over all plots, for the global training. *)
Definition get_recent_readings_all_plots (db : models.DB) (sensor_type : string)
    (count : nat) : list Q :=
  let readings := models.recent_readings_all_plots_of db sensor_type count in
  map models.sr_value (reverse readings).


End preprocessing.


(** ** ml_module/anomaly_detector.py *)

Module anomaly_detector.
Local Open Scope Q_scope.

(** scikit-learn's [IsolationForest]: the hyperparameter the source
    sets, and the two scoring methods. [predict] gives one label per row
    (1 normal, -1 anomaly), [score_samples] one score per row; both raise
    on a forest that was never fitted. *)
Record IsolationForest : Type := {
  contamination : Q;
  sk_predict : list (list Q) → result (list Z);
  sk_score_samples : list (list Q) → result (list Q)
}.

(** [IsolationForest(contamination=...)], not fitted yet. *)
Definition unfitted (contamination : Q) : IsolationForest := {|
  contamination := contamination;
  sk_predict := λ _, Raise (ValueError "This IsolationForest instance is not fitted yet.");
  sk_score_samples := λ _, Raise (ValueError "This IsolationForest instance is not fitted yet.")
|}.

Record IsolationForestDetector : Type := {
  model : IsolationForest;
  is_trained : bool;
  training_data_size : nat;
  training_date : option Z
}.

(** [IsolationForestDetector(contamination=...)]. *)
Definition new (contamination : Q) : IsolationForestDetector := {|
  model := unfitted contamination;
  is_trained := false;
  training_data_size := 0;
  training_date := None
|}.

(** The default of the keyword argument [contamination]. *)
Definition default_contamination : Q := 0.001.

(** The dictionary [train] returns. *)
Record TrainingStats : Type := {
  trained : bool;
  n_samples : nat;
  n_features : nat;
  stats_training_date : Z;
  mean_score : Q;
  std_score : Q;
  min_score : Q;
  max_score : Q
}.

Section train.
(** [IsolationForest.fit]: the forest fitted on a matrix with the
    hyperparameters of the given one; numpy's square root. *)
Variable sk_fit : IsolationForest → list (list Q) → IsolationForest.
Variable np_sqrt : Q → Q.

(** [train] updates the detector before it computes the statistics, so
    the new state is returned also when these raise. *)
Definition train (self : IsolationForestDetector) (now : Z) (normal_data : list (list Q))
  : IsolationForestDetector * result TrainingStats :=
  if (length normal_data <? 10)%nat then
    (self, Raise (ValueError ("Need at least 10 samples for training, got "
                              +:+ pretty (length normal_data))))
  else
    let self := {| model := sk_fit (model self) normal_data;
                   is_trained := true;
                   training_data_size := length normal_data;
                   training_date := Some now |} in
    (self,
     training_scores ← sk_score_samples (model self) normal_data;
     lo ← np.min training_scores;
     hi ← np.max training_scores;
     Ok {| trained := true;
           n_samples := length normal_data;
           n_features := length (default [] (head normal_data));
           stats_training_date := now;
           mean_score := np.mean training_scores;
           std_score := np.std np_sqrt training_scores;
           min_score := lo;
           max_score := hi |}).
End train.

Definition predict (self : IsolationForestDetector) (data : list (list Q))
  : result (list Z) :=
  if negb (is_trained self) then
    Raise (ValueError "Model not trained yet! Call train() first.")
  else
    predictions ← sk_predict (model self) data;
    Ok predictions.

Definition get_anomaly_scores (self : IsolationForestDetector) (data : list (list Q))
  : result (list Q) :=
  if negb (is_trained self) then
    Raise (ValueError "Model not trained yet! Call train() first.")
  else
    scores ← sk_score_samples (model self) data;
    Ok scores.

Definition _calculate_severity (score : Q) (is_anomaly : bool) : string :=
  if negb is_anomaly then "NORMAL"
  else if py.ltb score (-0.4) then "CRITICAL"
  else if py.ltb score (-0.3) then "HIGH"
  else if py.ltb score (-0.2) then "MEDIUM"
  else "LOW".

(** One entry of the list [detect_with_confidence] returns. *)
Record Detection : Type := {
  index : nat;
  is_anomaly : bool;
  anomaly_score : Q;
  confidence : Q;
  severity : string
}.

(** The body of the loop of [detect_with_confidence] for row [i]. *)
Definition detect_row (min_confidence : Q) (i : nat) (row : Z * Q) : Detection :=
  let '(pred, score) := row in
  let is_anomaly_iforest := (pred =? -1)%Z in
  let confidence :=
    if is_anomaly_iforest then py.min 1 (py.abs score / 0.5)
    else if py.gtb score 0 then py.min 1 (score / 0.5) else 0 in
  let is_anomaly := is_anomaly_iforest && py.geb confidence min_confidence in
  {| index := i;
     is_anomaly := is_anomaly;
     anomaly_score := score;
     confidence := confidence;
     severity := _calculate_severity score is_anomaly |}.

Definition detect_with_confidence (self : IsolationForestDetector)
    (data : list (list Q)) (min_confidence : Q) : result (list Detection) :=
  if negb (is_trained self) then
    Raise (ValueError "Model not trained yet! Call train() first.")
  else
    raw_predictions ← predict self data;
    scores ← get_anomaly_scores self data;
    Ok (imap (detect_row min_confidence) (zip raw_predictions scores)).

(** The default of the keyword argument [min_confidence]. *)
Definition default_min_confidence : Q := 0.999.

(** The files of trained models: a path maps to the pickled state. *)
Definition save_model (self : IsolationForestDetector) (filepath : string)
    (disk : gmap string IsolationForestDetector)
  : result (gmap string IsolationForestDetector) :=
  if negb (is_trained self) then
    Raise (ValueError "Cannot save untrained model")
  else
    Ok (<[filepath := self]> disk).

Definition load_model (self : IsolationForestDetector) (filepath : string)
    (disk : gmap string IsolationForestDetector) : result IsolationForestDetector :=
  match disk !! filepath with
  | None => Raise (FileNotFoundError ("Model file not found: " +:+ filepath))
  | Some model_data => Ok model_data
  end.

(** One entry of what [AnomalyDetectionService.detect_anomalies] returns:
    a detection with the plot, the sensor type and the time added. *)
Record ServiceResult : Type := {
  detection : Detection;
  result_plot_id : Z;
  result_sensor_type : string;
  result_timestamp : Z
}.

Inductive ServiceOutcome : Type :=
| NotEnoughData (message : string)
| Scored (results : list ServiceResult).

(** [AnomalyDetectionService.detect_anomalies]: it scores the windows
    of the oldest-first values and stores nothing. *)
Definition detect_anomalies (np_sqrt : Q → Q) (detector : IsolationForestDetector)
    (db : models.DB) (now : Z) (plot_id : Z) (sensor_type : string)
  : result ServiceOutcome :=
  let values := preprocessing.get_recent_readings db plot_id sensor_type 50 in
  if (length values <? 10)%nat then
    Ok (NotEnoughData ("Need at least 10 readings, have " +:+ pretty (length values)))
  else
    processed_data ←
      preprocessing.prepare_for_model np_sqrt (preprocessing.new 10) values true;
    results ← detect_with_confidence detector processed_data default_min_confidence;
    Ok (Scored (map (λ r, {| detection := r;
                             result_plot_id := plot_id;
                             result_sensor_type := sensor_type;
                             result_timestamp := now |}) results)).

End anomaly_detector.

(** ** ai_agent/rule_engine.py *)

Module rule_engine.
Import models.
Local Open Scope Q_scope.

Record Range : Type := { range_min : Z; range_max : Z }.
Record Critical : Type := { critical_low : Z; critical_high : Z }.

#[export] Instance Range_inhabited : Inhabited Range :=
  populate {| range_min := 0; range_max := 0 |}.
#[export] Instance Critical_inhabited : Inhabited Critical :=
  populate {| critical_low := 0; critical_high := 0 |}.

(** The two threshold tables set up by [__init__]. *)
Definition normal_ranges : gmap string Range :=
  {[ "moisture" := {| range_min := 45; range_max := 75 |};
     "temperature" := {| range_min := 18; range_max := 28 |};
     "humidity" := {| range_min := 45; range_max := 75 |} ]}.

Definition critical_thresholds : gmap string Critical :=
  {[ "moisture" := {| critical_low := 35; critical_high := 80 |};
     "temperature" := {| critical_low := 10; critical_high := 32 |};
     "humidity" := {| critical_low := 30; critical_high := 85 |} ]}.

(** The dictionary built by [_get_reading_context]; every key is always
    present, a missing value is [None]. *)
Record Context : Type := {
  recent_value : option Q;
  change_rate : option Q;
  trend : string;
  multiple_anomalies : bool;
  sensor_type : option string;
  historical_avg : option Q;
  time_of_day : option string
}.

(** The dictionary an analyzer returns. *)
Record Analysis : Type := {
  recommended_action : string;
  explanation_text : string;
  confidence : Q;
  priority : string
}.

Definition _calculate_change_rate (values : list Q) : Q :=
  if (length values <? 2)%nat then 0
  else
    let newest := default 0 (head values) in
    let oldest := default 0 (last values) in
    let change :=
      if py.neqb oldest 0 then (newest - oldest) / oldest * 100 else 0 in
    py.round change 2.

(** The number of [i] in [range(len(values)-1)] with
    [cmp values[i] values[i+1]]. *)
Fixpoint count_adjacent (cmp : Q → Q → bool) (values : list Q) : nat :=
  match values with
  | x :: ((y :: _) as rest) =>
      ((if cmp x y then 1 else 0) + count_adjacent cmp rest)%nat
  | _ => 0%nat
  end.

Definition _determine_trend (values : list Q) : string :=
  if (length values <? 3)%nat then "unknown"
  else
    let increases := count_adjacent py.gtb values in
    let decreases := count_adjacent py.ltb values in
    let total := (length values - 1)%nat in
    let bound := inject_Z (Z.of_nat total) * 0.7 in
    if py.gtb (inject_Z (Z.of_nat increases)) bound then "increasing"
    else if py.gtb (inject_Z (Z.of_nat decreases)) bound then "decreasing"
    else "fluctuating".

Definition default_context : Context := {|
  recent_value := None;
  change_rate := None;
  trend := "unknown";
  multiple_anomalies := false;
  sensor_type := None;
  historical_avg := None;
  time_of_day := None
|}.

Definition _get_reading_context (db : DB) (anomaly_event : AnomalyEvent) : Context :=
  let context :=
    match ae_sensor_reading anomaly_event with
    | Some reading =>
        let recent_readings :=
          readings_before db (ae_plot anomaly_event) (sr_sensor_type reading)
                          (sr_timestamp reading) 10 in
        let context := {|
          recent_value := Some (sr_value reading);
          change_rate := None;
          trend := "unknown";
          multiple_anomalies := false;
          sensor_type := Some (sr_sensor_type reading);
          historical_avg := None;
          time_of_day := Some (py.strftime_HM (ae_timestamp anomaly_event))
        |} in
        if (2 <=? length recent_readings)%nat then
          let values := sr_value reading :: map sr_value recent_readings in
          {| recent_value := recent_value context;
             change_rate := Some (_calculate_change_rate values);
             trend := _determine_trend values;
             multiple_anomalies := false;
             sensor_type := sensor_type context;
             historical_avg :=
               Some (py.round (py.sum values / inject_Z (Z.of_nat (length values))) 1);
             time_of_day := time_of_day context |}
        else context
    | None => default_context
    end in
  let recent_anomalies :=
    count_recent_anomalies db (ae_plot anomaly_event)
      (ae_timestamp anomaly_event - py.timedelta_hours 3) in
  {| recent_value := recent_value context;
     change_rate := change_rate context;
     trend := trend context;
     multiple_anomalies := (2 <? recent_anomalies)%nat;
     sensor_type := sensor_type context;
     historical_avg := historical_avg context;
     time_of_day := time_of_day context |}.

(** The description of a trend, [dict.get(trend, trend)]. *)
Definition trend_desc : gmap string string :=
  {[ "increasing" := "Values are rising";
     "decreasing" := "Values are declining";
     "fluctuating" := "Values are unstable" ]}.

Definition _build_explanation (anomaly : AnomalyEvent) (context : Context)
    (detail : string) : string :=
  let timestamp_str := py.strftime_date_at_HM (ae_timestamp anomaly) in
  let sensor_type := default "None" (sensor_type context) in
  let explanation :=
    "On " +:+ timestamp_str +:+ ", " +:+ sensor_type
    +:+ " readings detected a " +:+ ae_anomaly_type anomaly
    +:+ " (ML model confidence: "
    +:+ py.format_fixed false 2 (ae_model_confidence anomaly)
    +:+ ", severity: " +:+ ae_severity anomaly +:+ "). " +:+ detail in
  let explanation :=
    if negb (String.eqb (trend context) "")
       && negb (String.eqb (trend context) "unknown")
    then explanation +:+ " Trend: "
         +:+ default (trend context) (trend_desc !! trend context) +:+ "."
    else explanation in
  let explanation :=
    match change_rate context with
    | Some rate =>
        if py.neqb rate 0 && py.gtb (py.abs rate) 5
        then explanation +:+ " Change rate: " +:+ py.format_fixed true 1 rate +:+ "%."
        else explanation
    | None => explanation
    end in
  if multiple_anomalies context
  then explanation +:+ " ⚠️ Multiple anomalies detected - investigate for combined stress factors."
  else explanation.

Definition _calculate_confidence (model_confidence : Q) (change_rate : option Q)
  : result Q :=
  magnitude ← py.abs_field change_rate;
  let confidence :=
    if py.gtb magnitude 20 then py.min (model_confidence + 0.2) 1
    else if py.gtb magnitude 15 then py.min (model_confidence + 0.15) 1
    else if py.gtb magnitude 10 then py.min (model_confidence + 0.1) 1
    else model_confidence in
  Ok (py.round confidence 2).

Definition moisture_range : string :=
  pretty (range_min (normal_ranges !!! "moisture")) +:+ "-"
  +:+ pretty (range_max (normal_ranges !!! "moisture")).

(** ['high' if severity == 'high' else 'medium']. *)
Definition high_or_medium (severity : string) : string :=
  if String.eqb severity "high" then "high" else "medium".

Definition _analyze_moisture_anomaly (anomaly : AnomalyEvent) (context : Context)
  : result Analysis :=
  let value := recent_value context in
  let rate := change_rate context in
  let severity := ae_severity anomaly in
  if bool_decide (value = None) then
    Ok {| recommended_action := "Investigate moisture sensor - no recent data available";
          explanation_text := _build_explanation anomaly context
            ("Moisture anomaly detected but sensor reading data is unavailable. "
             +:+ "Check sensor connectivity and verify data collection.");
          confidence := ae_model_confidence anomaly * 0.5;
          priority := "medium" |}
  else
    critically_low ← py.lt_field value
      (inject_Z (critical_low (critical_thresholds !!! "moisture")));
    if (critically_low : bool) then
      shown ← py.format_field false 1 value;
      Ok {| recommended_action := "URGENT: Immediate irrigation required - crops under severe drought stress";
            explanation_text := _build_explanation anomaly context
              ("Soil moisture critically low at " +:+ shown +:+ "% "
               +:+ "(normal range: " +:+ moisture_range +:+ "%). "
               +:+ "Crops are experiencing severe drought stress and may suffer permanent damage.");
            confidence := py.min (ae_model_confidence anomaly + 0.15) 1;
            priority := "high" |}
    else
    sudden_drop ← py.lt_field rate (-10);
    if (sudden_drop : bool) then
      magnitude ← py.abs_field rate;
      shown ← py.format_field false 1 value;
      boosted ← _calculate_confidence (ae_model_confidence anomaly) rate;
      Ok {| recommended_action := "Check irrigation system immediately - possible failure or leak detected";
            explanation_text := _build_explanation anomaly context
              ("Soil moisture dropped " +:+ py.format_fixed false 1 magnitude +:+ "% rapidly. "
               +:+ "This sudden decline indicates possible irrigation system failure, pipe leak, or pump malfunction. "
               +:+ "Current moisture level: " +:+ shown +:+ "%.");
            confidence := boosted;
            priority := high_or_medium severity |}
    else
    gradual ← (if String.eqb (trend context) "decreasing"
               then py.lt_field rate (-5) else Ok false);
    if (gradual : bool) then
      shown_rate ← py.format_field false 1 rate;
      shown ← py.format_field false 1 value;
      Ok {| recommended_action := "Adjust irrigation schedule - gradual moisture loss detected";
            explanation_text := _build_explanation anomaly context
              ("Gradual moisture decline detected (" +:+ shown_rate +:+ "% change over recent period). "
               +:+ "Current level: " +:+ shown +:+ "%. "
               +:+ "Consider increasing irrigation frequency or duration.");
            confidence := ae_model_confidence anomaly;
            priority := "medium" |}
    else
    excessive ← py.gt_field value
      (inject_Z (critical_high (critical_thresholds !!! "moisture")));
    if (excessive : bool) then
      shown ← py.format_field false 1 value;
      Ok {| recommended_action := "Reduce irrigation immediately - overwatering detected";
            explanation_text := _build_explanation anomaly context
              ("Soil moisture excessive at " +:+ shown +:+ "% (above "
               +:+ pretty (critical_high (critical_thresholds !!! "moisture")) +:+ "%). "
               +:+ "Risk of root rot, fungal diseases, and oxygen deprivation. Reduce watering and improve drainage.");
            confidence := ae_model_confidence anomaly;
            priority := "medium" |}
    else
    if String.eqb severity "medium" then
      shown ← py.format_field false 1 value;
      Ok {| recommended_action := "Monitor moisture levels closely and prepare irrigation adjustments";
            explanation_text := _build_explanation anomaly context
              ("Moisture anomaly detected with medium severity. Current level: " +:+ shown +:+ "%. "
               +:+ "Monitor situation and be ready to adjust irrigation if condition worsens.");
            confidence := ae_model_confidence anomaly;
            priority := "medium" |}
    else
      shown ← py.format_field false 1 value;
      Ok {| recommended_action := "Monitor soil moisture levels";
            explanation_text := _build_explanation anomaly context
              ("Moisture anomaly detected. Current level: " +:+ shown
               +:+ "%. Continue monitoring for changes.");
            confidence := ae_model_confidence anomaly * 0.8;
            priority := "low" |}.

Definition temperature_range : string :=
  pretty (range_min (normal_ranges !!! "temperature")) +:+ "-"
  +:+ pretty (range_max (normal_ranges !!! "temperature")).

Definition _analyze_temperature_anomaly (anomaly : AnomalyEvent) (context : Context)
  : result Analysis :=
  let value := recent_value context in
  let rate := change_rate context in
  let severity := ae_severity anomaly in
  if bool_decide (value = None) then
    Ok {| recommended_action := "Investigate temperature sensor - no recent data available";
          explanation_text := _build_explanation anomaly context
            ("Temperature anomaly detected but sensor reading data is unavailable. "
             +:+ "Check sensor connectivity and verify data collection.");
          confidence := ae_model_confidence anomaly * 0.5;
          priority := "medium" |}
  else
    extreme_high ← py.gt_field value
      (inject_Z (critical_high (critical_thresholds !!! "temperature")));
    if (extreme_high : bool) then
      shown ← py.format_field false 1 value;
      let explanation :=
        "Extreme temperature detected at " +:+ shown +:+ "°C "
        +:+ "(normal range: " +:+ temperature_range +:+ "°C). " in
      explanation ←
        (if py.truthy (historical_avg context) then
           diff ← py.sub_field value (historical_avg context);
           shown_avg ← py.format_field false 1 (historical_avg context);
           Ok (explanation +:+ "This is " +:+ py.format_fixed false 1 diff
               +:+ "°C above recent average (" +:+ shown_avg +:+ "°C). ")
         else Ok explanation);
      let explanation :=
        if String.eqb (trend context) "increasing"
        then explanation +:+ "Temperature continues to rise, worsening heat stress conditions. "
        else explanation in
      let explanation :=
        explanation
        +:+ "Crops at high risk of heat stress, wilting, and reduced yields. "
        +:+ "Immediate action required to prevent permanent damage." in
      Ok {| recommended_action := "URGENT: Heat stress mitigation - increase irrigation immediately and provide shade";
            explanation_text := _build_explanation anomaly context explanation;
            confidence := py.min (ae_model_confidence anomaly + 0.15) 1;
            priority := "high" |}
    else
    cold ← (if py.truthy value
            then py.lt_field value
                   (inject_Z (critical_low (critical_thresholds !!! "temperature")))
            else Ok false);
    if (cold : bool) then
      shown ← py.format_field false 1 value;
      Ok {| recommended_action := "URGENT: Cold protection required - risk of frost damage";
            explanation_text := _build_explanation anomaly context
              ("Low temperature detected at " +:+ shown +:+ "°C. "
               +:+ "Risk of cold stress, frost damage, and potential crop loss. "
               +:+ "Consider protective measures such as row covers, heaters, or frost protection sprinklers.");
            confidence := py.min (ae_model_confidence anomaly + 0.15) 1;
            priority := "high" |}
    else
    spike ← py.gt_field rate 15;
    if (spike : bool) then
      shown_rate ← py.format_field false 1 rate;
      shown ← py.format_field false 1 value;
      Ok {| recommended_action := "Monitor crops closely - sudden temperature increase detected";
            explanation_text := _build_explanation anomaly context
              ("Sudden temperature increase of " +:+ shown_rate +:+ "°C detected. "
               +:+ "Current temperature: " +:+ shown +:+ "°C. "
               +:+ "Monitor crop response and increase irrigation if needed.");
            confidence := ae_model_confidence anomaly;
            priority := high_or_medium severity |}
    else
    drop ← py.lt_field rate (-15);
    if (drop : bool) then
      magnitude ← py.abs_field rate;
      shown ← py.format_field false 1 value;
      Ok {| recommended_action := "Monitor for cold stress - sudden temperature drop detected";
            explanation_text := _build_explanation anomaly context
              ("Sudden temperature decrease of " +:+ py.format_fixed false 1 magnitude
               +:+ "°C detected. "
               +:+ "Current temperature: " +:+ shown +:+ "°C. "
               +:+ "Monitor for signs of cold stress.");
            confidence := ae_model_confidence anomaly;
            priority := "medium" |}
    else
    if String.eqb severity "medium" then
      shown ← py.format_field false 1 value;
      Ok {| recommended_action := "Monitor temperature trends and crop response";
            explanation_text := _build_explanation anomaly context
              ("Temperature anomaly detected at " +:+ shown +:+ "°C. "
               +:+ "Continue monitoring for sustained deviations.");
            confidence := ae_model_confidence anomaly;
            priority := "medium" |}
    else
      shown ← py.format_field false 1 value;
      Ok {| recommended_action := "Monitor temperature levels";
            explanation_text := _build_explanation anomaly context
              ("Temperature anomaly detected at " +:+ shown
               +:+ "°C. Continue routine monitoring.");
            confidence := ae_model_confidence anomaly * 0.8;
            priority := "low" |}.

Definition humidity_range : string :=
  pretty (range_min (normal_ranges !!! "humidity")) +:+ "-"
  +:+ pretty (range_max (normal_ranges !!! "humidity")).

Definition _analyze_humidity_anomaly (anomaly : AnomalyEvent) (context : Context)
  : result Analysis :=
  let value := recent_value context in
  let severity := ae_severity anomaly in
  very_low ← (if py.truthy value
              then py.lt_field value
                     (inject_Z (critical_low (critical_thresholds !!! "humidity")))
              else Ok false);
  if (very_low : bool) then
    shown ← py.format_field false 1 value;
    Ok {| recommended_action := "Increase humidity or irrigation - risk of plant stress from dry air";
          explanation_text := _build_explanation anomaly context
            ("Very low humidity at " +:+ shown +:+ "% "
             +:+ "(normal range: " +:+ humidity_range +:+ "%). "
             +:+ "Dry conditions may cause increased transpiration, water stress, and leaf damage. "
             +:+ "Consider misting or increasing irrigation.");
          confidence := ae_model_confidence anomaly;
          priority := high_or_medium severity |}
  else
  very_high ← (if py.truthy value
               then py.gt_field value
                      (inject_Z (critical_high (critical_thresholds !!! "humidity")))
               else Ok false);
  if (very_high : bool) then
    shown ← py.format_field false 1 value;
    Ok {| recommended_action := "Improve ventilation urgently - high humidity increases disease risk";
          explanation_text := _build_explanation anomaly context
            ("High humidity at " +:+ shown +:+ "% (above "
             +:+ pretty (critical_high (critical_thresholds !!! "humidity")) +:+ "%). "
             +:+ "Elevated risk of fungal diseases, mold, and bacterial infections. "
             +:+ "Improve air circulation, reduce watering frequency if possible, and monitor for disease symptoms.");
          confidence := ae_model_confidence anomaly;
          priority := high_or_medium severity |}
  else
  if String.eqb severity "medium" then
    shown ← py.format_field false 1 value;
    Ok {| recommended_action := "Monitor humidity levels and ventilation";
          explanation_text := _build_explanation anomaly context
            ("Humidity anomaly detected at " +:+ shown +:+ "%. "
             +:+ "Monitor for changes and ensure adequate ventilation.");
          confidence := ae_model_confidence anomaly;
          priority := "medium" |}
  else
    shown ← py.format_field false 1 value;
    Ok {| recommended_action := "Monitor humidity levels";
          explanation_text := _build_explanation anomaly context
            ("Humidity anomaly detected at " +:+ shown
             +:+ "%. Continue routine monitoring.");
          confidence := ae_model_confidence anomaly * 0.8;
          priority := "low" |}.

Definition _analyze_generic_anomaly (anomaly : AnomalyEvent) (context : Context)
  : result Analysis :=
  let severity := ae_severity anomaly in
  if multiple_anomalies context then
    Ok {| recommended_action := "URGENT: Comprehensive plot inspection - multiple stress factors detected";
          explanation_text := _build_explanation anomaly context
            ("Multiple anomalies detected in short timeframe. "
             +:+ "This indicates combined stress factors affecting the plot. "
             +:+ "Conduct thorough inspection of irrigation, environmental conditions, and crop health.");
          confidence := ae_model_confidence anomaly * 0.9;
          priority := "high" |}
  else if py.ltb (ae_model_confidence anomaly) 0.6 then
    Ok {| recommended_action := "Verify with manual inspection - anomaly detected with moderate confidence";
          explanation_text := _build_explanation anomaly context
            ("Anomaly detected with moderate confidence ("
             +:+ py.format_fixed false 2 (ae_model_confidence anomaly) +:+ "). "
             +:+ "Manual inspection recommended to confirm sensor readings and identify any issues.");
          confidence := ae_model_confidence anomaly;
          priority := "low" |}
  else if String.eqb severity "high" then
    Ok {| recommended_action := "Investigate anomaly urgently - high severity detected";
          explanation_text := _build_explanation anomaly context
            "High severity anomaly detected. Immediate investigation recommended.";
          confidence := ae_model_confidence anomaly;
          priority := "high" |}
  else
    Ok {| recommended_action := "Investigate anomaly condition";
          explanation_text := _build_explanation anomaly context
            "Anomaly detected in sensor data. Further investigation recommended to identify cause.";
          confidence := ae_model_confidence anomaly;
          priority := if String.eqb severity "medium" then "medium" else "low" |}.

(** The dispatch of [analyze_anomaly] on the anomaly type, once the
    context is built. *)
Definition analyze_with_context (anomaly_event : AnomalyEvent) (context : Context)
  : result Analysis :=
  let anomaly_type := py.lower (ae_anomaly_type anomaly_event) in
  if py.contains "moisture" anomaly_type then
    _analyze_moisture_anomaly anomaly_event context
  else if py.contains "temperature" anomaly_type then
    _analyze_temperature_anomaly anomaly_event context
  else if py.contains "humidity" anomaly_type then
    _analyze_humidity_anomaly anomaly_event context
  else
    _analyze_generic_anomaly anomaly_event context.

Definition analyze_anomaly (db : DB) (anomaly_event : AnomalyEvent) : result Analysis :=
  let context := _get_reading_context db anomaly_event in
  analyze_with_context anomaly_event context.

End rule_engine.

(** ** ai_agent/agent_service.py *)

Module agent_service.
Import models.

(** [process_anomaly]: the existing recommendation if the event has one,
    else the engine's analysis stored as a new recommendation; an
    exception of the engine is logged and raised again. *)
Definition process_anomaly (db : DB) (now : Z) (anomaly_event : AnomalyEvent)
  : DB * result AgentRecommendation :=
  match recommendation_of db anomaly_event with
  | Some recommendation => (db, Ok recommendation)
  | None =>
      match rule_engine.analyze_anomaly db anomaly_event with
      | Raise e => (db, Raise e)
      | Ok analysis =>
          let '(db', recommendation) :=
            create_recommendation db now anomaly_event
              (rule_engine.recommended_action analysis)
              (rule_engine.explanation_text analysis)
              (rule_engine.confidence analysis) in
          (db', Ok recommendation)
      end
  end.

(** [process_multiple_anomalies]: a failure on one event is logged and
    skipped. *)
Fixpoint process_multiple_anomalies (db : DB) (now : Z)
    (anomaly_events : list AnomalyEvent) : DB * list AgentRecommendation :=
  match anomaly_events with
  | [] => (db, [])
  | anomaly :: rest =>
      let '(db1, outcome) := process_anomaly db now anomaly in
      let '(db2, recommendations) := process_multiple_anomalies db1 now rest in
      match outcome with
      | Ok rec => (db2, rec :: recommendations)
      | Raise _ => (db2, recommendations)
      end
  end.

Definition get_pending_anomalies (db : DB) (plot_id : option Z) : list AnomalyEvent :=
  let query :=
    filter (λ a, recommendation_of db a = None) (anomaly_events db) in
  let query :=
    match plot_id with
    | Some p => if (p =? 0)%Z then query else filter (λ a, ae_plot a = p) query
    | None => query
    end in
  merge_sort newer_event_first query.

(** The summary [process_pending_anomalies] returns. *)
Inductive PendingSummary : Type :=
| NoPending
| Processed (processed total_pending failed : nat).

Definition process_pending_anomalies (db : DB) (now : Z) (plot_id : option Z)
  : DB * PendingSummary :=
  let pending := get_pending_anomalies db plot_id in
  let count := length pending in
  if (count =? 0)%nat then (db, NoPending)
  else
    let '(db', recommendations) := process_multiple_anomalies db now pending in
    (db', Processed (length recommendations) count (count - length recommendations)).

End agent_service.

(** ** ai_agent/signals.py *)

Module signals.
Import models.

(** The [post_save] receiver of [AnomalyEvent]: a new event is processed
    at once; a failure is logged and dropped. *)
Definition process_anomaly_event (db : DB) (now : Z) (instance : AnomalyEvent)
    (created : bool) : DB :=
  if created then (agent_service.process_anomaly db now instance).1 else db.

(** [AnomalyEvent.objects.create(...)]: the insert, then the receiver. *)
Definition create_anomaly_event (db : DB) (now : Z) (plot : Z)
    (reading : option SensorReading) (anomaly_type severity : string)
    (model_confidence : Q) : DB * AnomalyEvent :=
  let '(db', event) :=
    insert_anomaly_event db now plot reading anomaly_type severity model_confidence in
  (process_anomaly_event db' now event true, event).

End signals.

(** ** ml_module/views.py *)

Module views.
Import models anomaly_detector.

Inductive Response (A : Type) : Type :=
| HTTP_200 (data : A)
| HTTP_400 (error : string)
| HTTP_404 (error : string)
| HTTP_500 (error : string).
Arguments HTTP_200 {A} data.
Arguments HTTP_400 {A} error.
Arguments HTTP_404 {A} error.
Arguments HTTP_500 {A} error.

Record DetectData : Type := {
  dd_plot_id : Z;
  dd_sensor_type : string;
  total_windows : nat;
  anomalies_detected : nat;
  anomaly_events_created : list Z;
  results : list Detection
}.

(** One entry of the status list of [batch_detect]. *)
Inductive BatchStatus : Type :=
| Success (anomalies_detected : nat)
| Skipped (reason : string)
| Error (message : string).

Record BatchEntry : Type := {
  be_plot_id : Z;
  be_sensor_type : string;
  be_status : BatchStatus
}.

(** The body of the response of [batch_detect]. *)
Record BatchData : Type := {
  bd_results : list BatchEntry;
  total_processed : nat;
  total_anomalies : nat
}.

Section with_settings.
(** [settings.BASE_DIR] and numpy's square root. *)
Variable BASE_DIR : string.
Variable np_sqrt : Q → Q.

Definition MODEL_DIR : string := BASE_DIR +:+ "/trained_models".

Definition get_model_path (sensor_type : string) : string :=
  MODEL_DIR +:+ "/" +:+ sensor_type +:+ "_model.pkl".

Definition load_detector_from_disk (disk : gmap string IsolationForestDetector)
    (sensor_type : string) : IsolationForestDetector :=
  let model_path := get_model_path sensor_type in
  if bool_decide (is_Some (disk !! model_path)) then
    match load_model (anomaly_detector.new default_contamination) model_path disk with
    | Ok detector => detector
    | Raise _ => anomaly_detector.new 0.1
    end
  else anomaly_detector.new 0.1.

Definition save_detector_to_disk (disk : gmap string IsolationForestDetector)
    (detector : IsolationForestDetector) (sensor_type : string)
  : gmap string IsolationForestDetector * bool :=
  match save_model detector (get_model_path sensor_type) disk with
  | Ok disk' => (disk', true)
  | Raise _ => (disk, false)
  end.

(** The table that maps a detector tier to the stored severity; it is
    written out in [detect] and again in [batch_detect]. *)
Definition severity_map : gmap string string :=
  {[ "NORMAL" := "low";
     "MINOR" := "low";
     "WARNING" := "medium";
     "CRITICAL" := "high" ]}.

(** [severity_map.get(anomaly['severity'], 'medium')]. *)
Definition storage_severity (tier : string) : string :=
  default "medium" (severity_map !! tier).

(** The reading an anomaly is attached to: [anomaly.get('index', i)]
    always finds the key [index]. *)
Definition reading_for (readings_list : list SensorReading) (anomaly : Detection)
  : option SensorReading :=
  let window_index := index anomaly in
  if (window_index <? length readings_list)%nat
  then readings_list !! window_index
  else readings_list !! 0%nat.

(** The loop that stores one [AnomalyEvent] per anomaly; the ids of the
    created events are collected in order. *)
Fixpoint create_events (db : DB) (now : Z) (plot : Z) (sensor_type : string)
    (readings_list : list SensorReading) (anomalies : list Detection)
  : DB * list Z :=
  match anomalies with
  | [] => (db, [])
  | anomaly :: rest =>
      let sensor_reading := reading_for readings_list anomaly in
      let severity := storage_severity (anomaly_detector.severity anomaly) in
      let '(db1, event) :=
        signals.create_anomaly_event db now plot sensor_reading
          (sensor_type +:+ "_anomaly") severity
          (anomaly_detector.confidence anomaly) in
      let '(db2, created) := create_events db1 now plot sensor_type readings_list rest in
      (db2, ae_id event :: created)
  end.

Definition sensor_choices : list string := ["moisture"; "temperature"; "humidity"].

(** [str(e)] of a caught exception. *)
Definition str_exn (e : exn) : string :=
  match e with
  | ValueError msg | TypeError msg | FileNotFoundError msg => msg
  end.

(** The windows and their scores, shared by [detect] and [batch_detect]. *)
Definition score_windows (detector : IsolationForestDetector) (values : list Q)
  : result (list Detection) :=
  let preprocessor := preprocessing.new 10 in
  processed_data ← preprocessing.prepare_for_model np_sqrt preprocessor values true;
  detect_with_confidence detector processed_data default_min_confidence.

Definition detect (db : DB) (disk : gmap string IsolationForestDetector) (now : Z)
    (plot_id : Z) (sensor_type : string) : DB * Response DetectData :=
  if negb (bool_decide (sensor_type ∈ sensor_choices)) then
    (db, HTTP_400 "sensor_type: not a valid choice.")
  else
    let detector := load_detector_from_disk disk sensor_type in
    if negb (is_trained detector) then
      (db, HTTP_400 ("Model not trained for " +:+ sensor_type))
    else if negb (plot_exists db plot_id) then
      (db, HTTP_404 ("Plot " +:+ pretty plot_id +:+ " does not exist"))
    else
      let readings_list := recent_readings_of db plot_id sensor_type 50 in
      let values := map sr_value readings_list in
      if (length values <? 10)%nat then
        (db, HTTP_400 ("Not enough data. Need 10+, have " +:+ pretty (length values)))
      else
        match score_windows detector values with
        | Raise e => (db, HTTP_500 (str_exn e))
        | Ok results =>
            let anomalies := filter (λ r, is_anomaly r = true) results in
            let '(db', created_events) :=
              create_events db now plot_id sensor_type readings_list anomalies in
            (db', HTTP_200 {| dd_plot_id := plot_id;
                              dd_sensor_type := sensor_type;
                              total_windows := length results;
                              anomalies_detected := length anomalies;
                              anomaly_events_created := created_events;
                              results := results |})
        end.

Definition batch_detect_pair (db : DB) (disk : gmap string IsolationForestDetector)
    (now : Z) (plot_id : Z) (sensor_type : string) : DB * BatchEntry :=
  let entry status :=
    {| be_plot_id := plot_id; be_sensor_type := sensor_type; be_status := status |} in
  let detector := load_detector_from_disk disk sensor_type in
  if negb (is_trained detector) then (db, entry (Skipped "model not trained"))
  else
    let readings_list := recent_readings_of db plot_id sensor_type 50 in
    let values := map sr_value readings_list in
    if (length values <? 10)%nat then (db, entry (Skipped "insufficient data"))
    else
      match score_windows detector values with
      | Raise e => (db, entry (Error (str_exn e)))
      | Ok detections =>
          let anomalies := filter (λ d, is_anomaly d = true) detections in
          let '(db', _) :=
            create_events db now plot_id sensor_type readings_list anomalies in
          (db', entry (Success (length anomalies)))
      end.

Fixpoint batch_detect_sensors (db : DB) (disk : gmap string IsolationForestDetector)
    (now : Z) (plot_id : Z) (sensor_types : list string) : DB * list BatchEntry :=
  match sensor_types with
  | [] => (db, [])
  | sensor_type :: rest =>
      let '(db1, entry) := batch_detect_pair db disk now plot_id sensor_type in
      let '(db2, entries) := batch_detect_sensors db1 disk now plot_id rest in
      (db2, entry :: entries)
  end.

Fixpoint batch_detect_plots (db : DB) (disk : gmap string IsolationForestDetector)
    (now : Z) (plot_ids : list Z) (sensor_types : list string)
  : DB * list BatchEntry :=
  match plot_ids with
  | [] => (db, [])
  | plot_id :: rest =>
      let '(db1, entries) :=
        if plot_exists db plot_id
        then batch_detect_sensors db disk now plot_id sensor_types
        else (db, [ {| be_plot_id := plot_id; be_sensor_type := "all";
                       be_status := Error ("Plot " +:+ pretty plot_id +:+ " does not exist") |} ]) in
      let '(db2, more) := batch_detect_plots db1 disk now rest sensor_types in
      (db2, entries ++ more)
  end.

Definition batch_detect (db : DB) (disk : gmap string IsolationForestDetector)
    (now : Z) (plot_ids : list Z) (sensor_types : option (list string))
  : DB * BatchData :=
  let sensor_types := default sensor_choices sensor_types in
  let plot_ids := match plot_ids with [] => field_plots db | _ => plot_ids end in
  let '(db', results) := batch_detect_plots db disk now plot_ids sensor_types in
  (db', {| bd_results := results;
           total_processed := length results;
           total_anomalies :=
             foldr (λ entry total,
                      match be_status entry with
                      | Success n => (n + total)%nat
                      | _ => total
                      end) 0%nat results |}).

End with_settings.
End views.

(** ** ml_module/views.py: training and status *)

Module training_views.
Import models anomaly_detector views.

(** The validated body of a training request. *)
Record TrainRequest : Type := {
  tr_sensor_type : string;
  tr_use_recent_data : bool;
  tr_data_points : nat;
  tr_training_data : option (list (list Q))
}.

(** The body of a successful training response. *)
Record TrainData : Type := {
  td_message : string;
  td_training_scope : string;
  td_stats : TrainingStats;
  td_model_path : string
}.

(** What [TrainModelSerializer] accepts: a known sensor type, between 10
    and 1000 data points, and recent data or a non-empty matrix. *)
Definition train_request_valid (request : TrainRequest) : bool :=
  bool_decide (tr_sensor_type request ∈ sensor_choices)
  && (10 <=? tr_data_points request)%nat
  && (tr_data_points request <=? 1000)%nat
  && (tr_use_recent_data request
      || match tr_training_data request with
         | Some (_ :: _) => true
         | _ => false
         end).

(** One entry of the dictionary [get_status] returns. *)
Record ModelStatus : Type := {
  ms_trained : bool;
  ms_training_data_size : nat;
  ms_training_date : option Z;
  ms_saved_to_disk : bool;
  ms_model_path : option string
}.

Section with_settings.
(** [settings.BASE_DIR], numpy's square root and [IsolationForest.fit]. *)
Variable BASE_DIR : string.
Variable np_sqrt : Q → Q.
Variable sk_fit : IsolationForest → list (list Q) → IsolationForest.

(** The matrix the model is trained on, or the response that ends the
    request before training. *)
Definition training_matrix (db : DB) (request : TrainRequest)
  : Response TrainData + list (list Q) :=
  if tr_use_recent_data request then
    let values :=
      preprocessing.get_recent_readings_all_plots db (tr_sensor_type request)
        (tr_data_points request) in
    if (length values <? 10)%nat then
      inl (HTTP_400 ("Not enough data. Need 10+, have " +:+ pretty (length values)))
    else
      match preprocessing.prepare_for_model np_sqrt (preprocessing.new 10) values true with
      | Ok training_data => inr training_data
      | Raise e => inl (HTTP_500 (str_exn e))
      end
  else
    match tr_training_data request with
    | Some (row :: rows) => inr (row :: rows)
    | _ => inl (HTTP_400 "Either use_recent_data or training_data required")
    end.

Definition train (db : DB) (disk : gmap string IsolationForestDetector) (now : Z)
    (request : TrainRequest)
  : gmap string IsolationForestDetector * Response TrainData :=
  if negb (train_request_valid request) then
    (disk, HTTP_400 "invalid training request")
  else
    let sensor_type := tr_sensor_type request in
    let detector := load_detector_from_disk BASE_DIR disk sensor_type in
    match training_matrix db request with
    | inl response => (disk, response)
    | inr training_data =>
        let '(detector, outcome) :=
          anomaly_detector.train sk_fit np_sqrt detector now training_data in
        match outcome with
        | Raise e => (disk, HTTP_500 (str_exn e))
        | Ok stats =>
            let '(disk', saved) :=
              save_detector_to_disk BASE_DIR disk detector sensor_type in
            if negb saved then
              (disk', HTTP_500 "Model trained but failed to save to disk")
            else
              (disk', HTTP_200 {|
                 td_message := "Model trained and saved for " +:+ sensor_type;
                 td_training_scope :=
                   if tr_use_recent_data request then "global (all plots)"
                   else "custom data";
                 td_stats := stats;
                 td_model_path := get_model_path BASE_DIR sensor_type |})
        end
    end.

Definition model_status (disk : gmap string IsolationForestDetector)
    (sensor_type : string) : ModelStatus :=
  let detector := load_detector_from_disk BASE_DIR disk sensor_type in
  let model_path := get_model_path BASE_DIR sensor_type in
  let model_exists_on_disk := bool_decide (is_Some (disk !! model_path)) in
  {| ms_trained := is_trained detector;
     ms_training_data_size := training_data_size detector;
     ms_training_date := training_date detector;
     ms_saved_to_disk := model_exists_on_disk;
     ms_model_path := if model_exists_on_disk then Some model_path else None |}.

(** [get_status]: one entry per sensor type, in the order of the loop. *)
Definition get_status (disk : gmap string IsolationForestDetector)
  : list (string * ModelStatus) :=
  map (λ sensor_type, (sensor_type, model_status disk sensor_type))
      ["moisture"; "temperature"; "humidity"].

End with_settings.
End training_views.

(** ** ai_agent/views.py *)

Module agent_views.
Import models views.

(** The body of a successful [process_single_anomaly] response. *)
Record ProcessedData : Type := {
  pd_anomaly_id : Z;
  pd_recommendation : AgentRecommendation
}.

(** [get_object_or_404(AnomalyEvent, id=anomaly_id)]. *)
Definition get_anomaly (db : DB) (anomaly_id : Z) : option AnomalyEvent :=
  snd <$> list_find (λ a, ae_id a = anomaly_id) (anomaly_events db).

Definition process_single_anomaly (db : DB) (now : Z) (anomaly_id : Z)
  : DB * Response ProcessedData :=
  match get_anomaly db anomaly_id with
  | None => (db, HTTP_404 "No AnomalyEvent matches the given query.")
  | Some anomaly =>
      match agent_service.process_anomaly db now anomaly with
      | (db', Ok recommendation) =>
          (db', HTTP_200 {| pd_anomaly_id := ae_id anomaly;
                            pd_recommendation := recommendation |})
      | (db', Raise e) => (db', HTTP_500 (str_exn e))
      end
  end.

End agent_views.

(** ** ml_evaluation.py *)

Module ml_evaluation.
Import models anomaly_detector views.
Local Open Scope Q_scope.

Definition NORMAL_RANGES : gmap string (Z * Z) :=
  {[ "moisture" := (45, 75)%Z;
     "temperature" := (18, 28)%Z;
     "humidity" := (45, 75)%Z ]}.

(** The label of one value: 1 inside the range, -1 outside. *)
Definition range_label (bounds : Z * Z) (v : Q) : Z :=
  if py.leb (inject_Z bounds.1) v && py.leb v (inject_Z bounds.2) then 1%Z else (-1)%Z.

(** An exception of the script: the [KeyError] of an unknown sensor type,
    or one raised by the code it calls. *)
Inductive eval_error : Type :=
| KeyError (key : string)
| Propagated (e : exn).

Inductive eval_result (A : Type) : Type :=
| Returned (a : A)
| Raised (e : eval_error).
Arguments Returned {A} a.
Arguments Raised {A} e.

#[export] Instance eval_result_bind : MBind eval_result := λ A B k m,
  match m with
  | Returned a => k a
  | Raised e => Raised e
  end.

Definition create_ground_truth (values : list Q) (sensor_type : string)
  : eval_result (list Z) :=
  match NORMAL_RANGES !! sensor_type with
  | None => Raised (KeyError sensor_type)
  | Some bounds => Returned (map (range_label bounds) values)
  end.

(** The dictionary [evaluate_sensor] returns, in percent. *)
Record Metrics : Type := {
  Acc : Q;
  Prec : Q;
  Rec : Q;
  F1 : Q
}.

Section with_settings.
(** [settings.BASE_DIR], numpy's square root, and the four metrics of
    scikit-learn as the script calls them (anomalies as the positive
    label, 0 on a zero division). *)
Variable BASE_DIR : string.
Variable np_sqrt : Q → Q.
Variable accuracy_score precision_score recall_score f1_score
  : list Z → list Z → result Q.

Definition lift {A} (m : result A) : eval_result A :=
  match m with
  | Ok a => Returned a
  | Raise e => Raised (Propagated e)
  end.

(** [evaluate_sensor]: [None] when the model is untrained or there are
    fewer than 20 values; the labels are cut at index 9 so that label
    [i] is the one of the last value of window [i]. *)
Definition evaluate_sensor (db : DB) (disk : gmap string IsolationForestDetector)
    (sensor_type : string) (n_samples : nat) : eval_result (option Metrics) :=
  let detector := load_detector_from_disk BASE_DIR disk sensor_type in
  if negb (is_trained detector) then Returned None
  else
    let values := preprocessing.get_recent_readings_all_plots db sensor_type n_samples in
    if (length values <? 20)%nat then Returned None
    else
      y_true ← create_ground_truth values sensor_type;
      X ← lift (preprocessing.prepare_for_model np_sqrt (preprocessing.new 10) values true);
      let y_true_w := drop 9 y_true in
      y_pred ← lift (predict detector X);
      acc ← lift (accuracy_score y_true_w y_pred);
      prec ← lift (precision_score y_true_w y_pred);
      rec ← lift (recall_score y_true_w y_pred);
      f1 ← lift (f1_score y_true_w y_pred);
      Returned (Some {| Acc := acc * 100; Prec := prec * 100;
                        Rec := rec * 100; F1 := f1 * 100 |}).

(** The default of the keyword argument [n_samples]. *)
Definition default_n_samples : nat := 150.

End with_settings.
End ml_evaluation.

(** ** Predicates used to state the properties *)

Module spec.
Import models.
Local Open Scope Q_scope.

(** The percent change of the consecutive pair at positions [i] and
    [i + 1], defined when the earlier value is not zero; its magnitude is
    what the source keeps. *)
Definition pair_change (values : list Q) (i : nat) (c : Q) : Prop :=
  ∃ a b, values !! i = Some a ∧ values !! S i = Some b
         ∧ ¬ a == 0 ∧ c = Qabs ((b - a) / a) * 100.

(** Every anomaly event has at most one recommendation. *)
Definition one_recommendation_per_event (db : DB) : Prop :=
  NoDup (rec_anomaly_event <$> agent_recommendations db).

(** The reading with the latest timestamp among the positions from [i]
    on: no reading there is newer than [r]. *)
Definition newest_from (readings_list : list SensorReading) (i : nat)
    (r : SensorReading) : Prop :=
  readings_list !! i = Some r
  ∧ ∀ (j : nat) (r' : SensorReading),
      (i ≤ j)%nat → readings_list !! j = Some r' →
      (sr_timestamp r' ≤ sr_timestamp r)%Z.

(** The plot filter of [get_pending_anomalies]: no plot, or the plot id 0,
    which Python takes for false, selects every plot. *)
Definition plot_selected (plot_id : option Z) (a : AnomalyEvent) : Prop :=
  match plot_id with
  | Some p => p = 0%Z ∨ ae_plot a = p
  | None => True
  end.

End spec.

(** ** Sample data *)

Module examples.
Import models anomaly_detector rule_engine.
Local Open Scope Q_scope.

(** A forest whose label is anomalous below a mean of 40, with score
    [-0.6] there and [0.1] elsewhere; the mean is the first feature. *)
Definition threshold_forest : IsolationForest := {|
  contamination := 0.1;
  sk_predict := λ data,
    Ok (map (λ row, if py.ltb (default 0 (head row)) 40 then (-1)%Z else 1%Z) data);
  sk_score_samples := λ data,
    Ok (map (λ row, if py.ltb (default 0 (head row)) 40 then -0.6 else 0.1) data)
|}.

Definition trained_detector : IsolationForestDetector := {|
  model := threshold_forest;
  is_trained := true;
  training_data_size := 50;
  training_date := Some 1730600000%Z
|}.

(** A square root by four Newton steps, enough for the sample data. *)
Definition newton_sqrt (x : Q) : Q :=
  if py.leb x 0 then 0
  else
    let step y := Qred ((y + x / y) / 2) in
    step (step (step (step (Qred ((x + 1) / 2))))).

Definition moisture_reading (id : Z) (value : Q) (timestamp : Z) : SensorReading := {|
  sr_id := id;
  sr_plot := 1;
  sr_sensor_type := "moisture";
  sr_value := value;
  sr_timestamp := timestamp
|}.

(** Eleven moisture readings of plot 1, one per minute, stored oldest
    first; the values fall from 38 to 28. *)
Definition dry_readings : list SensorReading :=
  imap (λ i v, moisture_reading (Z.of_nat i + 1) v (1730665020 + 60 * Z.of_nat i))
       [38; 37; 36; 35; 34; 33; 32; 31; 30; 29; 28].

Definition dry_db : DB := {|
  field_plots := [1%Z];
  sensor_readings := dry_readings;
  anomaly_events := [];
  agent_recommendations := [];
  anomaly_event_seq := 1;
  agent_recommendation_seq := 1
|}.

Definition base_dir : string := "/srv/backend".

Definition model_files : gmap string IsolationForestDetector :=
  {[ "/srv/backend/trained_models/moisture_model.pkl" := trained_detector ]}.

(** A moisture anomaly raised on a reading of 30. *)
Definition drought_anomaly : AnomalyEvent := {|
  ae_id := 7;
  ae_plot := 1;
  ae_sensor_reading := Some (moisture_reading 9 30 1730665500);
  ae_anomaly_type := "moisture_anomaly";
  ae_severity := "high";
  ae_model_confidence := 0.9;
  ae_timestamp := 1730665560
|}.

(** A context in which the sudden-drop rule would match as well. *)
Definition drought_context : Context := {|
  recent_value := Some 30;
  change_rate := Some (-50);
  trend := "decreasing";
  multiple_anomalies := false;
  sensor_type := Some "moisture";
  historical_avg := Some 45;
  time_of_day := Some "20:26"
|}.

(** A humidity anomaly whose triggering reading is missing. *)
Definition orphan_humidity_anomaly : AnomalyEvent := {|
  ae_id := 8;
  ae_plot := 1;
  ae_sensor_reading := None;
  ae_anomaly_type := "humidity_anomaly";
  ae_severity := "medium";
  ae_model_confidence := 0.8;
  ae_timestamp := 1730665560
|}.

(** A plot with a single moisture reading, and an anomaly raised on it. *)
Definition lone_reading : SensorReading := {|
  sr_id := 100;
  sr_plot := 2;
  sr_sensor_type := "moisture";
  sr_value := 50;
  sr_timestamp := 1730665020
|}.

Definition lone_db : DB := {|
  field_plots := [2%Z];
  sensor_readings := [lone_reading];
  anomaly_events := [];
  agent_recommendations := [];
  anomaly_event_seq := 1;
  agent_recommendation_seq := 1
|}.

Definition lone_anomaly : AnomalyEvent := {|
  ae_id := 1;
  ae_plot := 2;
  ae_sensor_reading := Some lone_reading;
  ae_anomaly_type := "moisture_anomaly";
  ae_severity := "medium";
  ae_model_confidence := 1;
  ae_timestamp := 1730665080
|}.

(** A humidity context whose reading is exactly 0. *)
Definition zero_humidity_context : Context := {|
  recent_value := Some 0;
  change_rate := None;
  trend := "unknown";
  multiple_anomalies := false;
  sensor_type := Some "humidity";
  historical_avg := None;
  time_of_day := None
|}.

(** Twenty moisture readings of plot 1, one per minute: eighteen at 60,
    then 30 and 28. *)
Definition steady_readings : list SensorReading :=
  imap (λ i v, moisture_reading (Z.of_nat i + 1) v (1730665020 + 60 * Z.of_nat i))
       (replicate 18 60 ++ [30; 28]).

Definition steady_db : DB := {|
  field_plots := [1%Z];
  sensor_readings := steady_readings;
  anomaly_events := [];
  agent_recommendations := [];
  anomaly_event_seq := 1;
  agent_recommendation_seq := 1
|}.

End examples.

(** * Properties *)

(** ** Comparisons, [min] and [round] on exact rationals *)

Section py_facts.
Local Open Scope Q_scope.

Lemma ltb_true (x y : Q) : py.ltb x y = true ↔ x < y.
Proof.
  unfold py.ltb. destruct (Qlt_le_dec x y) as [Hlt | Hle]; split; intros H.
  - exact Hlt.
  - reflexivity.
  - discriminate H.
  - exfalso. apply (Qlt_not_le _ _ H Hle).
Qed.

Lemma ltb_false (x y : Q) : py.ltb x y = false ↔ y <= x.
Proof.
  unfold py.ltb. destruct (Qlt_le_dec x y) as [Hlt | Hle]; split; intros H.
  - discriminate H.
  - exfalso. apply (Qlt_not_le _ _ Hlt H).
  - exact Hle.
  - reflexivity.
Qed.

Lemma gtb_true (x y : Q) : py.gtb x y = true ↔ y < x.
Proof. apply ltb_true. Qed.

Lemma gtb_false (x y : Q) : py.gtb x y = false ↔ x <= y.
Proof. apply ltb_false. Qed.

Lemma geb_true (x y : Q) : py.geb x y = true ↔ y <= x.
Proof. apply Qle_bool_iff. Qed.

Lemma neqb_true (x y : Q) : py.neqb x y = true ↔ ¬ x == y.
Proof.
  unfold py.neqb. rewrite negb_true_iff. split.
  - intros H Heq. apply Qeq_bool_iff in Heq. congruence.
  - intros H. destruct (Qeq_bool x y) eqn:E; [|reflexivity].
    exfalso. apply H. apply Qeq_bool_iff. exact E.
Qed.

Lemma min_Qmin (a b : Q) : py.min a b == Qmin a b.
Proof.
  unfold py.min. destruct (py.ltb b a) eqn:E.
  - apply ltb_true in E. symmetry. apply Q.min_r. apply Qlt_le_weak, E.
  - apply ltb_false in E. symmetry. apply Q.min_l. exact E.
Qed.

Lemma min_bounds (a b : Q) : 0 <= a → 0 <= b → 0 <= py.min a b ∧ py.min a b <= b.
Proof.
  intros Ha Hb. unfold py.min. destruct (py.ltb b a) eqn:E.
  - split; [exact Hb | apply Qle_refl].
  - apply ltb_false in E. split; [exact Ha | exact E].
Qed.

Lemma round_half_even_cases (x : Q) :
  py.round_half_even x = Qfloor x
  ∨ (py.round_half_even x = (Qfloor x + 1)%Z ∧ inject_Z (Qfloor x) < x).
Proof.
  unfold py.round_half_even.
  destruct (x - inject_Z (Qfloor x) ?= 1 # 2) eqn:E.
  - apply Qeq_alt in E. destruct (Z.even (Qfloor x)); [left; reflexivity|].
    right. split; [reflexivity | lra].
  - left. reflexivity.
  - apply Qgt_alt in E. right. split; [reflexivity | lra].
Qed.

Lemma round_half_even_bounds (x : Q) (n : Z) :
  0 <= x → x <= inject_Z n → (0 ≤ py.round_half_even x ≤ n)%Z.
Proof.
  intros H0 Hn.
  assert (Hf0 : (0 ≤ Qfloor x)%Z).
  { change 0%Z with (Qfloor (inject_Z 0)). apply Qfloor_resp_le. exact H0. }
  assert (Hfn : (Qfloor x ≤ n)%Z).
  { rewrite <- (Qfloor_Z n). apply Qfloor_resp_le. exact Hn. }
  destruct (round_half_even_cases x) as [-> | [-> Hlt]]; [lia|].
  split; [lia|].
  assert (Hlt' : inject_Z (Qfloor x) < inject_Z n) by (eapply Qlt_le_trans; eauto).
  rewrite <- Zlt_Qlt in Hlt'. lia.
Qed.

Lemma pow10_pos (n : nat) : 0 < py.pow10 n.
Proof.
  unfold py.pow10. change 0 with (inject_Z 0). rewrite <- Zlt_Qlt.
  apply Z.pow_pos_nonneg; lia.
Qed.

Lemma round_unit_interval (x : Q) (ndigits : nat) :
  0 <= x <= 1 → 0 <= py.round x ndigits <= 1.
Proof.
  intros [H0 H1]. unfold py.round.
  pose proof (pow10_pos ndigits) as Hp.
  assert (Hs0 : 0 <= x * py.pow10 ndigits) by (apply Qmult_le_0_compat; lra).
  assert (Hs1 : x * py.pow10 ndigits <= inject_Z (10 ^ Z.of_nat ndigits)).
  { fold (py.pow10 ndigits). rewrite <- (Qmult_1_l (py.pow10 ndigits)) at 2.
    apply Qmult_le_compat_r; lra. }
  destruct (round_half_even_bounds _ _ Hs0 Hs1) as [Hr0 Hr1].
  rewrite Zle_Qle in Hr0, Hr1. fold (py.pow10 ndigits) in Hr1.
  change (inject_Z 0) with 0 in Hr0.
  split.
  - apply Qle_shift_div_l; [exact Hp|]. rewrite Qmult_0_l. exact Hr0.
  - apply Qle_shift_div_r; [exact Hp|]. rewrite Qmult_1_l. exact Hr1.
Qed.

End py_facts.

(** ** Preprocessor *)

Section preprocessing_facts.
Import preprocessing spec.
Local Open Scope Q_scope.

Lemma slice_length {A} (xs : list A) (i n : nat) :
  (i + n ≤ length xs)%nat → length (py.slice xs i (i + n)) = n.
Proof.
  intros H. unfold py.slice. rewrite length_take, length_drop. lia.
Qed.

Lemma slice_lookup {A} (xs : list A) (i n j : nat) :
  (j < n)%nat → py.slice xs i (i + n) !! j = xs !! (i + j)%nat.
Proof.
  intros H. unfold py.slice.
  replace (i + n - i)%nat with n by lia.
  rewrite lookup_take_lt by exact H. apply lookup_drop.
Qed.

Lemma create_windows_enough (self : SensorDataPreprocessor) (values : list Q) :
  (window_size self ≤ length values)%nat →
  create_windows self values =
    Ok (map (λ i, py.slice values i (i + window_size self))
            (seq 0 (length values - window_size self + 1))).
Proof.
  intros H. unfold create_windows.
  destruct (Nat.ltb_spec (length values) (window_size self)); [lia | reflexivity].
Qed.

(** C6. With [len(values) = window_size + k], [create_windows] returns
    exactly [k + 1] windows; window [i] has length [window_size] and its
    element [j] is [values[i + j]], that is, it is [values[i:i+window_size]].
    With fewer than [window_size] values it raises the error for
    insufficient data, a [ValueError]. *)
Theorem C6_create_windows (self : SensorDataPreprocessor) (values : list Q) :
  (∀ k : nat, length values = (window_size self + k)%nat →
     ∃ windows,
       create_windows self values = Ok windows
       ∧ length windows = (k + 1)%nat
       ∧ ∀ i : nat, (i ≤ k)%nat →
           ∃ w, windows !! i = Some w
                ∧ w = py.slice values i (i + window_size self)
                ∧ length w = window_size self
                ∧ ∀ j : nat, (j < window_size self)%nat → w !! j = values !! (i + j)%nat)
  ∧ ((length values < window_size self)%nat →
     create_windows self values =
       Raise (ValueError ("Not enough data points. Need at least "
                          +:+ pretty (window_size self) +:+ ", got "
                          +:+ pretty (length values)))).
Proof.
  split.
  - intros k Hlen. eexists. split; [apply create_windows_enough; lia|].
    replace (length values - window_size self + 1)%nat with (k + 1)%nat by lia.
    split; [by rewrite length_map, length_seq|].
    intros i Hi. eexists. split; [|split; [reflexivity|split]].
    + rewrite list_lookup_fmap, lookup_seq_lt by lia. reflexivity.
    + apply slice_length. lia.
    + intros j Hj. by apply slice_lookup.
  - intros Hlt. unfold create_windows.
    destruct (Nat.ltb_spec (length values) (window_size self)); [reflexivity | lia].
Qed.

Lemma C6_create_windows_witness :
  (∃ windows,
     create_windows (preprocessing.new 3) [60; 58; 56; 55; 40] = Ok windows
     ∧ windows = [[60; 58; 56]; [58; 56; 55]; [56; 55; 40]])
  ∧ create_windows (preprocessing.new 3) [60; 58] =
      Raise (ValueError "Not enough data points. Need at least 3, got 2").
Proof.
  split.
  - destruct (proj1 (C6_create_windows (preprocessing.new 3) [60; 58; 56; 55; 40]) 2%nat)
      as (windows & Hok & _); [reflexivity|].
    exists windows. split; [exact Hok|].
    vm_compute in Hok. by injection Hok as <-.
  - apply (proj2 (C6_create_windows (preprocessing.new 3) [60; 58])).
    simpl. lia.
Defined.

Lemma elem_of_percent_changes (values : list Q) (c : Q) :
  c ∈ percent_changes values ↔ ∃ i, pair_change values i c.
Proof.
  induction values as [|prev rest IH]; simpl.
  - split; [intros H; inversion H|]. intros (i & a & b & H & _). discriminate H.
  - destruct rest as [|cur rest'].
    + split; [intros H; inversion H|].
      intros (i & a & b & _ & H & _). destruct i; discriminate H.
    + destruct (py.neqb prev 0) eqn:E.
      * rewrite elem_of_cons, IH. apply neqb_true in E. split.
        -- intros [-> | (i & a & b & Ha & Hb & Hnz & Hc)].
           ++ exists 0%nat, prev, cur. by repeat split.
           ++ exists (S i), a, b. by repeat split.
        -- intros (i & a & b & Ha & Hb & Hnz & Hc). destruct i as [|i].
           ++ left. simpl in Ha, Hb. by simplify_eq.
           ++ right. exists i, a, b. by repeat split.
      * rewrite IH. split.
        -- intros (i & a & b & Ha & Hb & Hnz & Hc).
           exists (S i), a, b. by repeat split.
        -- intros (i & a & b & Ha & Hb & Hnz & Hc). destruct i as [|i].
           ++ simpl in Ha. simplify_eq. apply neqb_true in Hnz. congruence.
           ++ exists i, a, b. by repeat split.
Qed.

Lemma max_list_spec (x : Q) (xs : list Q) :
  py.max_list x xs ∈ x :: xs ∧ ∀ y, y ∈ x :: xs → y <= py.max_list x xs.
Proof.
  unfold py.max_list. revert x. induction xs as [|z xs IH]; intros x; simpl.
  - split; [left|]. intros y Hy. apply list_elem_of_singleton in Hy as ->. apply Qle_refl.
  - destruct (py.gtb z x) eqn:E.
    + apply gtb_true in E. destruct (IH z) as [Hin Hmax]. split.
      * right. exact Hin.
      * intros y Hy. apply elem_of_cons in Hy as [-> | Hy].
        -- eapply Qle_trans; [apply Qlt_le_weak, E|]. apply Hmax. left.
        -- apply Hmax. exact Hy.
    + apply gtb_false in E. destruct (IH x) as [Hin Hmax]. split.
      * apply elem_of_cons in Hin as [Hin | Hin]; [rewrite Hin; left | right; right; exact Hin].
      * intros y Hy. apply elem_of_cons in Hy as [-> | Hy]; [apply Hmax; left|].
        apply elem_of_cons in Hy as [-> | Hy].
        -- eapply Qle_trans; [exact E|]. apply Hmax. left.
        -- apply Hmax. right. exact Hy.
Qed.

Lemma check_rapid_change_changes (self : SensorDataPreprocessor) (values : list Q)
    (threshold_percent : Q) :
  check_rapid_change self values threshold_percent =
    match percent_changes values with
    | [] => (false, 0)
    | c :: cs => (py.geb (py.max_list c cs) threshold_percent, py.max_list c cs)
    end.
Proof.
  unfold check_rapid_change.
  destruct values as [|a [|b rest]]; try reflexivity.
Qed.




End preprocessing_facts.

(** ** Novelty detector *)

Section detector_facts.
Import anomaly_detector examples.
Local Open Scope Q_scope.

(** C8. On an untrained detector [predict], [get_anomaly_scores] and
    [save_model] all fail with the not-trained error, a [ValueError]. *)
Theorem C8_untrained_detector_raises (self : IsolationForestDetector)
    (data : list (list Q)) (filepath : string)
    (disk : gmap string IsolationForestDetector) :
  is_trained self = false →
  predict self data = Raise (ValueError "Model not trained yet! Call train() first.")
  ∧ get_anomaly_scores self data
    = Raise (ValueError "Model not trained yet! Call train() first.")
  ∧ save_model self filepath disk = Raise (ValueError "Cannot save untrained model").
Proof.
  intros H. unfold predict, get_anomaly_scores, save_model. rewrite H. by repeat split.
Qed.

Lemma C8_untrained_detector_raises_witness :
  is_trained (anomaly_detector.new 0.1) = false
  ∧ predict (anomaly_detector.new 0.1) [[1; 2; 3; 4; 5]]
    = Raise (ValueError "Model not trained yet! Call train() first.")
  ∧ save_model (anomaly_detector.new 0.1) "moisture_model.pkl" ∅
    = Raise (ValueError "Cannot save untrained model").
Proof.
  split; [reflexivity|].
  destruct (C8_untrained_detector_raises (anomaly_detector.new 0.1) [[1; 2; 3; 4; 5]]
              "moisture_model.pkl" ∅ eq_refl) as (H1 & _ & H3).
  split; [exact H1 | exact H3].
Defined.

Lemma calculate_severity_cases (score : Q) (flag : bool) :
  (flag = false → _calculate_severity score flag = "NORMAL")
  ∧ (flag = true →
       (score < -0.4 → _calculate_severity score flag = "CRITICAL")
       ∧ (-0.4 <= score → score < -0.3 → _calculate_severity score flag = "HIGH")
       ∧ (-0.3 <= score → score < -0.2 → _calculate_severity score flag = "MEDIUM")
       ∧ (-0.2 <= score → _calculate_severity score flag = "LOW")).
Proof.
  unfold _calculate_severity. split; [intros ->; reflexivity|]. intros ->. simpl.
  destruct (py.ltb score (-0.4)) eqn:E4; [apply ltb_true in E4 | apply ltb_false in E4];
  destruct (py.ltb score (-0.3)) eqn:E3; [apply ltb_true in E3 | apply ltb_false in E3
                                         | apply ltb_true in E3 | apply ltb_false in E3];
  destruct (py.ltb score (-0.2)) eqn:E2;
    try apply ltb_true in E2; try apply ltb_false in E2;
  repeat split; intros; try reflexivity; exfalso; lra.
Qed.

Lemma detect_row_spec (min_confidence : Q) (i : nat) (pred : Z) (score : Q) :
  let r := detect_row min_confidence i (pred, score) in
  index r = i ∧ anomaly_score r = score
  ∧ (pred = (-1)%Z → confidence r == Qmin 1 (Qabs score / 0.5))
  ∧ (pred ≠ (-1)%Z → 0 < score → confidence r == Qmin 1 (score / 0.5))
  ∧ (pred ≠ (-1)%Z → score <= 0 → confidence r == 0)
  ∧ (is_anomaly r = true ↔ pred = (-1)%Z ∧ min_confidence <= confidence r)
  ∧ severity r = _calculate_severity score (is_anomaly r).
Proof.
  cbv zeta. unfold detect_row. simpl.
  destruct (Z.eqb_spec pred (-1)) as [-> | Hne]; simpl.
  - repeat split; try done.
    + intros _. apply min_Qmin.
    + by apply geb_true.
    + intros [_ H]. by apply geb_true.
  - repeat split; try done.
    + intros _ Hpos. apply gtb_true in Hpos. rewrite Hpos. apply min_Qmin.
    + intros _ Hle. apply gtb_false in Hle. by rewrite Hle.
    + intros [H _]. done.
Qed.

(** C3. For a trained detector whose forest returns the labels [preds]
    and the scores [scores], [detect_with_confidence] returns one entry
    per row: the confidence is [min(1, |score| / 0.5)] on a row labelled
    anomalous, else [min(1, score / 0.5)] for a positive score and 0
    otherwise; the row is finally anomalous iff it is labelled anomalous
    and its confidence reaches [min_confidence]; the severity is NORMAL
    when it is not finally anomalous, and else CRITICAL, HIGH, MEDIUM or
    LOW by the cut points -0.4, -0.3 and -0.2 on the raw score. *)
Theorem C3_detect_with_confidence (self : IsolationForestDetector)
    (data : list (list Q)) (min_confidence : Q) (preds : list Z) (scores : list Q) :
  is_trained self = true →
  sk_predict (model self) data = Ok preds →
  sk_score_samples (model self) data = Ok scores →
  ∃ results,
    detect_with_confidence self data min_confidence = Ok results
    ∧ length results = Nat.min (length preds) (length scores)
    ∧ ∀ (i : nat) (pred : Z) (score : Q),
        preds !! i = Some pred → scores !! i = Some score →
        ∃ r, results !! i = Some r
          ∧ index r = i ∧ anomaly_score r = score
          ∧ (pred = (-1)%Z → confidence r == Qmin 1 (Qabs score / 0.5))
          ∧ (pred ≠ (-1)%Z → 0 < score → confidence r == Qmin 1 (score / 0.5))
          ∧ (pred ≠ (-1)%Z → score <= 0 → confidence r == 0)
          ∧ (is_anomaly r = true ↔ pred = (-1)%Z ∧ min_confidence <= confidence r)
          ∧ (is_anomaly r = false → severity r = "NORMAL")
          ∧ (is_anomaly r = true →
               (score < -0.4 → severity r = "CRITICAL")
               ∧ (-0.4 <= score → score < -0.3 → severity r = "HIGH")
               ∧ (-0.3 <= score → score < -0.2 → severity r = "MEDIUM")
               ∧ (-0.2 <= score → severity r = "LOW")).
Proof.
  intros Htrained Hpred Hscore.
  exists (imap (detect_row min_confidence) (zip preds scores)).
  split.
  { unfold detect_with_confidence, predict, get_anomaly_scores.
    rewrite Htrained, Hpred, Hscore. reflexivity. }
  split; [by rewrite length_imap, length_zip_with|].
  intros i pred score Hp Hs.
  exists (detect_row min_confidence i (pred, score)). split.
  { rewrite list_lookup_imap, lookup_zip_with, Hp, Hs. reflexivity. }
  destruct (detect_row_spec min_confidence i pred score)
    as (Hi & Ha & Hc1 & Hc2 & Hc3 & Hfinal & Hsev).
  repeat split; try assumption; try (by apply Hfinal).
  - intros Hflag. rewrite Hsev. by apply calculate_severity_cases.
  - rewrite Hsev. by apply calculate_severity_cases.
  - rewrite Hsev. by apply calculate_severity_cases.
  - rewrite Hsev. by apply calculate_severity_cases.
  - rewrite Hsev. by apply calculate_severity_cases.
Qed.

Lemma C3_detect_with_confidence_witness :
  ∃ results,
    detect_with_confidence trained_detector [[30; 1; 28; 32; 4]; [60; 1; 58; 62; 4]]
                           default_min_confidence = Ok results
    ∧ (is_anomaly <$> results) = [true; false]
    ∧ (severity <$> results) = ["CRITICAL"; "NORMAL"].
Proof.
  destruct (C3_detect_with_confidence trained_detector
              [[30; 1; 28; 32; 4]; [60; 1; 58; 62; 4]] default_min_confidence
              [(-1)%Z; 1%Z] [-0.6; 0.1] eq_refl eq_refl eq_refl)
    as (results & Hok & _).
  exists results. split; [exact Hok|].
  vm_compute in Hok. injection Hok as <-. split; reflexivity.
Defined.

End detector_facts.

(** ** Rule engine *)

Section rule_engine_facts.
Import models rule_engine examples.
Local Open Scope Q_scope.
Local Arguments _build_explanation : simpl never.
Local Arguments py.format_fixed : simpl never.
Local Arguments String.append : simpl never.
Local Arguments py.round : simpl never.
Local Arguments py.min : simpl never.
Local Arguments _calculate_confidence : simpl never.
Local Arguments py.ltb : simpl never.
Local Arguments inject_Z : simpl never.

Lemma moisture_thresholds :
  critical_thresholds !!! "moisture" = {| critical_low := 35; critical_high := 80 |}.
Proof. reflexivity. Qed.

Lemma temperature_thresholds :
  critical_thresholds !!! "temperature" = {| critical_low := 10; critical_high := 32 |}.
Proof. reflexivity. Qed.

Lemma humidity_thresholds :
  critical_thresholds !!! "humidity" = {| critical_low := 30; critical_high := 85 |}.
Proof. reflexivity. Qed.

(** Unfolds one monadic step of an analyzer in hypothesis [H]. *)
Ltac step_in H :=
  match type of H with
  | context [bool_decide ?P] => destruct (bool_decide P) eqn:?
  | context [if ?b then _ else _] => destruct b eqn:?
  end; cbn in H.

Ltac run_analyzer H := cbn in H; repeat step_in H; try discriminate H.

Lemma calculate_confidence_bounds (model_confidence : Q) (rate : option Q) (c : Q) :
  0 <= model_confidence <= 1 →
  _calculate_confidence model_confidence rate = Ok c →
  0 <= c <= 1.
Proof.
  intros Hmc H. unfold _calculate_confidence in H.
  destruct rate as [x|]; [|discriminate H]. cbn in H.
  injection H as <-. apply round_unit_interval.
  repeat match goal with
         | |- context [if ?b then _ else _] => destruct b
         end;
    try (destruct (min_bounds (model_confidence + 0.2) 1); lra);
    try (destruct (min_bounds (model_confidence + 0.15) 1); lra);
    try (destruct (min_bounds (model_confidence + 0.1) 1); lra);
    lra.
Qed.

Ltac close_bounds :=
  match goal with
  | |- 0 <= py.min ?a ?b <= 1 => destruct (min_bounds a b); lra
  | H : _calculate_confidence _ _ = Ok _ |- _ =>
      eapply calculate_confidence_bounds; [|exact H]; assumption
  | _ => lra
  end.

Lemma moisture_confidence_bounds (a : AnomalyEvent) (ctx : Context) (r : Analysis) :
  0 <= ae_model_confidence a <= 1 →
  _analyze_moisture_anomaly a ctx = Ok r → 0 <= confidence r <= 1.
Proof.
  intros Hmc H. unfold _analyze_moisture_anomaly in H.
  destruct (recent_value ctx) as [v|]; destruct (change_rate ctx) as [c|];
    run_analyzer H;
    try (destruct (_calculate_confidence _ _) eqn:Hcc; cbn in H; try discriminate H);
    injection H as <-; cbn; close_bounds.
Qed.

Lemma temperature_confidence_bounds (a : AnomalyEvent) (ctx : Context) (r : Analysis) :
  0 <= ae_model_confidence a <= 1 →
  _analyze_temperature_anomaly a ctx = Ok r → 0 <= confidence r <= 1.
Proof.
  intros Hmc H. unfold _analyze_temperature_anomaly in H.
  destruct (recent_value ctx) as [v|]; destruct (change_rate ctx) as [c|];
    destruct (historical_avg ctx) as [h|];
    run_analyzer H; injection H as <-; cbn; close_bounds.
Qed.

Lemma humidity_confidence_bounds (a : AnomalyEvent) (ctx : Context) (r : Analysis) :
  0 <= ae_model_confidence a <= 1 →
  _analyze_humidity_anomaly a ctx = Ok r → 0 <= confidence r <= 1.
Proof.
  intros Hmc H. unfold _analyze_humidity_anomaly in H.
  destruct (recent_value ctx) as [v|];
    run_analyzer H; injection H as <-; cbn; close_bounds.
Qed.

Lemma generic_confidence_bounds (a : AnomalyEvent) (ctx : Context) (r : Analysis) :
  0 <= ae_model_confidence a <= 1 →
  _analyze_generic_anomaly a ctx = Ok r → 0 <= confidence r <= 1.
Proof.
  intros Hmc H. unfold _analyze_generic_anomaly in H.
  run_analyzer H; injection H as <-; cbn; close_bounds.
Qed.

Lemma dispatch_confidence_bounds (a : AnomalyEvent) (ctx : Context) (r : Analysis) :
  0 <= ae_model_confidence a <= 1 →
  analyze_with_context a ctx = Ok r →
  0 <= confidence r <= 1.
Proof.
  intros Hmc H. unfold analyze_with_context in H.
  destruct (py.contains "moisture" _);
    [by eapply moisture_confidence_bounds|].
  destruct (py.contains "temperature" _);
    [by eapply temperature_confidence_bounds|].
  destruct (py.contains "humidity" _);
    [by eapply humidity_confidence_bounds|].
  by eapply generic_confidence_bounds.
Qed.

(** C9. Whenever the model confidence of the anomaly lies in [0, 1], the
    confidence of the result the rule engine returns lies in [0, 1]: for
    every context given to the dispatch, through every branch of the four
    rule sets and the boost of [_calculate_confidence], and so for the
    context [analyze_anomaly] builds from the stored readings. *)
Theorem C9_confidence_in_unit_interval (a : AnomalyEvent) (ctx : Context)
    (r : Analysis) :
  0 <= ae_model_confidence a <= 1 →
  (analyze_with_context a ctx = Ok r → 0 <= confidence r <= 1)
  ∧ (∀ db, analyze_anomaly db a = Ok r → 0 <= confidence r <= 1)
  ∧ (∀ rate c, _calculate_confidence (ae_model_confidence a) rate = Ok c →
               0 <= c <= 1).
Proof.
  intros Hmc. split; [|split].
  - by apply dispatch_confidence_bounds.
  - intros db. by apply dispatch_confidence_bounds.
  - intros rate c. by apply calculate_confidence_bounds.
Qed.

Lemma moisture_critical_low (a : AnomalyEvent) (ctx : Context) (v : Q) :
  recent_value ctx = Some v → v < 35 →
  ∃ r, _analyze_moisture_anomaly a ctx = Ok r
    ∧ recommended_action r
      = "URGENT: Immediate irrigation required - crops under severe drought stress"
    ∧ priority r = "high"
    ∧ confidence r = py.min (ae_model_confidence a + 0.15) 1.
Proof.
  intros Hv Hlt. unfold _analyze_moisture_anomaly. rewrite Hv, moisture_thresholds.
  assert (Hb : py.ltb v (inject_Z 35) = true) by (apply ltb_true; exact Hlt).
  cbn. rewrite Hb. cbn. eexists. by repeat split.
Qed.

(** C5. A moisture anomaly whose context has [recent_value = 30] gets the
    urgent-irrigation result with priority [high] and confidence
    [min(model_confidence + 0.15, 1)], whatever the change rate is (also
    when it is missing, or below -10 so that the sudden-drop rule would
    match): the critical-low rule is tested first. *)
Theorem C5_critical_low_precedes_drop (a : AnomalyEvent) (ctx : Context) (v : Q) :
  py.contains "moisture" (py.lower (ae_anomaly_type a)) = true →
  recent_value ctx = Some v →
  v == 30 →
  ∃ r, analyze_with_context a ctx = Ok r
    ∧ _analyze_moisture_anomaly a ctx = Ok r
    ∧ recommended_action r
      = "URGENT: Immediate irrigation required - crops under severe drought stress"
    ∧ priority r = "high"
    ∧ confidence r == Qmin (ae_model_confidence a + 0.15) 1.
Proof.
  intros Hm Hv H30.
  destruct (moisture_critical_low a ctx v Hv) as (r & Hr & Hact & Hprio & Hconf).
  { rewrite H30. reflexivity. }
  exists r. unfold analyze_with_context. rewrite Hm.
  repeat split; try assumption. rewrite Hconf. apply min_Qmin.
Qed.

(** C10. With [recent_value] missing the humidity rules raise a
    [TypeError], in the medium-severity branch and in the default branch
    alike, where the moisture and the temperature rules return their
    investigate-sensor result. *)
Theorem C10_humidity_missing_value_raises (a : AnomalyEvent) (ctx : Context) :
  recent_value ctx = None →
  _analyze_humidity_anomaly a ctx
    = Raise (TypeError "unsupported format string passed to NoneType.__format__")
  ∧ (∃ r, _analyze_moisture_anomaly a ctx = Ok r
        ∧ recommended_action r
          = "Investigate moisture sensor - no recent data available"
        ∧ priority r = "medium")
  ∧ (∃ r, _analyze_temperature_anomaly a ctx = Ok r
        ∧ recommended_action r
          = "Investigate temperature sensor - no recent data available"
        ∧ priority r = "medium").
Proof.
  intros Hv. split; [|split].
  - unfold _analyze_humidity_anomaly. rewrite Hv. cbn.
    destruct (String.eqb (ae_severity a) "medium"); reflexivity.
  - unfold _analyze_moisture_anomaly. rewrite Hv. cbn. eexists. by repeat split.
  - unfold _analyze_temperature_anomaly. rewrite Hv. cbn. eexists. by repeat split.
Qed.

Lemma C9_confidence_in_unit_interval_witness :
  ∃ r, analyze_with_context drought_anomaly drought_context = Ok r
     ∧ 0 <= confidence r <= 1.
Proof.
  destruct (analyze_with_context drought_anomaly drought_context) as [r|e] eqn:E;
    [|vm_compute in E; discriminate E].
  exists r. split; [reflexivity|].
  apply (C9_confidence_in_unit_interval drought_anomaly drought_context r);
    [vm_compute; split; discriminate | exact E].
Defined.

Lemma C5_critical_low_precedes_drop_witness :
  ∃ r, analyze_with_context drought_anomaly drought_context = Ok r
     ∧ priority r = "high"
     ∧ confidence r == 1.
Proof.
  destruct (C5_critical_low_precedes_drop drought_anomaly drought_context 30
              eq_refl eq_refl (Qeq_refl 30)) as (r & Hr & _ & _ & Hprio & Hconf).
  exists r. split; [exact Hr|]. split; [exact Hprio|].
  rewrite Hconf. reflexivity.
Defined.

Lemma C10_humidity_missing_value_raises_witness :
  _analyze_humidity_anomaly orphan_humidity_anomaly
    (_get_reading_context dry_db orphan_humidity_anomaly)
  = Raise (TypeError "unsupported format string passed to NoneType.__format__").
Proof.
  apply (C10_humidity_missing_value_raises orphan_humidity_anomaly
           (_get_reading_context dry_db orphan_humidity_anomaly)).
  reflexivity.
Defined.

End rule_engine_facts.

(** ** Agent orchestration service *)

Section agent_service_facts.
Import models agent_service spec examples.

Lemma recommendation_of_None (db : DB) (a : AnomalyEvent) :
  recommendation_of db a = None →
  ∀ r, r ∈ agent_recommendations db → rec_anomaly_event r ≠ ae_id a.
Proof.
  unfold recommendation_of. intros H r Hr.
  apply fmap_None in H. rewrite list_find_None, Forall_forall in H. by apply H.
Qed.

Lemma recommendation_of_created (db : DB) (now : Z) (a : AnomalyEvent)
    (action explanation : string) (conf : Q) :
  recommendation_of db a = None →
  recommendation_of (create_recommendation db now a action explanation conf).1 a
  = Some (create_recommendation db now a action explanation conf).2.
Proof.
  unfold recommendation_of. intros H. apply fmap_None in H. simpl.
  rewrite list_find_app_r by exact H. simpl.
  rewrite decide_True by reflexivity. reflexivity.
Qed.

(** What [process_anomaly] does, by cases on the lookup and the engine. *)
Lemma process_anomaly_cases (db : DB) (now : Z) (a : AnomalyEvent) :
  (∃ r, recommendation_of db a = Some r ∧ process_anomaly db now a = (db, Ok r))
  ∨ (∃ e, recommendation_of db a = None
          ∧ rule_engine.analyze_anomaly db a = Raise e
          ∧ process_anomaly db now a = (db, Raise e))
  ∨ (∃ analysis, recommendation_of db a = None
          ∧ rule_engine.analyze_anomaly db a = Ok analysis
          ∧ process_anomaly db now a
            = (let created :=
                 create_recommendation db now a
                   (rule_engine.recommended_action analysis)
                   (rule_engine.explanation_text analysis)
                   (rule_engine.confidence analysis) in
               (created.1, Ok created.2))).
Proof.
  unfold process_anomaly.
  destruct (recommendation_of db a) as [r|]; [left; eauto|]. right.
  destruct (rule_engine.analyze_anomaly db a) as [analysis|e]; [right | left]; eauto.
Qed.

(** C4. [process_anomaly] is idempotent. When the event already has a
    recommendation, the call returns that recommendation and leaves the
    database as it is; so a second call after a successful first one
    returns the same recommendation, with the same id, and creates
    nothing; and a database in which every event has at most one
    recommendation stays so. *)
Theorem C4_process_anomaly_idempotent (db : DB) (now later : Z) (a : AnomalyEvent) :
  (∀ r, recommendation_of db a = Some r → process_anomaly db later a = (db, Ok r))
  ∧ (∀ db1 r, process_anomaly db now a = (db1, Ok r) →
       recommendation_of db1 a = Some r
       ∧ process_anomaly db1 later a = (db1, Ok r)
       ∧ agent_recommendations (process_anomaly db1 later a).1
         = agent_recommendations db1)
  ∧ (one_recommendation_per_event db →
     one_recommendation_per_event (process_anomaly db now a).1).
Proof.
  assert (Hexisting : ∀ d t r, recommendation_of d a = Some r →
                               process_anomaly d t a = (d, Ok r)).
  { intros d t r H. unfold process_anomaly. by rewrite H. }
  split; [apply Hexisting|]. split.
  - intros db1 r H.
    assert (Hfound : recommendation_of db1 a = Some r).
    { destruct (process_anomaly_cases db now a)
        as [(r0 & Hsome & Heq) | [(e & _ & _ & Heq) | (an & Hnone & _ & Heq)]];
        rewrite Heq in H.
      - by simplify_eq.
      - discriminate H.
      - cbv zeta in H. injection H as <- <-. by apply recommendation_of_created. }
    rewrite (Hexisting db1 later r Hfound). by repeat split.
  - intros Hinv.
    destruct (process_anomaly_cases db now a)
      as [(r0 & _ & Heq) | [(e & _ & _ & Heq) | (an & Hnone & _ & Heq)]];
      rewrite Heq; try exact Hinv.
    unfold one_recommendation_per_event in *. cbn.
    rewrite fmap_app. apply NoDup_app. split; [exact Hinv|]. split.
    + intros x Hx Hin. cbn in Hin. apply list_elem_of_singleton in Hin as ->.
      apply list_elem_of_fmap in Hx as (r & Heqr & Hr).
      by apply (recommendation_of_None db a Hnone r Hr).
    + cbn. apply NoDup_singleton.
Qed.

Lemma C4_process_anomaly_idempotent_witness :
  ∃ db1 r,
    process_anomaly dry_db 1730665600 drought_anomaly = (db1, Ok r)
    ∧ process_anomaly db1 1730669999 drought_anomaly = (db1, Ok r)
    ∧ length (agent_recommendations db1) = 1%nat.
Proof.
  destruct (process_anomaly dry_db 1730665600 drought_anomaly) as [db1 [r|e]] eqn:E;
    [|vm_compute in E; discriminate E].
  exists db1, r. split; [reflexivity|].
  destruct (proj1 (proj2 (C4_process_anomaly_idempotent dry_db 1730665600 1730669999
                            drought_anomaly)) db1 r E) as (_ & Hagain & _).
  split; [exact Hagain|].
  vm_compute in E. by injection E as <- <-.
Defined.

End agent_service_facts.

(** ** Detection orchestrator *)

Section views_facts.
Import models anomaly_detector views spec examples.
Local Open Scope Q_scope.

#[local] Instance newer_first_transitive : Transitive newer_first.
Proof. unfold newer_first. intros x y z Hxy Hyz. lia. Qed.

#[local] Instance newer_first_total : Total newer_first.
Proof. unfold newer_first. intros x y. lia. Qed.

Lemma StronglySorted_take {A} (R : relation A) (l : list A) (n : nat) :
  StronglySorted R l → StronglySorted R (take n l).
Proof.
  intros H. rewrite <- (take_drop n l) in H. by apply StronglySorted_app_1_l in H.
Qed.

Lemma StronglySorted_lookup_le {A} (R : relation A) `{!Reflexive R} (l : list A)
    (i j : nat) (x y : A) :
  StronglySorted R l → (i ≤ j)%nat → l !! i = Some x → l !! j = Some y → R x y.
Proof.
  intros Hs. revert i j. induction Hs as [|z l Hs IH Hall]; intros i j Hij Hi Hj.
  - discriminate Hi.
  - destruct i as [|i], j as [|j]; simpl in Hi, Hj; try lia.
    + by simplify_eq.
    + simplify_eq. rewrite Forall_forall in Hall. apply Hall.
      by eapply list_elem_of_lookup_2.
    + eapply (IH i j); [lia | done | done].
Qed.

#[local] Instance newer_first_reflexive : Reflexive newer_first.
Proof. unfold newer_first. intros x. lia. Qed.

Lemma recent_readings_sorted (db : DB) (plot : Z) (sensor_type : string) (count : nat) :
  StronglySorted newer_first (recent_readings_of db plot sensor_type count).
Proof.
  unfold recent_readings_of, order_by_timestamp_desc.
  apply StronglySorted_take, StronglySorted_merge_sort; apply _.
Qed.

Lemma recent_readings_newest_from (db : DB) (plot : Z) (sensor_type : string)
    (count i : nat) (r : SensorReading) :
  recent_readings_of db plot sensor_type count !! i = Some r →
  newest_from (recent_readings_of db plot sensor_type count) i r.
Proof.
  intros Hi. split; [exact Hi|]. intros j r' Hij Hj.
  exact (StronglySorted_lookup_le newer_first _ i j r r'
           (recent_readings_sorted db plot sensor_type count) Hij Hi Hj).
Qed.

Lemma process_anomaly_keeps_events (db : DB) (now : Z) (a : AnomalyEvent) :
  anomaly_events (agent_service.process_anomaly db now a).1 = anomaly_events db.
Proof.
  destruct (process_anomaly_cases db now a)
    as [(r0 & _ & ->) | [(e & _ & _ & ->) | (an & _ & _ & ->)]]; reflexivity.
Qed.

(** The events [create_events] appends, one per anomaly and in order. *)
Lemma create_events_spec (db : DB) (now plot : Z) (sensor_type : string)
    (readings_list : list SensorReading) (anomalies : list Detection) :
  ∃ new_events,
    anomaly_events (create_events db now plot sensor_type readings_list anomalies).1
    = anomaly_events db ++ new_events
    ∧ Forall2 (λ e d,
         ae_sensor_reading e = reading_for readings_list d
         ∧ ae_plot e = plot
         ∧ ae_anomaly_type e = sensor_type +:+ "_anomaly"
         ∧ ae_severity e = storage_severity (anomaly_detector.severity d)
         ∧ ae_model_confidence e = anomaly_detector.confidence d)
        new_events anomalies.
Proof.
  revert db. induction anomalies as [|d rest IH]; intros db.
  - exists []. split; [by rewrite app_nil_r | constructor].
  - cbn [create_events].
    destruct (signals.create_anomaly_event db now plot (reading_for readings_list d)
                (sensor_type +:+ "_anomaly")
                (storage_severity (anomaly_detector.severity d))
                (anomaly_detector.confidence d)) as [db1 event] eqn:E.
    destruct (create_events db1 now plot sensor_type readings_list rest)
      as [db2 created] eqn:E2.
    destruct (IH db1) as (more & Hev & Hall). rewrite E2 in Hev. cbn in Hev.
    unfold signals.create_anomaly_event, signals.process_anomaly_event in E.
    cbn in E. injection E as <- <-.
    rewrite process_anomaly_keeps_events in Hev. cbn in Hev.
    eexists (_ :: more). split.
    + cbn. rewrite Hev, <- app_assoc. reflexivity.
    + constructor; [by repeat split | exact Hall].
Qed.

Lemma detect_with_confidence_index (self : IsolationForestDetector)
    (data : list (list Q)) (min_confidence : Q) (results : list Detection) :
  detect_with_confidence self data min_confidence = Ok results →
  ∀ i d, results !! i = Some d → index d = i.
Proof.
  unfold detect_with_confidence, predict, get_anomaly_scores. intros H i d Hd.
  destruct (is_trained self); [|discriminate H]. cbn in H.
  destruct (sk_predict (model self) data) as [preds|]; [|discriminate H]. cbn in H.
  destruct (sk_score_samples (model self) data) as [scores|]; [|discriminate H].
  cbn in H. injection H as <-.
  rewrite list_lookup_imap in Hd. apply fmap_Some in Hd as ([p s] & _ & ->).
  reflexivity.
Qed.

(** What a successful [detect] went through. *)
Lemma detect_ok_inv (BASE_DIR : string) (np_sqrt : Q → Q) (db : DB)
    (disk : gmap string IsolationForestDetector) (now plot_id : Z)
    (sensor_type : string) (db' : DB) (data : DetectData) :
  detect BASE_DIR np_sqrt db disk now plot_id sensor_type = (db', HTTP_200 data) →
  let readings_list := recent_readings_of db plot_id sensor_type 50 in
  (10 ≤ length readings_list)%nat
  ∧ score_windows np_sqrt (load_detector_from_disk BASE_DIR disk sensor_type)
      (sr_value <$> readings_list) = Ok (results data)
  ∧ db' = (create_events db now plot_id sensor_type readings_list
             (filter (λ d, is_anomaly d = true) (results data))).1.
Proof.
  unfold detect. intros H.
  destruct (negb (bool_decide (sensor_type ∈ sensor_choices))); [discriminate H|].
  destruct (negb (is_trained _)); [discriminate H|].
  destruct (negb (plot_exists db plot_id)); [discriminate H|].
  rewrite length_map in H.
  destruct (Nat.ltb_spec (length (recent_readings_of db plot_id sensor_type 50)) 10)
    as [Hlt | Hge]; [discriminate H|].
  destruct (score_windows _ _ _) as [results|e] eqn:Hs; [|discriminate H].
  destruct (create_events _ _ _ _ _ _) as [db2 created] eqn:Hc.
  injection H as <- <-. cbn. rewrite Hc. by repeat split.
Qed.

Lemma recent_readings_not_reversed (db : DB) (plot : Z) (sensor_type : string)
    (count : nat) :
  sr_value <$> recent_readings_of db plot sensor_type count
  = reverse (preprocessing.get_recent_readings db plot sensor_type count).
Proof.
  unfold preprocessing.get_recent_readings.
  change (map sr_value) with (fmap (M := list) sr_value).
  by rewrite fmap_reverse, reverse_involutive.
Qed.

(** The query keeps the newest rows: what it leaves out is not newer than
    anything it returns. *)
Lemma recent_readings_most_recent (db : DB) (plot : Z) (sensor_type : string)
    (count : nat) :
  ∃ older,
    filter (λ r, sr_plot r = plot ∧ sr_sensor_type r = sensor_type)
           (sensor_readings db)
    ≡ₚ recent_readings_of db plot sensor_type count ++ older
    ∧ (length (recent_readings_of db plot sensor_type count) ≤ count)%nat
    ∧ ∀ r r', r ∈ recent_readings_of db plot sensor_type count → r' ∈ older →
              (sr_timestamp r' ≤ sr_timestamp r)%Z.
Proof.
  unfold recent_readings_of, order_by_timestamp_desc.
  set (rows := filter _ (sensor_readings db)).
  exists (drop count (merge_sort newer_first rows)). split; [|split].
  - by rewrite take_drop, merge_sort_Permutation.
  - rewrite length_take. lia.
  - intros r r' Hr Hr'.
    apply (StronglySorted_app_1_elem_of newer_first
             (take count (merge_sort newer_first rows))
             (drop count (merge_sort newer_first rows))); [|done|done].
    rewrite take_drop. apply StronglySorted_merge_sort; apply _.
Qed.

Lemma slice_fmap {A B} (f : A → B) (xs : list A) (i j : nat) :
  py.slice (f <$> xs) i j = f <$> py.slice xs i j.
Proof. unfold py.slice. by rewrite fmap_take, fmap_drop. Qed.

(** The windows of [detect]: window [i] holds the values of the readings
    at positions [i] to [i + 9] of the list of the query. *)
Lemma detect_windows (readings_list : list SensorReading) :
  (10 ≤ length readings_list)%nat →
  ∃ windows,
    preprocessing.create_windows (preprocessing.new 10) (sr_value <$> readings_list)
    = Ok windows
    ∧ length windows = (length readings_list - 9)%nat
    ∧ ∀ i w, windows !! i = Some w →
             w = sr_value <$> py.slice readings_list i (i + 10).
Proof.
  intros Hlen. eexists. split.
  { apply create_windows_enough. cbn. rewrite length_fmap. exact Hlen. }
  cbn. rewrite length_fmap. split.
  { rewrite length_map, length_seq. lia. }
  intros i w Hw. rewrite list_lookup_fmap in Hw.
  apply fmap_Some in Hw as (k & Hk & ->). apply lookup_seq in Hk as [-> _].
  apply slice_fmap.
Qed.

(** C2, as the code has it. A successful [detect] works on the 50 most
    recent readings in the order of the query, newest first, without
    reversing them: its values are the reverse of the oldest-first list of
    [get_recent_readings]. Window [i] is cut from that list at positions
    [i] to [i + 9], and entry [i] of the results has index [i]. Every
    flagged window [i] gets an event linked to the reading at list index
    [i], which is the most recent reading of that window; only if [i] is
    not a valid index is the event linked to the reading at index 0, the
    most recent of all. *)
Theorem C2_detect_links_newest_reading_of_window (BASE_DIR : string)
    (np_sqrt : Q → Q) (db : DB) (disk : gmap string IsolationForestDetector)
    (now plot_id : Z) (sensor_type : string) (db' : DB) (data : DetectData) :
  detect BASE_DIR np_sqrt db disk now plot_id sensor_type = (db', HTTP_200 data) →
  let readings_list := recent_readings_of db plot_id sensor_type 50 in
  let flagged := filter (λ d, is_anomaly d = true) (results data) in
  (StronglySorted newer_first readings_list
   ∧ sr_value <$> readings_list
     = reverse (preprocessing.get_recent_readings db plot_id sensor_type 50)
   ∧ ∃ older,
       filter (λ r, sr_plot r = plot_id ∧ sr_sensor_type r = sensor_type)
              (sensor_readings db) ≡ₚ readings_list ++ older
       ∧ (length readings_list ≤ 50)%nat
       ∧ ∀ r r', r ∈ readings_list → r' ∈ older →
                 (sr_timestamp r' ≤ sr_timestamp r)%Z)
  ∧ (∃ windows processed,
       preprocessing.create_windows (preprocessing.new 10) (sr_value <$> readings_list)
       = Ok windows
       ∧ (∀ i w, windows !! i = Some w →
                 w = sr_value <$> py.slice readings_list i (i + 10))
       ∧ py.for_each (preprocessing.calculate_features np_sqrt (preprocessing.new 10))
                     windows = Ok processed
       ∧ detect_with_confidence (load_detector_from_disk BASE_DIR disk sensor_type)
           processed default_min_confidence = Ok (results data))
  ∧ (∀ i d, results data !! i = Some d → index d = i)
  ∧ (∃ new_events,
       anomaly_events db' = anomaly_events db ++ new_events
       ∧ Forall2 (λ e d, ae_sensor_reading e = reading_for readings_list d)
           new_events flagged)
  ∧ ∀ d, d ∈ flagged →
      ((index d < length readings_list)%nat →
       ∃ r, reading_for readings_list d = Some r
            ∧ newest_from readings_list (index d) r)
      ∧ ((length readings_list ≤ index d)%nat →
         ∃ r, reading_for readings_list d = Some r
              ∧ newest_from readings_list 0 r).
Proof.
  intros H. destruct (detect_ok_inv _ _ _ _ _ _ _ _ _ H) as (Hlen & Hscore & ->).
  cbv zeta.
  unfold score_windows, preprocessing.prepare_for_model in Hscore.
  destruct (detect_windows _ Hlen) as (windows & Hw & _ & Hcut).
  rewrite Hw in Hscore. cbn in Hscore.
  destruct (py.for_each _ windows) as [processed|] eqn:Hf; [|discriminate Hscore].
  cbn in Hscore.
  split.
  { split; [apply recent_readings_sorted|]. split; [apply recent_readings_not_reversed|].
    apply recent_readings_most_recent. }
  split; [by exists windows, processed|].
  split; [by eapply detect_with_confidence_index|].
  split.
  { destruct (create_events_spec db now plot_id sensor_type
                (recent_readings_of db plot_id sensor_type 50)
                (filter (λ d, is_anomaly d = true) (results data)))
      as (new_events & Hev & Hall).
    exists new_events. split; [exact Hev|].
    eapply Forall2_impl; [exact Hall|]. by intros e d (? & _). }
  intros d _. unfold reading_for. split; intros Hidx.
  - destruct (Nat.ltb_spec (index d) (length (recent_readings_of db plot_id sensor_type 50)));
      [|lia].
    destruct (lookup_lt_is_Some_2 _ _ Hidx) as [r Hr].
    exists r. split; [exact Hr|]. by apply recent_readings_newest_from.
  - destruct (Nat.ltb_spec (index d) (length (recent_readings_of db plot_id sensor_type 50)));
      [lia|].
    destruct (lookup_lt_is_Some_2 (recent_readings_of db plot_id sensor_type 50) 0%nat)
      as [r Hr]; [lia|].
    exists r. split; [exact Hr|]. by apply recent_readings_newest_from.
Qed.

Lemma C2_detect_links_newest_reading_of_window_witness :
  ∃ db' data,
    detect base_dir newton_sqrt dry_db model_files 1730665700 1 "moisture"
    = (db', HTTP_200 data)
    ∧ anomaly_events_created data = [1%Z; 2%Z]
    ∧ (ae_sensor_reading <$> anomaly_events db')
      = [recent_readings_of dry_db 1 "moisture" 50 !! 0%nat;
         recent_readings_of dry_db 1 "moisture" 50 !! 1%nat]
    ∧ StronglySorted newer_first (recent_readings_of dry_db 1 "moisture" 50).
Proof.
  destruct (detect base_dir newton_sqrt dry_db model_files 1730665700 1 "moisture")
    as [db' [data| | |]] eqn:E; try (vm_compute in E; discriminate E).
  exists db', data. split; [reflexivity|].
  destruct (C2_detect_links_newest_reading_of_window _ _ _ _ _ _ _ _ _ E)
    as ((Hsorted & _) & _).
  vm_compute in E. injection E as <- <-.
  split; [reflexivity|]. split; [reflexivity | exact Hsorted].
Defined.

(** C2 as stated fails on eleven readings with both windows flagged: the
    readings are not reversed, and the event of window [i] is linked to
    the reading at index [i], not to the one at index [i + 10 - 1] of
    the list, in either order. *)
Lemma C2_counterexample :
  let readings_list := recent_readings_of dry_db 1 "moisture" 50 in
  let oldest_first := reverse readings_list in
  ∃ db' data e,
    detect base_dir newton_sqrt dry_db model_files 1730665700 1 "moisture"
    = (db', HTTP_200 data)
    ∧ (index <$> filter (λ d, is_anomaly d = true) (results data)) = [0; 1]%nat
    ∧ anomaly_events db' !! 0%nat = Some e
    ∧ ae_sensor_reading e = readings_list !! 0%nat
    ∧ ae_sensor_reading e ≠ oldest_first !! (0 + 10 - 1)%nat
    ∧ ae_sensor_reading e ≠ readings_list !! (0 + 10 - 1)%nat
    ∧ score_windows newton_sqrt trained_detector (sr_value <$> readings_list)
      = Ok (results data)
    ∧ (sr_value <$> readings_list) ≠ (sr_value <$> oldest_first).
Proof.
  cbv zeta.
  destruct (detect base_dir newton_sqrt dry_db model_files 1730665700 1 "moisture")
    as [db' [data| | |]] eqn:E; try (vm_compute in E; discriminate E).
  vm_compute in E. injection E as <- <-.
  eexists _, _, _. split; [reflexivity|].
  split; [reflexivity|]. split; [reflexivity|]. split; [reflexivity|].
  split; [vm_compute; discriminate|]. split; [vm_compute; discriminate|].
  split; [reflexivity|]. vm_compute. discriminate.
Qed.


End views_facts.

(** * Further properties of the code *)

(** ** Feature extraction *)

Section feature_facts.
Import preprocessing spec.
Local Open Scope Q_scope.

Lemma sum_from (xs : list Q) (a : Q) : fold_left Qplus xs a == a + py.sum xs.
Proof.
  unfold py.sum. revert a. induction xs as [|x xs IH]; intros a; simpl.
  - lra.
  - rewrite (IH (a + x)), (IH (0 + x)). lra.
Qed.

Lemma sum_cons (x : Q) (xs : list Q) : py.sum (x :: xs) == x + py.sum xs.
Proof. unfold py.sum at 1. simpl. rewrite sum_from. lra. Qed.



Lemma sum_bounds (xs : list Q) (lo hi : Q) :
  (∀ x, x ∈ xs → lo <= x <= hi) →
  inject_Z (Z.of_nat (length xs)) * lo <= py.sum xs
  ∧ py.sum xs <= inject_Z (Z.of_nat (length xs)) * hi.
Proof.
  induction xs as [|x xs IH]; intros Hall.
  - unfold py.sum. simpl. change (inject_Z (Z.of_nat 0)) with 0. lra.
  - destruct IH as [IHlo IHhi]; [intros y Hy; apply Hall; by right|].
    destruct (Hall x) as [Hlo Hhi]; [left|].
    rewrite sum_cons. cbn [length]. rewrite Nat2Z.inj_succ, <- Z.add_1_r, inject_Z_plus.
    change (inject_Z 1) with 1. split; lra.
Qed.

Lemma mean_bounds (xs : list Q) (lo hi : Q) :
  xs ≠ [] → (∀ x, x ∈ xs → lo <= x <= hi) → lo <= np.mean xs <= hi.
Proof.
  intros Hne Hall. unfold np.mean. destruct (sum_bounds xs lo hi Hall) as [Hlo Hhi].
  assert (Hn : 0 < inject_Z (Z.of_nat (length xs))).
  { change 0 with (inject_Z 0). rewrite <- Zlt_Qlt. destruct xs; [done | simpl; lia]. }
  split.
  - apply Qle_shift_div_l; [exact Hn|]. lra.
  - apply Qle_shift_div_r; [exact Hn|]. lra.
Qed.

Lemma min_fold_spec (x : Q) (xs : list Q) :
  let m := fold_left (λ m y, if py.ltb y m then y else m) xs x in
  m ∈ x :: xs ∧ ∀ y, y ∈ x :: xs → m <= y.
Proof.
  cbv zeta. revert x. induction xs as [|z xs IH]; intros x; simpl.
  - split; [left|]. intros y Hy. apply list_elem_of_singleton in Hy as ->. apply Qle_refl.
  - destruct (py.ltb z x) eqn:E.
    + apply ltb_true in E. destruct (IH z) as [Hin Hmin]. split; [by right|].
      intros y Hy. apply elem_of_cons in Hy as [-> | Hy]; [|by apply Hmin].
      eapply Qle_trans; [apply Hmin; left|]. by apply Qlt_le_weak.
    + apply ltb_false in E. destruct (IH x) as [Hin Hmin]. split.
      * apply elem_of_cons in Hin as [Hin | Hin]; [rewrite Hin; left | by right; right].
      * intros y Hy. apply elem_of_cons in Hy as [-> | Hy]; [apply Hmin; left|].
        apply elem_of_cons in Hy as [-> | Hy]; [|apply Hmin; by right].
        eapply Qle_trans; [apply Hmin; left | exact E].
Qed.

Lemma calculate_features_spec_aux (np_sqrt : Q → Q) (self : SensorDataPreprocessor)
    (window : list Q) :
  (window = [] →
   ∃ msg, calculate_features np_sqrt self window = Raise (ValueError msg))
  ∧ (window ≠ [] →
     ∃ lo hi,
       calculate_features np_sqrt self window
       = Ok [np.mean window; np.std np_sqrt window; lo; hi; hi - lo]
       ∧ lo ∈ window ∧ hi ∈ window
       ∧ (∀ x, x ∈ window → lo <= x <= hi)
       ∧ lo <= np.mean window <= hi
       ∧ 0 <= hi - lo).
Proof.
  split.
  - intros ->. eexists. reflexivity.
  - intros Hne. destruct window as [|x xs]; [done|].
    destruct (min_fold_spec x xs) as [Hlo_in Hlo]. destruct (max_list_spec x xs) as [Hhi_in Hhi].
    eexists _, _. split; [reflexivity|].
    assert (Hb : ∀ y, y ∈ x :: xs →
      fold_left (λ m y0, if py.ltb y0 m then y0 else m) xs x <= y <= py.max_list x xs).
    { intros y Hy. split; [by apply Hlo | by apply Hhi]. }
    split; [exact Hlo_in|]. split; [exact Hhi_in|]. split; [exact Hb|].
    split; [by apply (mean_bounds (x :: xs))|].
    destruct (Hb x); [left|]. lra.
Qed.



End feature_facts.

(** ** The preprocessing pipeline *)

Section pipeline_facts.
Import preprocessing spec.
Local Open Scope Q_scope.

Lemma for_each_ok {A B} (f : A → result B) (xs : list A) :
  (∀ x, x ∈ xs → ∃ y, f x = Ok y) →
  ∃ ys, py.for_each f xs = Ok ys
        ∧ length ys = length xs
        ∧ ∀ i y, ys !! i = Some y → ∃ x, xs !! i = Some x ∧ f x = Ok y.
Proof.
  induction xs as [|x xs IH]; intros Hall.
  - exists []. repeat split. intros i y H. discriminate H.
  - destruct (Hall x) as [y Hy]; [left|].
    destruct IH as (ys & Hys & Hlen & Hlook); [intros z Hz; apply Hall; by right|].
    exists (y :: ys). simpl. rewrite Hy, Hys. simpl. split; [reflexivity|].
    split; [by rewrite Hlen|].
    intros [|i] y' Hi; simpl in Hi.
    + simplify_eq. by exists x.
    + by apply Hlook.
Qed.

Lemma features_length (np_sqrt : Q → Q) (self : SensorDataPreprocessor)
    (window row : list Q) :
  calculate_features np_sqrt self window = Ok row → length row = 5%nat.
Proof.
  destruct window as [|x xs]; [discriminate|]. intros H. cbn in H. by injection H as <-.
Qed.

Lemma prepare_for_model_shape_aux (np_sqrt : Q → Q) (self : SensorDataPreprocessor)
    (values : list Q) :
  ((length values < window_size self)%nat →
   ∀ use_features,
     ∃ msg, prepare_for_model np_sqrt self values use_features = Raise (ValueError msg))
  ∧ ((0 < window_size self ≤ length values)%nat →
     ∃ rows,
       prepare_for_model np_sqrt self values true = Ok rows
       ∧ length rows = (length values - window_size self + 1)%nat
       ∧ (∀ row, row ∈ rows → length row = 5%nat)
       ∧ ∀ i row, rows !! i = Some row →
           calculate_features np_sqrt self
             (py.slice values i (i + window_size self)) = Ok row)
  ∧ ((window_size self ≤ length values)%nat →
     prepare_for_model np_sqrt self values false = create_windows self values)
  ∧ (window_size self = 0%nat →
     ∃ msg, prepare_for_model np_sqrt self values true = Raise (ValueError msg)).
Proof.
  unfold prepare_for_model. split; [|split; [|split]].
  - intros Hlt use_features. unfold create_windows.
    destruct (Nat.ltb_spec (length values) (window_size self)); [|lia].
    eexists. reflexivity.
  - intros [Hpos Hle]. rewrite create_windows_enough by exact Hle. cbn.
    set (windows := map _ (seq 0 _)).
    destruct (for_each_ok (calculate_features np_sqrt self) windows)
      as (rows & Hrows & Hlen & Hlook).
    { intros w Hw. unfold windows in Hw. apply list_elem_of_fmap in Hw as (i & -> & Hi).
      apply elem_of_seq in Hi.
      destruct (proj2 (calculate_features_spec_aux np_sqrt self
                         (py.slice values i (i + window_size self))))
        as (lo & hi & Hok & _); [|eauto].
      intros Hnil. apply (f_equal length) in Hnil.
      rewrite slice_length in Hnil by lia. simpl in Hnil. lia. }
    exists rows. split; [exact Hrows|]. split.
    { rewrite Hlen. unfold windows. by rewrite length_map, length_seq. }
    split.
    { intros row Hrow. apply list_elem_of_lookup in Hrow as [i Hi].
      destruct (Hlook i row Hi) as (w & _ & Hw). by eapply features_length. }
    intros i row Hi. destruct (Hlook i row Hi) as (w & Hw & Hf).
    unfold windows in Hw. rewrite list_lookup_fmap in Hw.
    apply fmap_Some in Hw as (k & Hk & ->). by apply lookup_seq in Hk as [-> _].
  - intros Hle. rewrite create_windows_enough by exact Hle. reflexivity.
  - intros H0. rewrite create_windows_enough by lia.
    rewrite H0. replace (length values - 0 + 1)%nat with (S (length values)) by lia.
    cbn. eexists. reflexivity.
Qed.

(** X2. With fewer values than the window size [prepare_for_model]
    raises, with or without features. With a window size of at least 1
    and enough values it returns one row of 5 features per window, that
    is [len(values) - window_size + 1] rows, row [i] computed from
    [values[i:i+window_size]]; without features it returns the raw
    windows. With a window size of 0 the feature extraction raises. *)
Theorem prepare_for_model_shape (np_sqrt : Q → Q) (self : SensorDataPreprocessor)
    (values : list Q) :
  ((length values < window_size self)%nat →
   ∀ use_features,
     ∃ msg, prepare_for_model np_sqrt self values use_features = Raise (ValueError msg))
  ∧ ((0 < window_size self ≤ length values)%nat →
     ∃ rows,
       prepare_for_model np_sqrt self values true = Ok rows
       ∧ length rows = (length values - window_size self + 1)%nat
       ∧ (∀ row, row ∈ rows → length row = 5%nat)
       ∧ ∀ i row, rows !! i = Some row →
           calculate_features np_sqrt self
             (py.slice values i (i + window_size self)) = Ok row)
  ∧ ((window_size self ≤ length values)%nat →
     prepare_for_model np_sqrt self values false = create_windows self values)
  ∧ (window_size self = 0%nat →
     ∃ msg, prepare_for_model np_sqrt self values true = Raise (ValueError msg)).
Proof. apply prepare_for_model_shape_aux. Qed.

Lemma prepare_for_model_shape_witness :
  ∃ rows,
    prepare_for_model examples.newton_sqrt (preprocessing.new 10)
      [38; 37; 36; 35; 34; 33; 32; 31; 30; 29; 28] true = Ok rows
    ∧ length rows = 2%nat.
Proof.
  destruct (proj1 (proj2 (prepare_for_model_shape examples.newton_sqrt
                            (preprocessing.new 10)
                            [38; 37; 36; 35; 34; 33; 32; 31; 30; 29; 28])))
    as (rows & Hok & Hlen & _); [simpl; lia|].
  exists rows. split; [exact Hok | exact Hlen].
Defined.









(** X4. [check_rapid_change] returns [(False, 0)] on fewer than two values
    and when every earlier value of a pair is zero; the reported maximum
    is never negative and does not depend on the threshold; and a change
    reported for a threshold is reported for every lower one. *)
Theorem check_rapid_change_edges (self : SensorDataPreprocessor) (values : list Q)
    (threshold_percent : Q) :
  ((length values < 2)%nat →
   check_rapid_change self values threshold_percent = (false, 0))
  ∧ ((∀ i a, (S i < length values)%nat → values !! i = Some a → a == 0) →
     check_rapid_change self values threshold_percent = (false, 0))
  ∧ 0 <= (check_rapid_change self values threshold_percent).2
  ∧ ∀ lower, lower <= threshold_percent →
      (check_rapid_change self values lower).2
      = (check_rapid_change self values threshold_percent).2
      ∧ ((check_rapid_change self values threshold_percent).1 = true →
         (check_rapid_change self values lower).1 = true).
Proof.
  split; [|split; [|split]].
  - intros Hlt. unfold check_rapid_change.
    destruct (Nat.ltb_spec (length values) 2); [reflexivity | lia].
  - intros Hzero. rewrite check_rapid_change_changes.
    destruct (percent_changes values) as [|c cs] eqn:E; [reflexivity|].
    exfalso. assert (Hin : c ∈ percent_changes values) by (rewrite E; left).
    apply elem_of_percent_changes in Hin as (i & a & b & Ha & Hb & Hnz & _).
    apply Hnz, (Hzero i a); [|exact Ha]. by apply lookup_lt_Some in Hb.
  - rewrite check_rapid_change_changes.
    destruct (percent_changes values) as [|c cs] eqn:E; simpl; [apply Qle_refl|].
    destruct (max_list_spec c cs) as [Hin _]. rewrite <- E in Hin.
    apply elem_of_percent_changes in Hin as (i & a & b & _ & _ & _ & ->).
    apply Qmult_le_0_compat; [apply Qabs_nonneg | discriminate].
  - intros lower Hle. rewrite !check_rapid_change_changes.
    destruct (percent_changes values) as [|c cs]; simpl; [done|].
    split; [reflexivity|]. intros H. apply geb_true in H. apply geb_true.
    by eapply Qle_trans.
Qed.

Lemma check_rapid_change_edges_witness :
  check_rapid_change (preprocessing.new 10) [0; 0; 5] 15 = (false, 0)
  ∧ (check_rapid_change (preprocessing.new 10) [100; 70] 10).1 = true.
Proof.
  destruct (check_rapid_change_edges (preprocessing.new 10) [0; 0; 5] 15)
    as (_ & Hzero & _).
  destruct (check_rapid_change_edges (preprocessing.new 10) [100; 70] 20)
    as (_ & _ & _ & Hlower).
  split.
  - apply Hzero. intros [|[|i]] a Hi Ha; simpl in Hi, Ha; try lia; by simplify_eq.
  - apply (Hlower 10); [discriminate | reflexivity].
Defined.

End pipeline_facts.

(** ** Scoring, gating and persistence of the detector *)

Section detector_more_facts.
Import anomaly_detector spec.
Local Open Scope Q_scope.

Lemma min_le_l (a b : Q) : py.min a b <= a.
Proof.
  unfold py.min. destruct (py.ltb b a) eqn:E.
  - apply ltb_true in E. by apply Qlt_le_weak.
  - apply Qle_refl.
Qed.

Lemma detect_row_confidence (min_confidence : Q) (i : nat) (row : Z * Q) :
  0 <= confidence (detect_row min_confidence i row) <= 1.
Proof.
  destruct row as [pred score]. unfold detect_row. cbn.
  destruct (pred =? -1)%Z.
  - assert (0 <= py.abs score / 0.5).
    { unfold py.abs. pose proof (Qabs_nonneg score). apply Qle_shift_div_l; lra. }
    split; [by apply min_bounds | apply min_le_l].
  - destruct (py.gtb score 0) eqn:E; [|lra]. apply gtb_true in E.
    assert (0 <= score / 0.5) by (apply Qle_shift_div_l; lra).
    split; [by apply min_bounds | apply min_le_l].
Qed.

Lemma detect_row_tier (min_confidence : Q) (i : nat) (row : Z * Q) :
  let r := detect_row min_confidence i row in
  severity r ∈ ["NORMAL"; "LOW"; "MEDIUM"; "HIGH"; "CRITICAL"]
  ∧ (severity r = "NORMAL" ↔ is_anomaly r = false).
Proof.
  destruct row as [pred score]. unfold detect_row. cbn.
  unfold _calculate_severity.
  destruct ((pred =? -1)%Z && py.geb _ min_confidence); cbn.
  - repeat match goal with |- context [if ?b then _ else _] => destruct b end;
      (split; [set_solver | split; discriminate]).
  - split; [set_solver | done].
Qed.

Lemma detect_with_confidence_inv (self : IsolationForestDetector)
    (data : list (list Q)) (min_confidence : Q) (results : list Detection) :
  detect_with_confidence self data min_confidence = Ok results →
  is_trained self = true
  ∧ ∃ preds scores,
      sk_predict (model self) data = Ok preds
      ∧ sk_score_samples (model self) data = Ok scores
      ∧ results = imap (detect_row min_confidence) (zip preds scores).
Proof.
  unfold detect_with_confidence, predict, get_anomaly_scores. intros H.
  destruct (is_trained self); [|discriminate H]. cbn in H.
  destruct (sk_predict (model self) data) as [preds|]; [|discriminate H]. cbn in H.
  destruct (sk_score_samples (model self) data) as [scores|]; [|discriminate H].
  cbn in H. injection H as <-. split; [reflexivity|]. by exists preds, scores.
Qed.

(** X5. Whatever the forest returns, every entry of a result of
    [detect_with_confidence] has a confidence in [0, 1] and one of the
    five tiers, NORMAL exactly when the row is not finally anomalous;
    entry [i] carries index [i]; and a result is only returned by a
    trained detector. The tests of the module assert the first two. *)
Theorem detect_with_confidence_ranges (self : IsolationForestDetector)
    (data : list (list Q)) (min_confidence : Q) (results : list Detection) :
  detect_with_confidence self data min_confidence = Ok results →
  is_trained self = true
  ∧ ∀ i r, results !! i = Some r →
      index r = i
      ∧ 0 <= confidence r <= 1
      ∧ severity r ∈ ["NORMAL"; "LOW"; "MEDIUM"; "HIGH"; "CRITICAL"]
      ∧ (severity r = "NORMAL" ↔ is_anomaly r = false).
Proof.
  intros H. destruct (detect_with_confidence_inv _ _ _ _ H)
    as (Htrained & preds & scores & _ & _ & ->).
  split; [exact Htrained|]. intros i r Hr.
  rewrite list_lookup_imap in Hr. apply fmap_Some in Hr as (row & _ & ->).
  split; [by destruct row|]. split; [apply detect_row_confidence|].
  apply detect_row_tier.
Qed.

Lemma detect_with_confidence_ranges_witness :
  detect_with_confidence examples.trained_detector
    [[30; 1; 28; 32; 4]; [60; 1; 58; 62; 4]] default_min_confidence
  = Ok (imap (detect_row default_min_confidence) [((-1)%Z, -0.6); (1%Z, 0.1)])
  ∧ 0 <= confidence (detect_row default_min_confidence 0 ((-1)%Z, -0.6)) <= 1.
Proof.
  split; [reflexivity|].
  destruct (detect_with_confidence_ranges examples.trained_detector
              [[30; 1; 28; 32; 4]; [60; 1; 58; 62; 4]] default_min_confidence
              (imap (detect_row default_min_confidence) [((-1)%Z, -0.6); (1%Z, 0.1)])
              eq_refl) as (_ & Hall).
  by destruct (Hall 0%nat (detect_row default_min_confidence 0 ((-1)%Z, -0.6)) eq_refl)
    as (_ & Hc & _).
Defined.

(** X6. The confidence gate only removes anomalies when it is made
    stricter: a row flagged under a threshold is flagged, with the same
    score and confidence, under every lower one; above 1 no row is
    flagged; and at 0 or below every row the forest labels anomalous is. *)
Theorem confidence_gate_antitone (self : IsolationForestDetector)
    (data : list (list Q)) (strict loose : Q) (rs rs' : list Detection) :
  loose <= strict →
  detect_with_confidence self data strict = Ok rs →
  detect_with_confidence self data loose = Ok rs' →
  length rs = length rs'
  ∧ (∀ i r, rs !! i = Some r → is_anomaly r = true →
       ∃ r', rs' !! i = Some r' ∧ is_anomaly r' = true
             ∧ confidence r' = confidence r ∧ anomaly_score r' = anomaly_score r)
  ∧ (1 < strict → ∀ r, r ∈ rs → is_anomaly r = false)
  ∧ (loose <= 0 → ∀ i r' pred preds,
       sk_predict (model self) data = Ok preds → preds !! i = Some pred →
       rs' !! i = Some r' → (is_anomaly r' = true ↔ pred = (-1)%Z)).
Proof.
  intros Hle H H'.
  destruct (detect_with_confidence_inv _ _ _ _ H) as (_ & preds & scores & Hp & Hs & ->).
  destruct (detect_with_confidence_inv _ _ _ _ H') as (_ & preds' & scores' & Hp' & Hs' & ->).
  rewrite Hp in Hp'. rewrite Hs in Hs'. injection Hp' as <-. injection Hs' as <-.
  split; [by rewrite !length_imap|]. split; [|split].
  - intros i r Hr Hflag. rewrite list_lookup_imap in Hr.
    apply fmap_Some in Hr as ([pred score] & Hrow & ->).
    exists (detect_row loose i (pred, score)).
    split; [by rewrite list_lookup_imap, Hrow|].
    unfold detect_row in *. cbn in *.
    apply andb_true_iff in Hflag as [Hlabel Hconf]. rewrite Hlabel in *. cbn.
    split; [|done]. apply geb_true. apply geb_true in Hconf. by eapply Qle_trans.
  - intros Hgt r Hr. apply list_elem_of_lookup in Hr as [i Hi].
    rewrite list_lookup_imap in Hi. apply fmap_Some in Hi as (row & _ & ->).
    pose proof (detect_row_confidence strict i row) as [_ Hc].
    destruct row as [pred score]. unfold detect_row in *. cbn in *.
    apply andb_false_iff. right. destruct (py.geb _ strict) eqn:E; [|done].
    apply geb_true in E. lra.
  - intros Hlow i r' pred preds0 Hp0 Hpred Hr'.
    rewrite Hp in Hp0. injection Hp0 as <-.
    rewrite list_lookup_imap in Hr'. apply fmap_Some in Hr' as ([p s] & Hrow & ->).
    apply lookup_zip_with_Some in Hrow as (p0 & s0 & Heq & Hp0' & _). simplify_eq.
    pose proof (detect_row_confidence loose i (pred, s0)) as [Hc _].
    unfold detect_row in *. cbn in *.
    destruct (Z.eqb_spec pred (-1)) as [-> | Hne]; cbn.
    + split; [done|]. intros _. apply geb_true. lra.
    + split; [discriminate | done].
Qed.

Lemma confidence_gate_antitone_witness :
  ∃ rs', detect_with_confidence examples.trained_detector
           [[30; 1; 28; 32; 4]; [60; 1; 58; 62; 4]] 0.5 = Ok rs'
         ∧ (is_anomaly <$> rs' !! 0%nat) = Some true.
Proof.
  destruct (detect_with_confidence examples.trained_detector
              [[30; 1; 28; 32; 4]; [60; 1; 58; 62; 4]] 0.5) as [rs'|] eqn:E';
    [|vm_compute in E'; discriminate E'].
  destruct (detect_with_confidence examples.trained_detector
              [[30; 1; 28; 32; 4]; [60; 1; 58; 62; 4]] 0.999) as [rs|] eqn:E;
    [|vm_compute in E; discriminate E].
  exists rs'. split; [reflexivity|].
  destruct (confidence_gate_antitone examples.trained_detector _ 0.999 0.5 rs rs'
              ltac:(discriminate) E E') as (_ & Hflag & _).
  vm_compute in E. injection E as <-.
  destruct (Hflag 0%nat _ eq_refl eq_refl) as (r' & Hr' & Hflag' & _).
  rewrite Hr'. cbn. by rewrite Hflag'.
Defined.

Lemma default_gate_tiers_aux (self : IsolationForestDetector) (data : list (list Q))
    (results : list Detection) :
  detect_with_confidence self data default_min_confidence = Ok results →
  ∀ r, r ∈ results → is_anomaly r = true →
    0.999 <= confidence r <= 1
    ∧ ((anomaly_score r <= -0.4995 ∧ severity r = "CRITICAL")
       ∨ (0.4995 <= anomaly_score r ∧ severity r = "LOW")).
Proof.
  intros H r Hr Hflag.
  destruct (detect_with_confidence_inv _ _ _ _ H) as (_ & preds & scores & _ & _ & ->).
  apply list_elem_of_lookup in Hr as [i Hi]. rewrite list_lookup_imap in Hi.
  apply fmap_Some in Hi as ([pred score] & _ & ->).
  pose proof (detect_row_confidence default_min_confidence i (pred, score)) as [_ Hc1].
  unfold detect_row in *. cbn in *.
  apply andb_true_iff in Hflag as [Hlabel Hconf]. rewrite Hlabel in *. cbn in *.
  rewrite Hconf. cbn. apply geb_true in Hconf. split; [split; assumption|].
  assert (Hmag : 0.4995 <= Qabs score).
  { unfold default_min_confidence in Hconf.
    pose proof (min_Qmin 1 (py.abs score / 0.5)) as Hm.
    pose proof (Q.le_min_r 1 (py.abs score / 0.5)) as Hr. rewrite <- Hm in Hr.
    assert (Hdiv : 0.999 <= py.abs score / 0.5) by (eapply Qle_trans; eauto).
    unfold py.abs in Hdiv.
    assert (Heq : Qabs score / 0.5 == Qabs score * 2) by (field).
    rewrite Heq in Hdiv. lra. }
  unfold _calculate_severity.
  destruct (Qlt_le_dec score 0) as [Hneg | Hpos].
  - left. rewrite Qabs_neg in Hmag by lra. split; [lra|].
    assert (Hlt : py.ltb score (-0.4) = true) by (apply ltb_true; lra).
    by rewrite Hlt.
  - right. rewrite Qabs_pos in Hmag by lra. split; [lra|].
    assert (H4 : py.ltb score (-0.4) = false) by (apply ltb_false; lra).
    assert (H3 : py.ltb score (-0.3) = false) by (apply ltb_false; lra).
    assert (H2 : py.ltb score (-0.2) = false) by (apply ltb_false; lra).
    by rewrite H4, H3, H2.
Qed.

(** X7. Under the default threshold 0.999 a flagged row has a score of
    magnitude at least 0.4995, so its tier is CRITICAL when the score is
    negative and LOW otherwise: the tiers HIGH and MEDIUM are never given
    to a row that [detect_with_confidence] flags by default. *)
Theorem default_gate_tiers (self : IsolationForestDetector) (data : list (list Q))
    (results : list Detection) :
  detect_with_confidence self data default_min_confidence = Ok results →
  ∀ r, r ∈ results → is_anomaly r = true →
    0.999 <= confidence r <= 1
    ∧ ((anomaly_score r <= -0.4995 ∧ severity r = "CRITICAL")
       ∨ (0.4995 <= anomaly_score r ∧ severity r = "LOW")).
Proof. apply default_gate_tiers_aux. Qed.

Lemma default_gate_tiers_witness :
  0.999 <= confidence (detect_row default_min_confidence 0 ((-1)%Z, -0.6)) <= 1.
Proof.
  destruct (default_gate_tiers examples.trained_detector
              [[30; 1; 28; 32; 4]; [60; 1; 58; 62; 4]]
              (imap (detect_row default_min_confidence) [((-1)%Z, -0.6); (1%Z, 0.1)])
              eq_refl (detect_row default_min_confidence 0 ((-1)%Z, -0.6)))
    as (Hc & _).
  - apply (list_elem_of_lookup_2 _ 0%nat). reflexivity.
  - reflexivity.
  - exact Hc.
Defined.

End detector_more_facts.

(** ** Training and the model files *)

Section persistence_facts.
Import anomaly_detector views spec.
Local Open Scope Q_scope.



Lemma bind_Ok_id {A} (m : result A) : (a ← m; Ok a) = m.
Proof. by destruct m. Qed.

Lemma train_spec_aux (sk_fit : IsolationForest → list (list Q) → IsolationForest)
    (np_sqrt : Q → Q) (self : IsolationForestDetector) (now : Z)
    (normal_data : list (list Q)) :
  ((length normal_data < 10)%nat →
   train sk_fit np_sqrt self now normal_data
   = (self, Raise (ValueError ("Need at least 10 samples for training, got "
                               +:+ pretty (length normal_data)))))
  ∧ ((10 ≤ length normal_data)%nat →
     let trained_self := (train sk_fit np_sqrt self now normal_data).1 in
     is_trained trained_self = true
     ∧ model trained_self = sk_fit (model self) normal_data
     ∧ training_data_size trained_self = length normal_data
     ∧ training_date trained_self = Some now
     ∧ (∀ filepath disk, ∃ disk', save_model trained_self filepath disk = Ok disk')
     ∧ (∀ rows, predict trained_self rows
                = sk_predict (sk_fit (model self) normal_data) rows)
     ∧ ∀ scores,
         sk_score_samples (sk_fit (model self) normal_data) normal_data = Ok scores →
         scores ≠ [] →
         ∃ stats,
           (train sk_fit np_sqrt self now normal_data).2 = Ok stats
           ∧ n_samples stats = length normal_data
           ∧ min_score stats <= mean_score stats <= max_score stats).
Proof.
  unfold train. split.
  - intros Hlt. by destruct (Nat.ltb_spec (length normal_data) 10); [|lia].
  - intros Hge. destruct (Nat.ltb_spec (length normal_data) 10); [lia|]. cbn.
    repeat split.
    + intros filepath disk. eexists. reflexivity.
    + intros rows. unfold predict. cbn. apply bind_Ok_id.
    + intros scores Hscores Hne. rewrite Hscores. cbn.
      destruct scores as [|x xs]; [done|]. cbn. eexists. split; [reflexivity|].
      split; [reflexivity|]. cbn.
      destruct (min_fold_spec x xs) as [_ Hlo]. destruct (max_list_spec x xs) as [_ Hhi].
      apply (mean_bounds (x :: xs)); [done|]. intros y Hy. split; [by apply Hlo | by apply Hhi].
Qed.



Lemma string_app_cons (a : Ascii.ascii) (s t : string) :
  String a s +:+ t = String a (s +:+ t).
Proof. reflexivity. Qed.

Lemma string_length_app (s t : string) :
  String.length (s +:+ t) = (String.length s + String.length t)%nat.
Proof.
  induction s as [|a s IH]; [reflexivity|].
  rewrite string_app_cons. simpl. by rewrite IH.
Qed.

Lemma string_app_inj_2 (s s' t : string) : s +:+ t = s' +:+ t → s = s'.
Proof.
  revert s'. induction s as [|a s IH]; intros [|a' s'] H.
  - reflexivity.
  - apply (f_equal String.length) in H.
    rewrite (string_length_app (String a' s') t) in H.
    change ("" +:+ t) with t in H. simpl in H. lia.
  - apply (f_equal String.length) in H.
    rewrite (string_length_app (String a s) t) in H.
    change ("" +:+ t) with t in H. simpl in H. lia.
  - rewrite !string_app_cons in H. injection H as -> H. by rewrite (IH s' H).
Qed.

Lemma get_model_path_inj (BASE_DIR s s' : string) :
  get_model_path BASE_DIR s = get_model_path BASE_DIR s' → s = s'.
Proof.
  unfold get_model_path. intros H.
  apply (inj (String.append _)) in H. rewrite !string_app_cons in H.
  injection H as H. change ("" +:+ ?x) with x in H. by apply string_app_inj_2 in H.
Qed.

Lemma detector_files_round_trip_aux (BASE_DIR : string)
    (disk : gmap string IsolationForestDetector) (detector : IsolationForestDetector)
    (sensor_type : string) :
  (is_trained detector = true →
   (save_detector_to_disk BASE_DIR disk detector sensor_type).2 = true
   ∧ load_detector_from_disk BASE_DIR
       (save_detector_to_disk BASE_DIR disk detector sensor_type).1 sensor_type
     = detector
   ∧ ∀ other, other ≠ sensor_type →
       load_detector_from_disk BASE_DIR
         (save_detector_to_disk BASE_DIR disk detector sensor_type).1 other
       = load_detector_from_disk BASE_DIR disk other)
  ∧ (is_trained detector = false →
     save_detector_to_disk BASE_DIR disk detector sensor_type = (disk, false))
  ∧ (disk !! get_model_path BASE_DIR sensor_type = None →
     load_detector_from_disk BASE_DIR disk sensor_type = anomaly_detector.new 0.1
     ∧ is_trained (load_detector_from_disk BASE_DIR disk sensor_type) = false).
Proof.
  split; [|split].
  - intros Htrained. unfold save_detector_to_disk, save_model. rewrite Htrained. cbn.
    split; [reflexivity|]. split.
    + unfold load_detector_from_disk, load_model. rewrite lookup_insert_eq.
      by rewrite bool_decide_eq_true_2 by eauto.
    + intros other Hne. unfold load_detector_from_disk, load_model.
      rewrite lookup_insert_ne; [reflexivity|].
      intros Heq. apply Hne. symmetry. by eapply get_model_path_inj.
  - intros Huntrained. unfold save_detector_to_disk, save_model. by rewrite Huntrained.
  - intros Hnone. unfold load_detector_from_disk. rewrite Hnone.
    rewrite bool_decide_eq_false_2; [done|]. by intros [? ?].
Qed.



End persistence_facts.

(** ** When the rule sets return and when they raise *)

Section rule_failure_facts.
Import models rule_engine spec.
Local Open Scope Q_scope.
Local Arguments _build_explanation : simpl never.
Local Arguments py.format_fixed : simpl never.
Local Arguments String.append : simpl never.
Local Arguments py.round : simpl never.
Local Arguments py.min : simpl never.
Local Arguments _calculate_confidence : simpl never.
Local Arguments py.ltb : simpl never.
Local Arguments inject_Z : simpl never.

(** Splits on the tests of an analyzer in the goal. *)
Ltac split_rules :=
  repeat match goal with
         | |- context [if ?b then _ else _] => destruct b eqn:?; cbn
         end.

Lemma calculate_confidence_present (model_confidence rate : Q) :
  ∃ c, _calculate_confidence model_confidence (Some rate) = Ok c.
Proof. unfold _calculate_confidence. cbn. eauto. Qed.

Lemma moisture_raises_iff (a : AnomalyEvent) (ctx : Context) :
  (∃ e, _analyze_moisture_anomaly a ctx = Raise e)
  ↔ ∃ v, recent_value ctx = Some v ∧ 35 <= v ∧ change_rate ctx = None.
Proof.
  unfold _analyze_moisture_anomaly. rewrite moisture_thresholds.
  destruct (recent_value ctx) as [v|]; cbn.
  - destruct (py.ltb v (inject_Z 35)) eqn:E; cbn.
    + apply ltb_true in E. split; [intros [e H]; discriminate H|].
      intros (v' & Hv & Hge & _). simplify_eq. exfalso.
      change (inject_Z 35) with 35 in E. lra.
    + apply ltb_false in E. destruct (change_rate ctx) as [c|]; cbn.
      * split; [|intros (v' & _ & _ & H); discriminate H].
        intros [e H]. exfalso. revert H.
        destruct (calculate_confidence_present (ae_model_confidence a) c) as [b ->].
        split_rules; discriminate.
      * split; [intros _; exists v; by repeat split|]. intros _. eauto.
  - split; [intros [e H]; discriminate H | intros (v & H & _); discriminate H].
Qed.

Lemma temperature_raises_iff (a : AnomalyEvent) (ctx : Context) :
  (∃ e, _analyze_temperature_anomaly a ctx = Raise e)
  ↔ ∃ v, recent_value ctx = Some v ∧ v <= 32 ∧ (v == 0 ∨ 10 <= v)
         ∧ change_rate ctx = None.
Proof.
  unfold _analyze_temperature_anomaly. rewrite temperature_thresholds.
  destruct (recent_value ctx) as [v|]; cbn.
  2:{ split; [intros [e H]; discriminate H | intros (v & H & _); discriminate H]. }
  unfold py.gtb. destruct (py.ltb (inject_Z 32) v) eqn:E32; cbn.
  { apply ltb_true in E32. change (inject_Z 32) with 32 in E32. split.
    - intros [e H]. exfalso. revert H.
      destruct (historical_avg ctx) as [h|]; cbn; split_rules; discriminate.
    - intros (v' & Hv & Hle & _). simplify_eq. exfalso. lra. }
  apply ltb_false in E32. change (inject_Z 32) with 32 in E32.
  destruct (py.neqb v 0) eqn:Ez; cbn.
  - apply neqb_true in Ez. destruct (py.ltb v (inject_Z 10)) eqn:E10; cbn.
    + apply ltb_true in E10. change (inject_Z 10) with 10 in E10.
      split; [intros [e H]; discriminate H|].
      intros (v' & Hv & _ & [Hz | Hge] & _); simplify_eq; exfalso; [by apply Ez | lra].
    + apply ltb_false in E10. change (inject_Z 10) with 10 in E10.
      destruct (change_rate ctx) as [c|]; cbn.
      * split; [|intros (v' & _ & _ & _ & H); discriminate H].
        intros [e H]. exfalso. revert H. split_rules; discriminate.
      * split; [|intros _; eauto]. intros _. exists v. repeat split; auto.
  - assert (Hz : v == 0).
    { destruct (Qeq_dec v 0) as [Hz | Hnz]; [exact Hz|].
      apply neqb_true in Hnz. congruence. }
    destruct (change_rate ctx) as [c|]; cbn.
    + split; [|intros (v' & _ & _ & _ & H); discriminate H].
      intros [e H]. exfalso. revert H. split_rules; discriminate.
    + split; [|intros _; eauto]. intros _. exists v. repeat split; auto.
Qed.

Lemma humidity_raises_iff (a : AnomalyEvent) (ctx : Context) :
  (∃ e, _analyze_humidity_anomaly a ctx = Raise e) ↔ recent_value ctx = None.
Proof.
  unfold _analyze_humidity_anomaly.
  destruct (recent_value ctx) as [v|]; cbn.
  - split; [|discriminate]. intros [e H]. exfalso. revert H.
    unfold py.gtb. split_rules; discriminate.
  - split; [done|]. intros _. split_rules; eauto.
Qed.

Lemma analyzers_raise_TypeError (a : AnomalyEvent) (ctx : Context) (e : exn) :
  _analyze_moisture_anomaly a ctx = Raise e
  ∨ _analyze_temperature_anomaly a ctx = Raise e
  ∨ _analyze_humidity_anomaly a ctx = Raise e →
  ∃ msg, e = TypeError msg.
Proof.
  intros [H | [H | H]].
  - destruct (proj1 (moisture_raises_iff a ctx)) as (v & Hv & Hge & Hc); [eauto|].
    revert H. unfold _analyze_moisture_anomaly. rewrite moisture_thresholds, Hv, Hc. cbn.
    assert (E : py.ltb v (inject_Z 35) = false) by (by apply ltb_false).
    rewrite E. cbn. intros H. injection H as <-. eauto.
  - destruct (proj1 (temperature_raises_iff a ctx)) as (v & Hv & Hle & Hz & Hc); [eauto|].
    revert H. unfold _analyze_temperature_anomaly. rewrite temperature_thresholds, Hv, Hc. cbn.
    unfold py.gtb.
    assert (E : py.ltb (inject_Z 32) v = false) by (by apply ltb_false).
    rewrite E. cbn. destruct (py.neqb v 0) eqn:Ez; cbn.
    + apply neqb_true in Ez. destruct Hz as [Hz | Hz]; [done|].
      assert (E10 : py.ltb v (inject_Z 10) = false) by (by apply ltb_false).
      rewrite E10. cbn. intros H. injection H as <-. eauto.
    + intros H. injection H as <-. eauto.
  - pose proof (proj1 (humidity_raises_iff a ctx) (ex_intro _ e H)) as Hv.
    revert H. unfold _analyze_humidity_anomaly. rewrite Hv. cbn.
    destruct (String.eqb _ _); cbn; intros H; injection H as <-; eauto.
Qed.

Lemma analyzer_failure_conditions_aux (a : AnomalyEvent) (ctx : Context) :
  ((∃ e, _analyze_moisture_anomaly a ctx = Raise e)
   ↔ ∃ v, recent_value ctx = Some v ∧ 35 <= v ∧ change_rate ctx = None)
  ∧ ((∃ e, _analyze_temperature_anomaly a ctx = Raise e)
     ↔ ∃ v, recent_value ctx = Some v ∧ v <= 32 ∧ (v == 0 ∨ 10 <= v)
            ∧ change_rate ctx = None)
  ∧ ((∃ e, _analyze_humidity_anomaly a ctx = Raise e) ↔ recent_value ctx = None)
  ∧ (∃ r, _analyze_generic_anomaly a ctx = Ok r)
  ∧ (∀ e, analyze_with_context a ctx = Raise e → ∃ msg, e = TypeError msg).
Proof.
  split; [apply moisture_raises_iff|]. split; [apply temperature_raises_iff|].
  split; [apply humidity_raises_iff|].
  assert (Hgeneric : ∃ r, _analyze_generic_anomaly a ctx = Ok r).
  { unfold _analyze_generic_anomaly. split_rules; eauto. }
  split; [exact Hgeneric|].
  intros e. unfold analyze_with_context.
  destruct (py.contains "moisture" _); [intros H; eapply analyzers_raise_TypeError; eauto|].
  destruct (py.contains "temperature" _);
    [intros H; eapply analyzers_raise_TypeError; eauto|].
  destruct (py.contains "humidity" _);
    [intros H; eapply analyzers_raise_TypeError; eauto|].
  destruct Hgeneric as [r ->]. discriminate.
Qed.

(** X11. The exact conditions under which the rule sets raise. The
    moisture rules raise exactly when the value is present and at least
    35 while the change rate is missing; the temperature rules exactly
    when the value is present, at most 32 and either 0 or at least 10,
    while the change rate is missing; the humidity rules exactly when the
    value is missing; the generic rules never. In every other case a
    result is returned, and whatever [analyze] raises is a [TypeError]. *)
Theorem analyzer_failure_conditions (a : AnomalyEvent) (ctx : Context) :
  ((∃ e, _analyze_moisture_anomaly a ctx = Raise e)
   ↔ ∃ v, recent_value ctx = Some v ∧ 35 <= v ∧ change_rate ctx = None)
  ∧ ((∃ e, _analyze_temperature_anomaly a ctx = Raise e)
     ↔ ∃ v, recent_value ctx = Some v ∧ v <= 32 ∧ (v == 0 ∨ 10 <= v)
            ∧ change_rate ctx = None)
  ∧ ((∃ e, _analyze_humidity_anomaly a ctx = Raise e) ↔ recent_value ctx = None)
  ∧ (∃ r, _analyze_generic_anomaly a ctx = Ok r)
  ∧ (∀ e, analyze_with_context a ctx = Raise e → ∃ msg, e = TypeError msg).
Proof. apply analyzer_failure_conditions_aux. Qed.

Lemma analyzer_failure_conditions_witness :
  ∃ e, _analyze_moisture_anomaly examples.drought_anomaly
         {| recent_value := Some 50; change_rate := None; trend := "unknown";
            multiple_anomalies := false; sensor_type := Some "moisture";
            historical_avg := None; time_of_day := Some "20:26" |} = Raise e.
Proof.
  apply (proj1 (analyzer_failure_conditions examples.drought_anomaly _)).
  exists 50. repeat split. discriminate.
Defined.

(** X12. A reading of exactly 0 is skipped by the rules for low values,
    which test the value for truth first. Whenever the temperature rules
    return, the result is the cold-protection one exactly when the value
    is below 10 and not 0; whenever the humidity rules return, it is the
    low-humidity one exactly when the value is below 30 and not 0. *)
Theorem zero_reading_skips_low_rules (a : AnomalyEvent) (ctx : Context) (v : Q)
    (r : Analysis) :
  recent_value ctx = Some v →
  (_analyze_temperature_anomaly a ctx = Ok r →
   (recommended_action r = "URGENT: Cold protection required - risk of frost damage"
    ↔ ¬ v == 0 ∧ v < 10))
  ∧ (_analyze_humidity_anomaly a ctx = Ok r →
     (recommended_action r
      = "Increase humidity or irrigation - risk of plant stress from dry air"
      ↔ ¬ v == 0 ∧ v < 30)).
Proof.
  intros Hv. split.
  - unfold _analyze_temperature_anomaly. rewrite temperature_thresholds, Hv. cbn.
    unfold py.gtb. destruct (py.ltb (inject_Z 32) v) eqn:E32; cbn.
    { apply ltb_true in E32. change (inject_Z 32) with 32 in E32.
      destruct (historical_avg ctx) as [h|]; cbn; split_rules;
        intros H; injection H as <-; cbn;
        (split; [discriminate | intros [_ Hlt]; exfalso; lra]). }
    destruct (py.neqb v 0) eqn:Ez; cbn.
    + apply neqb_true in Ez. destruct (py.ltb v (inject_Z 10)) eqn:E10; cbn.
      * apply ltb_true in E10. intros H. injection H as <-. cbn. by split.
      * apply ltb_false in E10. change (inject_Z 10) with 10 in E10.
        destruct (change_rate ctx) as [c|]; cbn; [|discriminate].
        split_rules; intros H; injection H as <-; cbn;
          (split; [discriminate | intros [_ Hlt]; exfalso; lra]).
    + assert (Hz : v == 0).
      { destruct (Qeq_dec v 0) as [Hz | Hnz]; [exact Hz|].
        apply neqb_true in Hnz. congruence. }
      destruct (change_rate ctx) as [c|]; cbn; [|discriminate].
      split_rules; intros H; injection H as <-; cbn;
        (split; [discriminate | intros [Hnz _]; by exfalso]).
  - unfold _analyze_humidity_anomaly. rewrite humidity_thresholds, Hv. cbn.
    unfold py.gtb. destruct (py.neqb v 0) eqn:Ez; cbn.
    + apply neqb_true in Ez. destruct (py.ltb v (inject_Z 30)) eqn:E30; cbn.
      * apply ltb_true in E30. intros H. injection H as <-. cbn. by split.
      * apply ltb_false in E30. change (inject_Z 30) with 30 in E30.
        split_rules; intros H; injection H as <-; cbn;
          (split; [discriminate | intros [_ Hlt]; exfalso; lra]).
    + assert (Hz : v == 0).
      { destruct (Qeq_dec v 0) as [Hz | Hnz]; [exact Hz|].
        apply neqb_true in Hnz. congruence. }
      split_rules; intros H; injection H as <-; cbn;
        (split; [discriminate | intros [Hnz _]; by exfalso]).
Qed.

Lemma zero_reading_skips_low_rules_witness :
  ∃ r, _analyze_humidity_anomaly examples.orphan_humidity_anomaly
         examples.zero_humidity_context = Ok r
       ∧ recommended_action r
         ≠ "Increase humidity or irrigation - risk of plant stress from dry air".
Proof.
  destruct (_analyze_humidity_anomaly examples.orphan_humidity_anomaly
              examples.zero_humidity_context) as [r|e] eqn:E;
    [|vm_compute in E; discriminate E].
  exists r. split; [reflexivity|]. intros H.
  apply (proj2 (zero_reading_skips_low_rules examples.orphan_humidity_anomaly
                  examples.zero_humidity_context 0 r eq_refl) E) in H.
  by destruct H as [H _].
Defined.

End rule_failure_facts.

(** ** The context built from the stored readings *)

Section context_facts.
Import models rule_engine spec.
Local Open Scope Q_scope.

Lemma count_adjacent_all (cmp : Q → Q → bool) (values : list Q) :
  (∀ i x y, values !! i = Some x → values !! S i = Some y → cmp x y = true) →
  count_adjacent cmp values = (length values - 1)%nat.
Proof.
  induction values as [|x [|y rest] IH]; intros Hall; try reflexivity.
  change (count_adjacent cmp (x :: y :: rest))
    with ((if cmp x y then 1 else 0) + count_adjacent cmp (y :: rest))%nat.
  rewrite (Hall 0%nat x y eq_refl eq_refl), IH; [simpl; lia|].
  intros i a b Ha Hb. exact (Hall (S i) a b Ha Hb).
Qed.

Lemma count_adjacent_none (cmp : Q → Q → bool) (values : list Q) :
  (∀ i x y, values !! i = Some x → values !! S i = Some y → cmp x y = false) →
  count_adjacent cmp values = 0%nat.
Proof.
  induction values as [|x [|y rest] IH]; intros Hall; try reflexivity.
  change (count_adjacent cmp (x :: y :: rest))
    with ((if cmp x y then 1 else 0) + count_adjacent cmp (y :: rest))%nat.
  rewrite (Hall 0%nat x y eq_refl eq_refl), IH; [reflexivity|].
  intros i a b Ha Hb. exact (Hall (S i) a b Ha Hb).
Qed.

Lemma trend_bound_pos (n : nat) :
  (0 < n)%nat →
  0 < inject_Z (Z.of_nat n) * 0.7 ∧ inject_Z (Z.of_nat n) * 0.7 < inject_Z (Z.of_nat n).
Proof.
  intros Hn. assert (Hq : 0 < inject_Z (Z.of_nat n)).
  { change 0 with (inject_Z 0). rewrite <- Zlt_Qlt. lia. }
  split; lra.
Qed.

Lemma determine_trend_spec_aux (values : list Q) :
  _determine_trend values ∈ ["unknown"; "increasing"; "decreasing"; "fluctuating"]
  ∧ (_determine_trend values = "unknown" ↔ (length values < 3)%nat)
  ∧ ((3 ≤ length values)%nat →
     ((∀ i newer older, values !! i = Some newer → values !! S i = Some older →
                        older < newer) →
      _determine_trend values = "increasing")
     ∧ ((∀ i newer older, values !! i = Some newer → values !! S i = Some older →
                          newer < older) →
        _determine_trend values = "decreasing")
     ∧ ((∀ i newer older, values !! i = Some newer → values !! S i = Some older →
                          newer == older) →
        _determine_trend values = "fluctuating")).
Proof.
  unfold _determine_trend.
  destruct (Nat.ltb_spec (length values) 3) as [Hlt | Hge].
  { split; [set_solver|]. split; [done|]. intros H. lia. }
  destruct (trend_bound_pos (length values - 1)) as [Hb0 Hb1]; [lia|].
  split; [|split; [|intros _; split; [|split]]].
  - repeat match goal with |- context [if ?b then _ else _] => destruct b end; set_solver.
  - split; [|lia].
    repeat match goal with |- context [if ?b then _ else _] => destruct b end; discriminate.
  - intros Hall. rewrite count_adjacent_all.
    + assert (E : py.gtb (inject_Z (Z.of_nat (length values - 1)))
                         (inject_Z (Z.of_nat (length values - 1)) * 0.7) = true)
        by (by apply gtb_true).
      by rewrite E.
    + intros i x y Hx Hy. apply gtb_true. eauto.
  - intros Hall. rewrite (count_adjacent_none py.gtb), (count_adjacent_all py.ltb).
    + assert (E0 : py.gtb (inject_Z (Z.of_nat 0))
                          (inject_Z (Z.of_nat (length values - 1)) * 0.7) = false).
      { apply gtb_false. change (inject_Z (Z.of_nat 0)) with 0. lra. }
      assert (E : py.gtb (inject_Z (Z.of_nat (length values - 1)))
                         (inject_Z (Z.of_nat (length values - 1)) * 0.7) = true)
        by (by apply gtb_true).
      by rewrite E0, E.
    + intros i x y Hx Hy. apply ltb_true. eauto.
    + intros i x y Hx Hy. apply gtb_false. apply Qlt_le_weak. eauto.
  - intros Hall. rewrite (count_adjacent_none py.gtb), (count_adjacent_none py.ltb).
    + assert (E0 : py.gtb (inject_Z (Z.of_nat 0))
                          (inject_Z (Z.of_nat (length values - 1)) * 0.7) = false).
      { apply gtb_false. change (inject_Z (Z.of_nat 0)) with 0. lra. }
      by rewrite E0.
    + intros i x y Hx Hy. apply ltb_false. rewrite (Hall i x y Hx Hy). apply Qle_refl.
    + intros i x y Hx Hy. apply gtb_false. rewrite (Hall i x y Hx Hy). apply Qle_refl.
Qed.

(** X13. [_determine_trend] answers [unknown] exactly on fewer than 3
    values. On 3 values or more, listed newest first, it answers
    [increasing] when every value is above the one before it in time,
    [decreasing] when every value is below it, and [fluctuating] when
    all values are equal. *)
Theorem determine_trend_spec (values : list Q) :
  _determine_trend values ∈ ["unknown"; "increasing"; "decreasing"; "fluctuating"]
  ∧ (_determine_trend values = "unknown" ↔ (length values < 3)%nat)
  ∧ ((3 ≤ length values)%nat →
     ((∀ i newer older, values !! i = Some newer → values !! S i = Some older →
                        older < newer) →
      _determine_trend values = "increasing")
     ∧ ((∀ i newer older, values !! i = Some newer → values !! S i = Some older →
                          newer < older) →
        _determine_trend values = "decreasing")
     ∧ ((∀ i newer older, values !! i = Some newer → values !! S i = Some older →
                          newer == older) →
        _determine_trend values = "fluctuating")).
Proof. apply determine_trend_spec_aux. Qed.

Lemma determine_trend_spec_witness :
  _determine_trend [30; 34; 38] = "decreasing" ∧ _determine_trend [30; 34] = "unknown".
Proof.
  destruct (determine_trend_spec [30; 34; 38]) as (_ & _ & Hmono).
  destruct (determine_trend_spec [30; 34]) as (_ & Hshort & _).
  split.
  - apply Hmono; [simpl; lia|].
    intros [|[|i]] x y Hx Hy; simpl in Hx, Hy; simplify_eq; reflexivity.
  - apply Hshort. simpl. lia.
Defined.

Lemma round_half_even_error (y : Q) :
  Qabs (inject_Z (py.round_half_even y) - y) <= 1 # 2.
Proof.
  pose proof (Qfloor_le y) as Hlo. pose proof (Qlt_floor y) as Hhi.
  rewrite inject_Z_plus in Hhi. change (inject_Z 1) with 1 in Hhi.
  apply Qabs_Qle_condition. unfold py.round_half_even.
  destruct (y - inject_Z (Qfloor y) ?= 1 # 2) eqn:E.
  - apply Qeq_alt in E. destruct (Z.even (Qfloor y)).
    + split; lra.
    + rewrite inject_Z_plus. change (inject_Z 1) with 1. split; lra.
  - apply Qlt_alt in E. split; lra.
  - apply Qgt_alt in E. rewrite inject_Z_plus. change (inject_Z 1) with 1. split; lra.
Qed.

Lemma round_error (x : Q) (ndigits : nat) :
  Qabs (py.round x ndigits - x) <= (1 # 2) / py.pow10 ndigits.
Proof.
  pose proof (pow10_pos ndigits) as Hp.
  pose proof (round_half_even_error (x * py.pow10 ndigits)) as He.
  apply Qabs_Qle_condition in He as [He1 He2]. apply Qabs_Qle_condition.
  unfold py.round.
  set (p := py.pow10 ndigits) in *. set (r := inject_Z (py.round_half_even (x * p))) in *.
  assert (Hinv : 0 < / p) by (by apply Qinv_lt_0_compat).
  assert (Heq : r * / p - x == (r - x * p) * / p) by (field; lra).
  assert (Hneg : - ((1 # 2) * / p) == - (1 # 2) * / p) by ring.
  unfold Qdiv. rewrite Heq, Hneg. split; apply Qmult_le_compat_r; lra.
Qed.

Lemma round_half_even_comp (x y : Q) :
  x == y → py.round_half_even x = py.round_half_even y.
Proof.
  intros H. unfold py.round_half_even. rewrite (Qfloor_comp x y H).
  assert (Hc : (x - inject_Z (Qfloor y) ?= 1 # 2) = (y - inject_Z (Qfloor y) ?= 1 # 2))
    by (by rewrite H).
  by rewrite Hc.
Qed.

Lemma round_zero (x : Q) (ndigits : nat) : x == 0 → py.round x ndigits == 0.
Proof.
  intros H. unfold py.round.
  rewrite (round_half_even_comp (x * py.pow10 ndigits) 0) by (rewrite H; ring).
  pose proof (pow10_pos ndigits). change (py.round_half_even 0) with 0%Z. field. lra.
Qed.

(** X14. [_calculate_change_rate] is 0 on fewer than two values and when
    the oldest value is 0; otherwise it is within 0.005 of the percent
    change from the oldest value to the newest, and it is 0 when the two
    are equal. *)
Theorem calculate_change_rate_spec (values : list Q) :
  ((length values < 2)%nat → _calculate_change_rate values = 0)
  ∧ ∀ newest oldest,
      (2 ≤ length values)%nat →
      head values = Some newest → last values = Some oldest →
      (oldest == 0 → _calculate_change_rate values == 0)
      ∧ (¬ oldest == 0 →
         Qabs (_calculate_change_rate values - (newest - oldest) / oldest * 100)
         <= 0.005
         ∧ (newest == oldest → _calculate_change_rate values == 0)).
Proof.
  unfold _calculate_change_rate. split.
  - intros Hlt. by destruct (Nat.ltb_spec (length values) 2); [|lia].
  - intros newest oldest Hge Hhead Hlast.
    destruct (Nat.ltb_spec (length values) 2); [lia|].
    rewrite Hhead, Hlast. cbn [default from_option]. unfold id. split.
    + intros Hz. assert (E : py.neqb oldest 0 = false).
      { destruct (py.neqb oldest 0) eqn:E; [|done]. apply neqb_true in E. done. }
      rewrite E. by apply round_zero.
    + intros Hnz. assert (E : py.neqb oldest 0 = true) by (by apply neqb_true).
      rewrite E. split.
      * eapply Qle_trans; [apply round_error|]. discriminate.
      * intros Heq.
        apply round_zero. rewrite Heq. field. done.
Qed.

Lemma calculate_change_rate_spec_witness :
  Qabs (_calculate_change_rate [30; 34; 38] - (30 - 38) / 38 * 100) <= 0.005.
Proof.
  destruct (calculate_change_rate_spec [30; 34; 38]) as (_ & H).
  destruct (H 30 38) as (_ & Hnz); [simpl; lia | reflexivity | reflexivity |].
  apply Hnz. discriminate.
Defined.

End context_facts.

(** ** Short histories *)

Section history_facts.
Import models rule_engine agent_service spec.
Local Open Scope Q_scope.

Lemma readings_before_length (db : DB) (plot : Z) (sensor_type : string)
    (before : Z) (count : nat) :
  length (readings_before db plot sensor_type before count)
  = Nat.min count
      (length (filter (λ r, sr_plot r = plot ∧ sr_sensor_type r = sensor_type
                            ∧ (sr_timestamp r < before)%Z)
                      (sensor_readings db))).
Proof.
  unfold readings_before, order_by_timestamp_desc.
  by rewrite length_take, (Permutation_length (merge_sort_Permutation _ _)).
Qed.

Lemma reading_context_spec_aux (db : DB) (a : AnomalyEvent) :
  let ctx := _get_reading_context db a in
  (multiple_anomalies ctx = true
   ↔ (3 ≤ length (filter (λ e, ae_plot e = ae_plot a
                               ∧ (ae_timestamp a - 10800 ≤ ae_timestamp e)%Z)
                         (anomaly_events db)))%nat)
  ∧ (ae_sensor_reading a = None →
     recent_value ctx = None ∧ change_rate ctx = None
     ∧ historical_avg ctx = None ∧ trend ctx = "unknown")
  ∧ ∀ r, ae_sensor_reading a = Some r →
      let earlier :=
        filter (λ x, sr_plot x = ae_plot a ∧ sr_sensor_type x = sr_sensor_type r
                     ∧ (sr_timestamp x < sr_timestamp r)%Z)
               (sensor_readings db) in
      recent_value ctx = Some (sr_value r)
      ∧ sensor_type ctx = Some (sr_sensor_type r)
      ∧ ((length earlier < 2)%nat →
         change_rate ctx = None ∧ historical_avg ctx = None ∧ trend ctx = "unknown")
      ∧ ((2 ≤ length earlier)%nat →
         is_Some (change_rate ctx) ∧ is_Some (historical_avg ctx)
         ∧ trend ctx ∈ ["increasing"; "decreasing"; "fluctuating"]).
Proof.
  cbv zeta. unfold _get_reading_context. split; [|split].
  - cbn [multiple_anomalies]. unfold count_recent_anomalies, py.timedelta_hours.
    change (3 * 3600)%Z with 10800%Z.
    destruct (Nat.ltb_spec 2 (length (filter
      (λ e, ae_plot e = ae_plot a ∧ (ae_timestamp a - 10800 ≤ ae_timestamp e)%Z)
      (anomaly_events db)))); split; (done || lia).
  - intros ->. by cbn.
  - intros r ->.
    pose proof (readings_before_length db (ae_plot a) (sr_sensor_type r)
                  (sr_timestamp r) 10) as Hlen.
    destruct (Nat.leb_spec 2 (length (readings_before db (ae_plot a) (sr_sensor_type r)
                                        (sr_timestamp r) 10))) as [Hge | Hlt]; cbn.
    + split; [done|]. split; [done|]. split; [intros H; lia|]. intros _.
      split; [eauto|]. split; [eauto|].
      destruct (determine_trend_spec_aux
                  (sr_value r :: map sr_value
                     (readings_before db (ae_plot a) (sr_sensor_type r)
                        (sr_timestamp r) 10))) as (Hin & Hunknown & _).
      assert (Hne : _determine_trend
                (sr_value r :: map sr_value
                   (readings_before db (ae_plot a) (sr_sensor_type r)
                      (sr_timestamp r) 10)) ≠ "unknown").
      { intros Heq. apply Hunknown in Heq. cbn in Heq. rewrite length_map in Heq. lia. }
      apply elem_of_cons in Hin as [Hin | Hin]; [done | exact Hin].
    + split; [done|]. split; [done|]. split; [done|]. intros H. lia.
Qed.

(** X15. The context of an anomaly. [multiple_anomalies] holds exactly
    when at least 3 events of the plot, the anomaly itself included if it
    is stored, are not older than 3 hours before it. Without a triggering
    reading the value, the change rate and the average are missing and
    the trend is [unknown]. With one, the value is the reading's; the
    change rate and the average are present exactly when at least 2
    readings of the same plot and sensor type are strictly older than
    it, and then the trend is never [unknown]. *)
Theorem reading_context_spec (db : DB) (a : AnomalyEvent) :
  let ctx := _get_reading_context db a in
  (multiple_anomalies ctx = true
   ↔ (3 ≤ length (filter (λ e, ae_plot e = ae_plot a
                               ∧ (ae_timestamp a - 10800 ≤ ae_timestamp e)%Z)
                         (anomaly_events db)))%nat)
  ∧ (ae_sensor_reading a = None →
     recent_value ctx = None ∧ change_rate ctx = None
     ∧ historical_avg ctx = None ∧ trend ctx = "unknown")
  ∧ ∀ r, ae_sensor_reading a = Some r →
      let earlier :=
        filter (λ x, sr_plot x = ae_plot a ∧ sr_sensor_type x = sr_sensor_type r
                     ∧ (sr_timestamp x < sr_timestamp r)%Z)
               (sensor_readings db) in
      recent_value ctx = Some (sr_value r)
      ∧ sensor_type ctx = Some (sr_sensor_type r)
      ∧ ((length earlier < 2)%nat →
         change_rate ctx = None ∧ historical_avg ctx = None ∧ trend ctx = "unknown")
      ∧ ((2 ≤ length earlier)%nat →
         is_Some (change_rate ctx) ∧ is_Some (historical_avg ctx)
         ∧ trend ctx ∈ ["increasing"; "decreasing"; "fluctuating"]).
Proof. apply reading_context_spec_aux. Qed.

Lemma reading_context_spec_witness :
  recent_value (_get_reading_context examples.dry_db examples.orphan_humidity_anomaly)
  = None
  ∧ trend (_get_reading_context examples.dry_db examples.orphan_humidity_anomaly)
    = "unknown".
Proof.
  destruct (reading_context_spec examples.dry_db examples.orphan_humidity_anomaly)
    as (_ & Hmissing & _).
  destruct (Hmissing eq_refl) as (Hv & _ & _ & Ht). by split.
Defined.

(** X16. An anomaly with a short history makes the agent fail. For an
    event without recommendation whose reading has fewer than 2 older
    readings of its plot and sensor type, the rule engine raises a
    [TypeError] when the event is a moisture anomaly on a value of at
    least 35, or a temperature anomaly on a value that is at most 32 and
    either 0 or at least 10. [process_anomaly] then raises the same
    error and stores nothing, and the [post_save] receiver leaves the
    event without recommendation. *)
Theorem short_history_crash (db : DB) (now : Z) (a : AnomalyEvent) (r : SensorReading) :
  ae_sensor_reading a = Some r →
  (length (filter (λ x, sr_plot x = ae_plot a ∧ sr_sensor_type x = sr_sensor_type r
                        ∧ (sr_timestamp x < sr_timestamp r)%Z)
                  (sensor_readings db)) < 2)%nat →
  recommendation_of db a = None →
  (py.contains "moisture" (py.lower (ae_anomaly_type a)) = true ∧ 35 <= sr_value r)
  ∨ (py.contains "moisture" (py.lower (ae_anomaly_type a)) = false
     ∧ py.contains "temperature" (py.lower (ae_anomaly_type a)) = true
     ∧ sr_value r <= 32 ∧ (sr_value r == 0 ∨ 10 <= sr_value r)) →
  ∃ msg,
    analyze_anomaly db a = Raise (TypeError msg)
    ∧ process_anomaly db now a = (db, Raise (TypeError msg))
    ∧ signals.process_anomaly_event db now a true = db
    ∧ recommendation_of (signals.process_anomaly_event db now a true) a = None.
Proof.
  intros Hr Hshort Hnone Hcase.
  destruct (reading_context_spec_aux db a) as (_ & _ & Hctx).
  destruct (Hctx r Hr) as (Hv & _ & Hmissing & _).
  destruct (Hmissing Hshort) as (Hrate & _).
  assert (Hraise : ∃ e, analyze_anomaly db a = Raise e).
  { unfold analyze_anomaly, analyze_with_context.
    destruct Hcase as [[Hm Hge] | (Hm & Ht & Hle & Hz)]; rewrite Hm; [|rewrite Ht].
    - apply moisture_raises_iff. eauto.
    - apply temperature_raises_iff. exists (sr_value r). by repeat split. }
  destruct Hraise as [e He].
  destruct (proj2 (proj2 (proj2 (proj2
              (analyzer_failure_conditions_aux a (_get_reading_context db a))))) e He)
    as [msg ->].
  exists msg. split; [exact He|].
  assert (Hp : process_anomaly db now a = (db, Raise (TypeError msg))).
  { unfold process_anomaly. by rewrite Hnone, He. }
  split; [exact Hp|]. unfold signals.process_anomaly_event. rewrite Hp. by split.
Qed.

Lemma short_history_crash_witness :
  ∃ msg,
    process_anomaly examples.lone_db 1730665090 examples.lone_anomaly
    = (examples.lone_db, Raise (TypeError msg)).
Proof.
  destruct (short_history_crash examples.lone_db 1730665090 examples.lone_anomaly
              examples.lone_reading eq_refl)
    as (msg & _ & Hp & _).
  - vm_compute. lia.
  - reflexivity.
  - left. split; [reflexivity | discriminate].
  - by exists msg.
Defined.

End history_facts.

(** ** Batches of the agent service *)

Section agent_batch_facts.
Import models rule_engine agent_service spec.

Lemma process_anomaly_frame (db : DB) (now : Z) (a : AnomalyEvent) :
  sensor_readings (process_anomaly db now a).1 = sensor_readings db
  ∧ anomaly_events (process_anomaly db now a).1 = anomaly_events db
  ∧ field_plots (process_anomaly db now a).1 = field_plots db
  ∧ anomaly_event_seq (process_anomaly db now a).1 = anomaly_event_seq db.
Proof.
  destruct (process_anomaly_cases db now a)
    as [(r0 & _ & ->) | [(e & _ & _ & ->) | (an & _ & _ & ->)]]; by repeat split.
Qed.

Lemma analyze_anomaly_frame (db db' : DB) (a : AnomalyEvent) :
  sensor_readings db' = sensor_readings db →
  anomaly_events db' = anomaly_events db →
  analyze_anomaly db' a = analyze_anomaly db a.
Proof.
  intros Hr He. unfold analyze_anomaly, _get_reading_context, readings_before,
    count_recent_anomalies. by rewrite Hr, He.
Qed.

Lemma recommendation_of_app (db db' : DB) (a : AnomalyEvent) (r : AgentRecommendation)
    (more : list AgentRecommendation) :
  agent_recommendations db' = agent_recommendations db ++ more →
  recommendation_of db a = Some r → recommendation_of db' a = Some r.
Proof.
  unfold recommendation_of. intros -> H.
  apply fmap_Some in H as ([i x] & Hfind & ->).
  by rewrite (list_find_app_l _ _ _ _ _ Hfind).
Qed.

Lemma process_anomaly_grows (db : DB) (now : Z) (a : AnomalyEvent) :
  ∃ more, agent_recommendations (process_anomaly db now a).1
          = agent_recommendations db ++ more.
Proof.
  destruct (process_anomaly_cases db now a)
    as [(r0 & _ & ->) | [(e & _ & _ & ->) | (an & _ & _ & ->)]].
  - exists []. by rewrite app_nil_r.
  - exists []. by rewrite app_nil_r.
  - eexists [_]. reflexivity.
Qed.

Lemma process_anomaly_keeps_one (db : DB) (now : Z) (a : AnomalyEvent) :
  one_recommendation_per_event db →
  one_recommendation_per_event (process_anomaly db now a).1.
Proof.
  intros Hinv.
  destruct (process_anomaly_cases db now a)
    as [(r0 & _ & ->) | [(e & _ & _ & ->) | (an & Hnone & _ & ->)]]; try exact Hinv.
  unfold one_recommendation_per_event in *. cbn.
  rewrite fmap_app. apply NoDup_app. split; [exact Hinv|]. split.
  - intros x Hx Hin. cbn in Hin. apply list_elem_of_singleton in Hin as ->.
    apply list_elem_of_fmap in Hx as (r & Heqr & Hr).
    by apply (recommendation_of_None db a Hnone r Hr).
  - cbn. apply NoDup_singleton.
Qed.

(** The outcome of one call, seen from the database it leaves. *)
Lemma process_anomaly_outcome (db : DB) (now : Z) (a : AnomalyEvent) :
  (∃ r, (process_anomaly db now a).2 = Ok r
        ∧ recommendation_of (process_anomaly db now a).1 a = Some r
        ∧ r ∈ agent_recommendations (process_anomaly db now a).1)
  ∨ (∃ e, (process_anomaly db now a).2 = Raise e
          ∧ analyze_anomaly db a = Raise e
          ∧ (process_anomaly db now a).1 = db).
Proof.
  destruct (process_anomaly_cases db now a)
    as [(r0 & Hsome & ->) | [(e & _ & He & ->) | (an & Hnone & _ & ->)]].
  - left. exists r0. split; [done|]. split; [done|].
    unfold recommendation_of in Hsome. apply fmap_Some in Hsome as ([i x] & Hfind & ->).
    apply list_find_Some in Hfind as (Hi & _). by eapply list_elem_of_lookup_2.
  - right. by exists e.
  - left. eexists. split; [reflexivity|]. split.
    + by apply recommendation_of_created.
    + cbn. apply elem_of_app. right. left.
Qed.

Lemma process_multiple_frame (db : DB) (now : Z) (events : list AnomalyEvent) :
  sensor_readings (process_multiple_anomalies db now events).1 = sensor_readings db
  ∧ anomaly_events (process_multiple_anomalies db now events).1 = anomaly_events db
  ∧ ∃ more, agent_recommendations (process_multiple_anomalies db now events).1
            = agent_recommendations db ++ more.
Proof.
  revert db. induction events as [|a rest IH]; intros db; cbn.
  - repeat split. exists []. by rewrite app_nil_r.
  - destruct (process_anomaly db now a) as [db1 outcome] eqn:E.
    destruct (process_multiple_anomalies db1 now rest) as [db2 recs] eqn:E2.
    destruct (IH db1) as (Hr & He & more2 & Hm). rewrite E2 in Hr, He, Hm. cbn in *.
    destruct (process_anomaly_frame db now a) as (Hr1 & He1 & _).
    destruct (process_anomaly_grows db now a) as [more1 Hm1].
    rewrite E in Hr1, He1, Hm1. cbn in *.
    assert (Hdb2 : sensor_readings db2 = sensor_readings db
                   ∧ anomaly_events db2 = anomaly_events db
                   ∧ ∃ more, agent_recommendations db2 = agent_recommendations db ++ more).
    { split; [congruence|]. split; [congruence|].
      exists (more1 ++ more2). by rewrite Hm, Hm1, app_assoc. }
    by destruct outcome.
Qed.

Lemma process_multiple_settled (db : DB) (now : Z) (events : list AnomalyEvent) :
  (∀ a, a ∈ events →
        is_Some (recommendation_of db a) ∨ ∃ e, analyze_anomaly db a = Raise e) →
  (process_multiple_anomalies db now events).1 = db.
Proof.
  induction events as [|a rest IH]; intros Hall; [reflexivity|]. cbn.
  assert (Hsame : (process_anomaly db now a).1 = db).
  { unfold process_anomaly. destruct (Hall a) as [[r Hr] | [e He]]; [left| |].
    - by rewrite Hr.
    - destruct (recommendation_of db a); [done|]. by rewrite He. }
  destruct (process_anomaly db now a) as [db1 outcome]. cbn in Hsame. subst db1.
  specialize (IH (λ x Hx, Hall x (list_elem_of_further _ _ _ Hx))).
  destruct (process_multiple_anomalies db now rest) as [db2 recs]. cbn in IH. subst db2.
  by destruct outcome.
Qed.

(** X17. [process_multiple_anomalies] returns at most one recommendation
    per event, each of them stored; it changes neither the readings nor
    the events; it keeps at most one recommendation per event; afterwards
    every event of the list has a recommendation or is one on which the
    rule engine raises; and running it again on the same list stores
    nothing more. *)
Theorem process_multiple_spec (db : DB) (now later : Z) (events : list AnomalyEvent) :
  let out := process_multiple_anomalies db now events in
  (length out.2 ≤ length events)%nat
  ∧ (∀ r, r ∈ out.2 → r ∈ agent_recommendations out.1)
  ∧ sensor_readings out.1 = sensor_readings db
  ∧ anomaly_events out.1 = anomaly_events db
  ∧ (one_recommendation_per_event db → one_recommendation_per_event out.1)
  ∧ (∀ a, a ∈ events →
       is_Some (recommendation_of out.1 a) ∨ ∃ e, analyze_anomaly db a = Raise e)
  ∧ (process_multiple_anomalies out.1 later events).1 = out.1.
Proof.
  cbv zeta.
  assert (Hmain : ∀ events db,
    (length (process_multiple_anomalies db now events).2 ≤ length events)%nat
    ∧ (∀ r, r ∈ (process_multiple_anomalies db now events).2 →
            r ∈ agent_recommendations (process_multiple_anomalies db now events).1)
    ∧ (one_recommendation_per_event db →
       one_recommendation_per_event (process_multiple_anomalies db now events).1)
    ∧ (∀ a, a ∈ events →
         is_Some (recommendation_of (process_multiple_anomalies db now events).1 a)
         ∨ ∃ e, analyze_anomaly db a = Raise e)).
  { clear. induction events as [|a rest IH]; intros db; cbn.
    - split; [lia|]. split; [intros r H; inversion H|]. split; [done|].
      intros a H. inversion H.
    - destruct (process_anomaly_outcome db now a) as [(r & Hout & Hfound & Hin) | (e & Hout & He & Hdb)];
        pose proof (process_anomaly_keeps_one db now a) as Hone;
        pose proof (process_anomaly_frame db now a) as (Hr1 & He1 & _);
        destruct (process_anomaly db now a) as [db1 outcome]; cbn in *; subst outcome;
        destruct (IH db1) as (Hlen & Hstored & Hinv & Hall);
        destruct (process_multiple_frame db1 now rest) as (_ & _ & more & Hmore);
        destruct (process_multiple_anomalies db1 now rest) as [db2 recs]; cbn in *.
      + split; [lia|]. split.
        { intros x Hx. apply elem_of_cons in Hx as [-> | Hx]; [|by apply Hstored].
          rewrite Hmore. apply elem_of_app. by left. }
        split; [auto|].
        intros x Hx. apply elem_of_cons in Hx as [-> | Hx].
        * left. exists r. by eapply recommendation_of_app.
        * destruct (Hall x Hx) as [Hs | [e He]]; [by left|]. right. exists e.
          by rewrite <- (analyze_anomaly_frame db db1 x).
      + subst db1. split; [lia|]. split; [exact Hstored|]. split; [auto|].
        intros x Hx. apply elem_of_cons in Hx as [-> | Hx]; [right; eauto|].
        by apply Hall. }
  destruct (Hmain events db) as (Hlen & Hstored & Hinv & Hall).
  destruct (process_multiple_frame db now events) as (Hr & He & _).
  split; [exact Hlen|]. split; [exact Hstored|]. split; [exact Hr|].
  split; [exact He|]. split; [exact Hinv|]. split; [exact Hall|].
  apply process_multiple_settled. intros a Ha.
  destruct (Hall a Ha) as [Hs | [e Hraise]]; [by left|]. right. exists e.
  by rewrite (analyze_anomaly_frame db _ a).
Qed.

Lemma process_multiple_spec_witness :
  length (process_multiple_anomalies examples.dry_db 1730665600
            [examples.drought_anomaly; examples.drought_anomaly]).2 = 2%nat
  ∧ length (agent_recommendations
              (process_multiple_anomalies examples.dry_db 1730665600
                 [examples.drought_anomaly; examples.drought_anomaly]).1) = 1%nat.
Proof.
  destruct (process_multiple_spec examples.dry_db 1730665600 1730665600
              [examples.drought_anomaly; examples.drought_anomaly]) as (Hlen & _).
  split; [|reflexivity].
  apply Nat.le_antisymm; [exact Hlen | vm_compute; lia].
Defined.

End agent_batch_facts.

(** ** The backlog of pending anomalies *)

Section pending_facts.
Import models rule_engine agent_service spec.

Lemma elem_of_get_pending (db : DB) (plot_id : option Z) (a : AnomalyEvent) :
  a ∈ get_pending_anomalies db plot_id
  ↔ a ∈ anomaly_events db ∧ recommendation_of db a = None ∧ plot_selected plot_id a.
Proof.
  unfold get_pending_anomalies, plot_selected.
  rewrite merge_sort_Permutation.
  destruct plot_id as [p|]; [destruct (Z.eqb_spec p 0) as [-> | Hne]|].
  - rewrite list_elem_of_filter. split.
    + intros [Hnone Hin]. split; [done|]. split; [done|]. by left.
    + intros (Hin & Hnone & _). by split.
  - rewrite !list_elem_of_filter. split.
    + intros (Hplot & Hnone & Hin). split; [done|]. split; [done|]. by right.
    + intros (Hin & Hnone & [Hz | Hplot]); [done|]. by repeat split.
  - rewrite list_elem_of_filter. split.
    + intros [Hnone Hin]. by repeat split.
    + intros (Hin & Hnone & _). by split.
Qed.

Lemma recommendation_of_None_before (db db' : DB) (a : AnomalyEvent)
    (more : list AgentRecommendation) :
  agent_recommendations db' = agent_recommendations db ++ more →
  recommendation_of db' a = None → recommendation_of db a = None.
Proof.
  intros Hmore Hnone. destruct (recommendation_of db a) as [r|] eqn:E; [|done].
  by rewrite (recommendation_of_app db db' a r more Hmore E) in Hnone.
Qed.

Lemma process_multiple_covers (db : DB) (now : Z) (events : list AnomalyEvent)
    (a : AnomalyEvent) :
  a ∈ events →
  is_Some (recommendation_of (process_multiple_anomalies db now events).1 a)
  ∨ ∃ e, analyze_anomaly db a = Raise e.
Proof.
  revert db. induction events as [|x rest IH]; intros db Ha; [inversion Ha|]. cbn.
  destruct (process_anomaly_outcome db now x)
    as [(r & _ & Hfound & _) | (e & _ & He & Hdb)];
    pose proof (process_anomaly_frame db now x) as (Hr1 & He1 & _);
    destruct (process_anomaly db now x) as [db1 outcome]; cbn in *;
    pose proof (IH db1) as IH1;
    destruct (process_multiple_frame db1 now rest) as (_ & _ & more & Hmore);
    destruct (process_multiple_anomalies db1 now rest) as [db2 recs]; cbn in *;
    (assert (Hgoal :
       is_Some (recommendation_of db2 a) ∨ ∃ e, analyze_anomaly db a = Raise e);
     [|by destruct outcome]);
    apply elem_of_cons in Ha as [-> | Ha].
  - left. exists r. by eapply recommendation_of_app.
  - destruct (IH1 Ha) as [Hs | [e He]]; [by left|]. right. exists e.
    by rewrite <- (analyze_anomaly_frame db db1 a).
  - right. eauto.
  - subst db1. by apply IH1.
Qed.

Lemma process_multiple_length (db : DB) (now : Z) (events : list AnomalyEvent) :
  (length (process_multiple_anomalies db now events).2 ≤ length events)%nat.
Proof.
  revert db. induction events as [|x rest IH]; intros db; cbn; [lia|].
  destruct (process_anomaly db now x) as [db1 outcome].
  specialize (IH db1). destruct (process_multiple_anomalies db1 now rest) as [db2 recs].
  cbn in IH. destruct outcome; cbn; lia.
Qed.

(** X18. [process_pending_anomalies] reports that nothing is pending
    exactly when no selected event lacks a recommendation, and then it
    changes nothing. Otherwise the summary counts add up: processed plus
    failed is the number that was pending. Afterwards a selected event
    is still without recommendation only if the rule engine raises on
    it. *)
Theorem process_pending_spec (db : DB) (now : Z) (plot_id : option Z) :
  let out := process_pending_anomalies db now plot_id in
  (out.2 = NoPending ↔ get_pending_anomalies db plot_id = [])
  ∧ (out.2 = NoPending → out.1 = db)
  ∧ (∀ processed total failed, out.2 = Processed processed total failed →
       total = length (get_pending_anomalies db plot_id)
       ∧ (processed + failed = total)%nat ∧ (0 < total)%nat)
  ∧ anomaly_events out.1 = anomaly_events db
  ∧ ∀ a, a ∈ anomaly_events out.1 → plot_selected plot_id a →
      recommendation_of out.1 a = None →
      ∃ e, analyze_anomaly db a = Raise e.
Proof.
  cbv zeta. unfold process_pending_anomalies.
  set (pending := get_pending_anomalies db plot_id).
  pose proof (process_multiple_length db now pending) as Hlen.
  pose proof (process_multiple_frame db now pending) as (_ & Hevents & more & Hmore).
  pose proof (process_multiple_covers db now pending) as Hcover.
  destruct (Nat.eqb_spec (length pending) 0) as [Hzero | Hpos].
  - apply nil_length_inv in Hzero as Hnil. cbn. repeat split; try done.
    intros a Ha Hsel Hnone. exfalso.
    assert (Hin : a ∈ pending) by (by apply elem_of_get_pending).
    rewrite Hnil in Hin. inversion Hin.
  - destruct (process_multiple_anomalies db now pending) as [db' recs]. cbn in *.
    split; [split; [discriminate | intros Hnil; by rewrite Hnil in Hpos]|].
    split; [discriminate|]. split.
    { intros p t f H. injection H as <- <- <-. repeat split; lia. }
    split; [exact Hevents|].
    intros a Ha Hsel Hnone. rewrite Hevents in Ha.
    assert (Hin : a ∈ pending).
    { apply elem_of_get_pending. split; [exact Ha|]. split; [|exact Hsel].
      by eapply recommendation_of_None_before. }
    destruct (Hcover a Hin) as [[r Hr] | Hraise]; [congruence | exact Hraise].
Qed.

Lemma process_pending_spec_witness :
  (process_pending_anomalies examples.dry_db 1730665600 None).2 = NoPending.
Proof.
  by apply (proj1 (process_pending_spec examples.dry_db 1730665600 None)).
Defined.

End pending_facts.

(** ** The detection endpoint *)

Section orchestrator_facts.
Import models preprocessing anomaly_detector rule_engine agent_service views spec.
Local Open Scope Q_scope.

Lemma process_anomaly_adds_at_most_one (db : DB) (now : Z) (a : AnomalyEvent) :
  ∃ more, agent_recommendations (process_anomaly db now a).1
          = agent_recommendations db ++ more
          ∧ (length more ≤ 1)%nat.
Proof.
  destruct (process_anomaly_cases db now a)
    as [(r0 & _ & ->) | [(e & _ & _ & ->) | (an & _ & _ & ->)]].
  - exists []. split; [by rewrite app_nil_r | cbn; lia].
  - exists []. split; [by rewrite app_nil_r | cbn; lia].
  - eexists [_]. split; [reflexivity | cbn; lia].
Qed.

(** [AnomalyEvent.objects.create]: the row, and what the receiver may add. *)
Lemma create_anomaly_event_spec (db : DB) (now plot : Z) (reading : option SensorReading)
    (anomaly_type severity : string) (model_confidence : Q) :
  let out :=
    signals.create_anomaly_event db now plot reading anomaly_type severity
      model_confidence in
  out.2 = {| ae_id := anomaly_event_seq db; ae_plot := plot;
             ae_sensor_reading := reading; ae_anomaly_type := anomaly_type;
             ae_severity := severity; ae_model_confidence := model_confidence;
             ae_timestamp := now |}
  ∧ anomaly_events out.1 = anomaly_events db ++ [out.2]
  ∧ anomaly_event_seq out.1 = (anomaly_event_seq db + 1)%Z
  ∧ sensor_readings out.1 = sensor_readings db
  ∧ field_plots out.1 = field_plots db
  ∧ (∃ more, agent_recommendations out.1 = agent_recommendations db ++ more
             ∧ (length more ≤ 1)%nat)
  ∧ (one_recommendation_per_event db → one_recommendation_per_event out.1).
Proof.
  unfold signals.create_anomaly_event, signals.process_anomaly_event,
    insert_anomaly_event.
  cbn zeta. cbn [fst snd].
  match goal with
  | |- context [process_anomaly ?d now ?a] =>
      set (db1 := d); set (event := a)
  end.
  destruct (process_anomaly_frame db1 now event) as (Hr & He & Hp & Hs).
  split; [reflexivity|]. split; [by rewrite He|]. split; [by rewrite Hs|].
  split; [by rewrite Hr|]. split; [by rewrite Hp|]. split.
  - apply (process_anomaly_adds_at_most_one db1 now event).
  - intros Hone. apply process_anomaly_keeps_one. exact Hone.
Qed.

(** The whole effect of the loop that stores the events. *)
Lemma create_events_full (now plot : Z) (sensor_type : string)
    (readings_list : list SensorReading) (anomalies : list Detection) (db : DB) :
  let out := create_events db now plot sensor_type readings_list anomalies in
  (∃ new_events,
     anomaly_events out.1 = anomaly_events db ++ new_events
     ∧ out.2 = ae_id <$> new_events
     ∧ Forall2 (λ e d,
          ae_sensor_reading e = reading_for readings_list d
          ∧ ae_plot e = plot
          ∧ ae_anomaly_type e = sensor_type +:+ "_anomaly"
          ∧ ae_severity e = storage_severity (anomaly_detector.severity d)
          ∧ ae_model_confidence e = anomaly_detector.confidence d
          ∧ ae_timestamp e = now)
         new_events anomalies)
  ∧ out.2 = (λ k, (anomaly_event_seq db + Z.of_nat k)%Z) <$> seq 0 (length anomalies)
  ∧ anomaly_event_seq out.1 = (anomaly_event_seq db + Z.of_nat (length anomalies))%Z
  ∧ sensor_readings out.1 = sensor_readings db
  ∧ field_plots out.1 = field_plots db
  ∧ (∃ more, agent_recommendations out.1 = agent_recommendations db ++ more
             ∧ (length more ≤ length anomalies)%nat)
  ∧ (one_recommendation_per_event db → one_recommendation_per_event out.1).
Proof.
  revert db. induction anomalies as [|d rest IH]; intros db.
  - cbn. split; [exists []; split; [by rewrite app_nil_r | split; [done | constructor]]|].
    split; [done|]. split; [lia|]. split; [done|]. split; [done|].
    split; [exists []; split; [by rewrite app_nil_r | cbn; lia] | done].
  - cbn [create_events].
    pose proof (create_anomaly_event_spec db now plot (reading_for readings_list d)
                  (sensor_type +:+ "_anomaly")
                  (storage_severity (anomaly_detector.severity d))
                  (anomaly_detector.confidence d)) as Hc.
    destruct (signals.create_anomaly_event db now plot (reading_for readings_list d)
                (sensor_type +:+ "_anomaly")
                (storage_severity (anomaly_detector.severity d))
                (anomaly_detector.confidence d)) as [db1 event].
    cbn [fst snd] in Hc.
    destruct Hc as (Hev & Hevs & Hseq & Hrd & Hpl & (more1 & Hrec1 & Hlen1) & Hone1).
    specialize (IH db1).
    destruct (create_events db1 now plot sensor_type readings_list rest)
      as [db2 created].
    cbn [fst snd] in IH |- *.
    destruct IH as ((new & Hnew & Hids & Hall) & Hcr & Hseq2 & Hrd2 & Hpl2
                    & (more2 & Hrec2 & Hlen2) & Hone2).
    split; [|split; [|split; [|split; [|split; [|split]]]]].
    + exists (event :: new). split; [|split].
      * rewrite Hnew, Hevs, <- app_assoc. reflexivity.
      * cbn. by rewrite Hids.
      * constructor; [|exact Hall]. rewrite Hev. cbn. by repeat split.
    + cbn [length seq fmap list_fmap]. f_equal.
      * rewrite Hev. cbn. lia.
      * rewrite Hcr, <- fmap_S_seq, <- list_fmap_compose.
        apply list_fmap_ext. intros _ k _. cbn. rewrite Hseq. lia.
    + rewrite Hseq2, Hseq. cbn [length]. lia.
    + by rewrite Hrd2.
    + by rewrite Hpl2.
    + exists (more1 ++ more2). split.
      * rewrite Hrec2, Hrec1, <- app_assoc. reflexivity.
      * rewrite length_app. cbn [length]. lia.
    + intros Hone. apply Hone2, Hone1, Hone.
Qed.

Lemma score_windows_inv (np_sqrt : Q → Q) (detector : IsolationForestDetector)
    (values : list Q) (results : list Detection) :
  score_windows np_sqrt detector values = Ok results →
  ∃ rows,
    prepare_for_model np_sqrt (preprocessing.new 10) values true = Ok rows
    ∧ detect_with_confidence detector rows default_min_confidence = Ok results.
Proof.
  unfold score_windows. intros H.
  destruct (prepare_for_model np_sqrt (preprocessing.new 10) values true)
    as [rows|e]; [|discriminate H].
  exists rows. split; [reflexivity | exact H].
Qed.

Lemma recent_readings_elem (db : DB) (plot : Z) (sensor_type : string) (count : nat)
    (r : SensorReading) :
  r ∈ recent_readings_of db plot sensor_type count →
  r ∈ sensor_readings db ∧ sr_plot r = plot ∧ sr_sensor_type r = sensor_type.
Proof.
  unfold recent_readings_of, order_by_timestamp_desc. intros Hin.
  apply list_elem_of_lookup in Hin as (i & Hi).
  apply lookup_take_Some in Hi as [Hi _].
  apply list_elem_of_lookup_2 in Hi.
  rewrite merge_sort_Permutation in Hi.
  apply list_elem_of_filter in Hi as [[Hp Hs] Hin]. by repeat split.
Qed.

Lemma reading_for_elem (readings_list : list SensorReading) (d : Detection) :
  readings_list ≠ [] →
  ∃ r, reading_for readings_list d = Some r ∧ r ∈ readings_list.
Proof.
  intros Hne. unfold reading_for.
  destruct (Nat.ltb_spec (index d) (length readings_list)) as [Hlt | Hge].
  - destruct (lookup_lt_is_Some_2 readings_list (index d) Hlt) as [r Hr].
    exists r. split; [exact Hr|]. by eapply list_elem_of_lookup_2.
  - destruct readings_list as [|r rest]; [done|].
    exists r. split; [reflexivity | left].
Qed.

(** Every way [detect] has of returning without a result. *)
Lemma detect_cases (BASE_DIR : string) (np_sqrt : Q → Q) (db : DB)
    (disk : gmap string IsolationForestDetector) (now plot_id : Z)
    (sensor_type : string) :
  let out := detect BASE_DIR np_sqrt db disk now plot_id sensor_type in
  let detector := load_detector_from_disk BASE_DIR disk sensor_type in
  let readings_list := recent_readings_of db plot_id sensor_type 50 in
  ((sensor_type ∉ sensor_choices)
   ∧ out = (db, HTTP_400 "sensor_type: not a valid choice."))
  ∨ (sensor_type ∈ sensor_choices ∧ is_trained detector = false
     ∧ out = (db, HTTP_400 ("Model not trained for " +:+ sensor_type)))
  ∨ (sensor_type ∈ sensor_choices ∧ is_trained detector = true
     ∧ (plot_id ∉ field_plots db)
     ∧ out = (db, HTTP_404 ("Plot " +:+ pretty plot_id +:+ " does not exist")))
  ∨ (sensor_type ∈ sensor_choices ∧ is_trained detector = true
     ∧ plot_id ∈ field_plots db ∧ (length readings_list < 10)%nat
     ∧ out = (db, HTTP_400 ("Not enough data. Need 10+, have "
                            +:+ pretty (length readings_list))))
  ∨ (sensor_type ∈ sensor_choices ∧ is_trained detector = true
     ∧ plot_id ∈ field_plots db ∧ (10 ≤ length readings_list)%nat
     ∧ ∃ e, score_windows np_sqrt detector (sr_value <$> readings_list) = Raise e
            ∧ out = (db, HTTP_500 (str_exn e)))
  ∨ (sensor_type ∈ sensor_choices ∧ is_trained detector = true
     ∧ plot_id ∈ field_plots db ∧ (10 ≤ length readings_list)%nat
     ∧ ∃ results,
         score_windows np_sqrt detector (sr_value <$> readings_list) = Ok results
         ∧ let flagged := filter (λ d, is_anomaly d = true) results in
           let stored :=
             create_events db now plot_id sensor_type readings_list flagged in
           out = (stored.1,
                  HTTP_200 {| dd_plot_id := plot_id;
                              dd_sensor_type := sensor_type;
                              total_windows := length results;
                              anomalies_detected := length flagged;
                              anomaly_events_created := stored.2;
                              results := results |})).
Proof.
  cbv zeta. unfold detect.
  destruct (decide (sensor_type ∈ sensor_choices)) as [Hs | Hs].
  2: { left. rewrite bool_decide_eq_false_2 by exact Hs. by split. }
  right. rewrite bool_decide_eq_true_2 by exact Hs. cbn [negb].
  destruct (is_trained (load_detector_from_disk BASE_DIR disk sensor_type)) eqn:Ht.
  2: { left. by repeat split. }
  right. cbn [negb]. unfold plot_exists.
  destruct (decide (plot_id ∈ field_plots db)) as [Hp | Hp].
  2: { left. rewrite bool_decide_eq_false_2 by exact Hp. by repeat split. }
  right. rewrite bool_decide_eq_true_2 by exact Hp. cbn [negb].
  rewrite length_map.
  destruct (Nat.ltb_spec (length (recent_readings_of db plot_id sensor_type 50)) 10)
    as [Hlt | Hge].
  { left. by repeat split. }
  right.
  destruct (score_windows np_sqrt _ _) as [results|e] eqn:Hsc.
  - right. split; [done|]. split; [done|]. split; [done|]. split; [done|].
    exists results. split; [reflexivity|].
    destruct (create_events _ _ _ _ _ _) as [db2 created]. reflexivity.
  - left. split; [done|]. split; [done|]. split; [done|]. split; [done|].
    exists e. by split.
Qed.

(** X19. [detect] leaves the database as it is unless it answers 200. A
    sensor type outside the three choices and an untrained model give 400,
    a plot that does not exist 404, fewer than ten readings of the pair 400
    with their number. It answers 500 only when the forest itself raises
    on the feature rows: ten readings or more always preprocess, to one
    row per window. *)
Theorem detect_error_paths (BASE_DIR : string) (np_sqrt : Q → Q) (db : DB)
    (disk : gmap string IsolationForestDetector) (now plot_id : Z)
    (sensor_type : string) :
  let out := detect BASE_DIR np_sqrt db disk now plot_id sensor_type in
  let detector := load_detector_from_disk BASE_DIR disk sensor_type in
  let readings_list := recent_readings_of db plot_id sensor_type 50 in
  ((sensor_type ∉ sensor_choices) → ∃ msg, out = (db, HTTP_400 msg))
  ∧ (sensor_type ∈ sensor_choices → is_trained detector = false →
     out = (db, HTTP_400 ("Model not trained for " +:+ sensor_type)))
  ∧ (sensor_type ∈ sensor_choices → is_trained detector = true →
     (plot_id ∉ field_plots db) →
     out = (db, HTTP_404 ("Plot " +:+ pretty plot_id +:+ " does not exist")))
  ∧ (sensor_type ∈ sensor_choices → is_trained detector = true →
     plot_id ∈ field_plots db → (length readings_list < 10)%nat →
     out = (db, HTTP_400 ("Not enough data. Need 10+, have "
                          +:+ pretty (length readings_list))))
  ∧ (∀ msg, out.2 = HTTP_500 msg →
       ∃ rows e,
         prepare_for_model np_sqrt (preprocessing.new 10)
           (sr_value <$> readings_list) true = Ok rows
         ∧ length rows = (length readings_list - 9)%nat
         ∧ (sk_predict (model detector) rows = Raise e
            ∨ sk_score_samples (model detector) rows = Raise e)
         ∧ msg = str_exn e)
  ∧ ((∀ data, out.2 ≠ HTTP_200 data) → out.1 = db).
Proof.
  cbv zeta.
  pose proof (detect_cases BASE_DIR np_sqrt db disk now plot_id sensor_type) as H.
  cbv zeta in H.
  destruct H as [(Hs & ->) | [(Hs & Ht & ->) | [(Hs & Ht & Hp & ->)
    | [(Hs & Ht & Hp & Hn & ->) | [(Hs & Ht & Hp & Hn & e & Hsc & ->)
    | (Hs & Ht & Hp & Hn & results & Hsc & ->)]]]]].
  - split; [intros _; by eexists|]. split; [done|]. split; [done|].
    split; [done|]. split; [intros msg Hm; discriminate Hm | done].
  - split; [done|]. split; [done|]. split; [congruence|]. split; [congruence|].
    split; [intros msg Hm; discriminate Hm | done].
  - split; [done|]. split; [congruence|]. split; [done|]. split; [done|].
    split; [intros msg Hm; discriminate Hm | done].
  - split; [done|]. split; [congruence|]. split; [done|]. split; [done|].
    split; [intros msg Hm; discriminate Hm | done].
  - split; [done|]. split; [congruence|]. split; [done|]. split; [intros; lia|].
    split; [|done].
    intros msg Hm. cbn in Hm. injection Hm as <-.
    destruct (proj1 (proj2 (prepare_for_model_shape_aux np_sqrt (preprocessing.new 10)
                (sr_value <$> recent_readings_of db plot_id sensor_type 50))))
      as (rows & Hrows & Hlen & _).
    { rewrite length_fmap. cbn. lia. }
    rewrite length_fmap in Hlen. cbn in Hlen.
    exists rows, e. split; [exact Hrows|]. split; [lia|]. split; [|reflexivity].
    unfold score_windows in Hsc. rewrite Hrows in Hsc. cbn in Hsc.
    unfold detect_with_confidence, predict, get_anomaly_scores in Hsc.
    rewrite Ht in Hsc. cbn in Hsc.
    destruct (sk_predict _ rows) as [preds|e1]; cbn in Hsc.
    + destruct (sk_score_samples _ rows) as [scores|e2]; cbn in Hsc;
        [discriminate Hsc|]. right. by injection Hsc as ->.
    + left. by injection Hsc as ->.
  - split; [done|]. split; [congruence|]. split; [done|]. split; [intros; lia|].
    split; [intros msg Hm; discriminate Hm|].
    intros Hno. exfalso. by eapply Hno.
Qed.

Lemma detect_error_paths_witness :
  detect examples.base_dir examples.newton_sqrt examples.dry_db ∅ 1730665700 1 "moisture"
  = (examples.dry_db, HTTP_400 "Model not trained for moisture")
  ∧ detect examples.base_dir examples.newton_sqrt examples.dry_db examples.model_files
      1730665700 2 "moisture"
    = (examples.dry_db, HTTP_404 "Plot 2 does not exist").
Proof.
  split.
  - apply (proj1 (proj2 (detect_error_paths examples.base_dir examples.newton_sqrt
                           examples.dry_db ∅ 1730665700 1 "moisture"))).
    + left.
    + reflexivity.
  - apply (proj1 (proj2 (proj2 (detect_error_paths examples.base_dir
                                  examples.newton_sqrt examples.dry_db
                                  examples.model_files 1730665700 2 "moisture")))).
    + left.
    + reflexivity.
    + cbn. intros H%list_elem_of_singleton. discriminate H.
Defined.

(** X20. The accounting of a successful [detect]. The response repeats the
    plot and sensor type, counts the windows scored and the flagged ones,
    and lists the ids of the events it created: consecutive ids from the
    counter of the table, one per flagged window. The database gains
    exactly these events, in order, and at most one recommendation per
    event; readings and plots are untouched and at-most-one recommendation
    per event is preserved. Every created event belongs to the requested
    plot, has the type of the sensor, is linked to a stored reading of that
    plot and sensor type, carries a model confidence of at least 0.999,
    and is stored with severity high or medium, never low. *)
Theorem detect_success_accounting (BASE_DIR : string) (np_sqrt : Q → Q) (db : DB)
    (disk : gmap string IsolationForestDetector) (now plot_id : Z)
    (sensor_type : string) (db' : DB) (data : DetectData) :
  detect BASE_DIR np_sqrt db disk now plot_id sensor_type = (db', HTTP_200 data) →
  let flagged := filter (λ d, is_anomaly d = true) (results data) in
  (dd_plot_id data = plot_id ∧ dd_sensor_type data = sensor_type
   ∧ total_windows data = length (results data)
   ∧ anomalies_detected data = length flagged
   ∧ (anomalies_detected data ≤ total_windows data)%nat)
  ∧ anomaly_events_created data
    = (λ k, (anomaly_event_seq db + Z.of_nat k)%Z) <$> seq 0 (anomalies_detected data)
  ∧ anomaly_event_seq db'
    = (anomaly_event_seq db + Z.of_nat (anomalies_detected data))%Z
  ∧ sensor_readings db' = sensor_readings db
  ∧ field_plots db' = field_plots db
  ∧ (∃ more, agent_recommendations db' = agent_recommendations db ++ more
             ∧ (length more ≤ anomalies_detected data)%nat)
  ∧ (one_recommendation_per_event db → one_recommendation_per_event db')
  ∧ ∃ new_events,
      anomaly_events db' = anomaly_events db ++ new_events
      ∧ ae_id <$> new_events = anomaly_events_created data
      ∧ ∀ e, e ∈ new_events →
          ae_plot e = plot_id
          ∧ ae_anomaly_type e = sensor_type +:+ "_anomaly"
          ∧ ae_timestamp e = now
          ∧ (∃ r, ae_sensor_reading e = Some r ∧ r ∈ sensor_readings db
                  ∧ sr_plot r = plot_id ∧ sr_sensor_type r = sensor_type)
          ∧ (ae_severity e = "high" ∨ ae_severity e = "medium")
          ∧ 0.999 <= ae_model_confidence e <= 1.
Proof.
  intros H. cbv zeta.
  pose proof (detect_cases BASE_DIR np_sqrt db disk now plot_id sensor_type) as Hc.
  cbv zeta in Hc. rewrite H in Hc.
  destruct Hc as [(_ & Hc) | [(_ & _ & Hc) | [(_ & _ & _ & Hc)
    | [(_ & _ & _ & _ & Hc) | [(_ & _ & _ & _ & e & _ & Hc)
    | (Hs & Ht & Hp & Hn & results & Hsc & Hc)]]]]]; try discriminate Hc.
  injection Hc as -> ->. cbn [dd_plot_id dd_sensor_type total_windows
    anomalies_detected anomaly_events_created views.results].
  set (readings_list := recent_readings_of db plot_id sensor_type 50) in *.
  set (flagged := filter (λ d, is_anomaly d = true) results).
  destruct (create_events_full now plot_id sensor_type readings_list flagged db)
    as ((new & Hnew & Hids & Hall) & Hcr & Hseq & Hrd & Hpl & Hrec & Hone).
  split.
  { split; [done|]. split; [done|]. split; [done|]. split; [done|].
    apply length_filter. }
  split; [exact Hcr|]. split; [exact Hseq|]. split; [exact Hrd|].
  split; [exact Hpl|]. split; [exact Hrec|]. split; [exact Hone|].
  exists new. split; [exact Hnew|]. split; [by rewrite Hids|].
  intros ev Hev.
  apply list_elem_of_lookup in Hev as (i & Hi).
  destruct (Forall2_lookup_l _ _ _ _ _ Hall Hi)
    as (d & Hd & Hlink & Hplot & Hty & Hsev & Hconf & Htime).
  apply list_elem_of_lookup_2 in Hd.
  apply list_elem_of_filter in Hd as [Hflag Hd].
  destruct (score_windows_inv _ _ _ _ Hsc) as (rows & _ & Hdet).
  destruct (default_gate_tiers_aux _ _ _ Hdet d Hd Hflag) as (Hrange & Htier).
  split; [exact Hplot|]. split; [exact Hty|]. split; [exact Htime|]. split.
  - destruct (reading_for_elem readings_list d) as (r & Hr & Hin).
    { intros Hnil. rewrite Hnil in Hn. cbn in Hn. lia. }
    exists r. rewrite Hlink. split; [exact Hr|].
    by apply (recent_readings_elem db plot_id sensor_type 50).
  - split; [|by rewrite Hconf].
    rewrite Hsev. destruct Htier as [[_ ->] | [_ ->]]; [by left | by right].
Qed.

Lemma detect_success_accounting_witness :
  ∃ db' data,
    detect examples.base_dir examples.newton_sqrt examples.dry_db examples.model_files
      1730665700 1 "moisture" = (db', HTTP_200 data)
    ∧ anomaly_events_created data = [1%Z; 2%Z]
    ∧ anomaly_event_seq db' = 3%Z
    ∧ sensor_readings db' = examples.dry_readings.
Proof.
  destruct (detect examples.base_dir examples.newton_sqrt examples.dry_db
              examples.model_files 1730665700 1 "moisture")
    as [db' [data| | |]] eqn:E; try (vm_compute in E; discriminate E).
  exists db', data. split; [reflexivity|].
  destruct (detect_success_accounting _ _ _ _ _ _ _ _ _ E)
    as ((_ & _ & _ & Hn & _) & Hids & Hseq & Hrd & _).
  assert (anomalies_detected data = 2%nat) as Hn2.
  { vm_compute in E. injection E as <- <-. reflexivity. }
  rewrite Hn2 in Hids, Hseq.
  split; [exact Hids|]. split; [exact Hseq | exact Hrd].
Defined.

Lemma two_in_filter {A} (P : A → Prop) `{!∀ x, Decision (P x)} (l : list A) (x y : A) :
  x ∈ l → y ∈ l → x ≠ y → P x → P y → (2 ≤ length (filter P l))%nat.
Proof.
  intros Hx Hy Hne HPx HPy.
  assert (x ∈ filter P l) as Hx' by (apply list_elem_of_filter; by split).
  assert (y ∈ filter P l) as Hy' by (apply list_elem_of_filter; by split).
  destruct (filter P l) as [|a [|b rest]]; [| |cbn; lia].
  - by apply not_elem_of_nil in Hx'.
  - apply list_elem_of_singleton in Hx', Hy'. congruence.
Qed.

(** The newest-first readings of a pair with distinct timestamps grow
    strictly older along the list. *)
Lemma recent_readings_strictly_older (db : DB) (plot : Z) (sensor_type : string)
    (count i j : nat) (r r' : SensorReading) :
  NoDup (sr_timestamp <$> filter (λ x, sr_plot x = plot ∧ sr_sensor_type x = sensor_type)
                             (sensor_readings db)) →
  (i < j)%nat →
  recent_readings_of db plot sensor_type count !! i = Some r →
  recent_readings_of db plot sensor_type count !! j = Some r' →
  (sr_timestamp r' < sr_timestamp r)%Z.
Proof.
  intros Hnd Hij Hi Hj.
  destruct (recent_readings_newest_from db plot sensor_type count i r Hi) as [_ Hle].
  specialize (Hle j r' ltac:(lia) Hj).
  assert (sr_timestamp r' ≠ sr_timestamp r) as Hne; [|lia].
  intros Heq.
  assert (NoDup (sr_timestamp <$> recent_readings_of db plot sensor_type count)) as Hnd'.
  { unfold recent_readings_of, order_by_timestamp_desc. rewrite fmap_take.
    rewrite <- (merge_sort_Permutation newer_first) in Hnd.
    rewrite <- (take_drop count (sr_timestamp <$> _)) in Hnd.
    by apply NoDup_app in Hnd as [Hnd _]. }
  assert (i = j) as ->; [|lia].
  apply (NoDup_lookup _ i j (sr_timestamp r) Hnd').
  - by rewrite list_lookup_fmap, Hi.
  - rewrite list_lookup_fmap, Hj. cbn. by rewrite Heq.
Qed.

(** The type [detect] gives its events selects the rule set of the sensor. *)
Lemma sensor_dispatch (s : string) (a : AnomalyEvent) (ctx : Context) :
  s ∈ sensor_choices → ae_anomaly_type a = s +:+ "_anomaly" →
  analyze_with_context a ctx
  = if decide (s = "moisture") then _analyze_moisture_anomaly a ctx
    else if decide (s = "temperature") then _analyze_temperature_anomaly a ctx
    else _analyze_humidity_anomaly a ctx.
Proof.
  intros Hs Hty. unfold analyze_with_context. rewrite Hty.
  apply elem_of_cons in Hs as [-> | Hs];
    [|apply elem_of_cons in Hs as [-> | Hs];
      [|apply list_elem_of_singleton in Hs as ->]].
  - assert (py.contains "moisture" (py.lower ("moisture" +:+ "_anomaly")) = true)
      as -> by reflexivity.
    reflexivity.
  - assert (py.contains "moisture" (py.lower ("temperature" +:+ "_anomaly")) = false)
      as -> by reflexivity.
    assert (py.contains "temperature" (py.lower ("temperature" +:+ "_anomaly")) = true)
      as -> by reflexivity.
    reflexivity.
  - assert (py.contains "moisture" (py.lower ("humidity" +:+ "_anomaly")) = false)
      as -> by reflexivity.
    assert (py.contains "temperature" (py.lower ("humidity" +:+ "_anomaly")) = false)
      as -> by reflexivity.
    assert (py.contains "humidity" (py.lower ("humidity" +:+ "_anomaly")) = true)
      as -> by reflexivity.
    reflexivity.
Qed.

(** With a reading and a change rate in the context, the three rule sets
    return. *)
Lemma sensor_rules_return (s : string) (a : AnomalyEvent) (ctx : Context) :
  s ∈ sensor_choices → ae_anomaly_type a = s +:+ "_anomaly" →
  is_Some (recent_value ctx) → is_Some (change_rate ctx) →
  ∃ analysis, analyze_with_context a ctx = Ok analysis.
Proof.
  intros Hs Hty [v Hv] [c Hc]. rewrite (sensor_dispatch s a ctx Hs Hty).
  destruct (decide (s = "moisture")); [|destruct (decide (s = "temperature"))].
  - destruct (_analyze_moisture_anomaly a ctx) as [an|err] eqn:E; [by exists an|].
    destruct (proj1 (moisture_raises_iff a ctx)) as (v' & _ & _ & Hnone);
      [by exists err | congruence].
  - destruct (_analyze_temperature_anomaly a ctx) as [an|err] eqn:E; [by exists an|].
    destruct (proj1 (temperature_raises_iff a ctx)) as (v' & _ & _ & _ & Hnone);
      [by exists err | congruence].
  - destruct (_analyze_humidity_anomaly a ctx) as [an|err] eqn:E; [by exists an|].
    assert (recent_value ctx = None) as Hnone; [|congruence].
    apply (proj1 (humidity_raises_iff a ctx)). by exists err.
Qed.

(** The receiver stores a recommendation for a new event whenever the
    engine returns on it. *)
Lemma create_anomaly_event_recommended (db : DB) (now plot : Z)
    (reading : option SensorReading) (anomaly_type severity : string)
    (model_confidence : Q) :
  let out :=
    signals.create_anomaly_event db now plot reading anomaly_type severity
      model_confidence in
  (∀ db1, sensor_readings db1 = sensor_readings db →
          ∃ analysis, analyze_anomaly db1 out.2 = Ok analysis) →
  ∃ rec, recommendation_of out.1 out.2 = Some rec.
Proof.
  unfold signals.create_anomaly_event, signals.process_anomaly_event,
    insert_anomaly_event.
  cbn zeta. cbn [fst snd].
  match goal with
  | |- context [process_anomaly ?d now ?a] =>
      set (db1 := d); set (event := a)
  end.
  intros Hok.
  destruct (process_anomaly_outcome db1 now event)
    as [(r & _ & Hrec & _) | (e & _ & Hraise & _)].
  - by exists r.
  - destruct (Hok db1 eq_refl) as (an & Han). congruence.
Qed.

Lemma create_events_recommended (now plot : Z) (sensor_type : string)
    (readings_list : list SensorReading) (anomalies : list Detection) (db : DB) :
  (∀ d db1 e, d ∈ anomalies → sensor_readings db1 = sensor_readings db →
      ae_sensor_reading e = reading_for readings_list d → ae_plot e = plot →
      ae_anomaly_type e = sensor_type +:+ "_anomaly" →
      ∃ analysis, analyze_anomaly db1 e = Ok analysis) →
  ∀ new_events,
    anomaly_events
      (create_events db now plot sensor_type readings_list anomalies).1
    = anomaly_events db ++ new_events →
    ∀ e, e ∈ new_events →
      ∃ rec, recommendation_of
               (create_events db now plot sensor_type readings_list anomalies).1 e
             = Some rec.
Proof.
  revert db. induction anomalies as [|d rest IH]; intros db Hok new Hnew e He.
  - cbn in Hnew. rewrite <- (app_nil_r (anomaly_events db)) in Hnew at 1.
    apply app_inv_head in Hnew as <-. by apply not_elem_of_nil in He.
  - revert Hnew. cbn [create_events].
    pose proof (create_anomaly_event_spec db now plot (reading_for readings_list d)
                  (sensor_type +:+ "_anomaly")
                  (storage_severity (anomaly_detector.severity d))
                  (anomaly_detector.confidence d)) as Hc.
    pose proof (create_anomaly_event_recommended db now plot
                  (reading_for readings_list d) (sensor_type +:+ "_anomaly")
                  (storage_severity (anomaly_detector.severity d))
                  (anomaly_detector.confidence d)) as Hr.
    destruct (signals.create_anomaly_event db now plot (reading_for readings_list d)
                (sensor_type +:+ "_anomaly")
                (storage_severity (anomaly_detector.severity d))
                (anomaly_detector.confidence d)) as [db1 event].
    cbn [fst snd] in Hc, Hr.
    destruct Hc as (Hev & Hevs & _ & Hrd & _).
    specialize (IH db1).
    pose proof (create_events_full now plot sensor_type readings_list rest db1) as Hf.
    destruct (create_events db1 now plot sensor_type readings_list rest)
      as [db2 created].
    cbn [fst snd] in IH, Hf |- *.
    destruct Hf as ((new2 & Hnew2 & _) & _ & _ & _ & _ & (more & Hmore & _) & _).
    intros Hnew. rewrite Hnew2, Hevs, <- app_assoc in Hnew.
    apply app_inv_head in Hnew as <-.
    apply elem_of_cons in He as [-> | He].
    + destruct Hr as (rec & Hrec).
      { intros db0 Hdb0. apply (Hok d db0 event); [left | done | | |];
          rewrite Hev; reflexivity. }
      exists rec. by apply (recommendation_of_app db1 db2 event rec more).
    + apply (IH ltac:(intros d0 db0 e0 Hd0 Hdb0; apply (Hok d0 db0 e0);
                      [by right | by rewrite Hdb0, Hrd]) new2 Hnew2 e He).
Qed.

(** X21. From detection to advice. When the readings of the pair have
    pairwise distinct timestamps and the forest returns no more labels
    than it is given rows, every event a successful [detect] creates is
    analysed by the rule set of its own sensor, never by the generic one,
    and ends with a stored recommendation: the reading of window [i] has
    at least nine older readings behind it, so the context always has a
    change rate and no rule fails on a missing one. *)
Theorem detect_events_get_recommendations (BASE_DIR : string) (np_sqrt : Q → Q)
    (db : DB) (disk : gmap string IsolationForestDetector) (now plot_id : Z)
    (sensor_type : string) (db' : DB) (data : DetectData) :
  detect BASE_DIR np_sqrt db disk now plot_id sensor_type = (db', HTTP_200 data) →
  NoDup (sr_timestamp
           <$> filter (λ x, sr_plot x = plot_id ∧ sr_sensor_type x = sensor_type)
                      (sensor_readings db)) →
  (∀ rows preds,
     sk_predict (model (load_detector_from_disk BASE_DIR disk sensor_type)) rows
     = Ok preds →
     (length preds ≤ length rows)%nat) →
  ∃ new_events,
    anomaly_events db' = anomaly_events db ++ new_events
    ∧ ae_id <$> new_events = anomaly_events_created data
    ∧ ∀ e, e ∈ new_events →
        (∃ rec, recommendation_of db' e = Some rec)
        ∧ ∀ ctx,
            analyze_with_context e ctx
            = if decide (sensor_type = "moisture")
              then _analyze_moisture_anomaly e ctx
              else if decide (sensor_type = "temperature")
                   then _analyze_temperature_anomaly e ctx
                   else _analyze_humidity_anomaly e ctx.
Proof.
  intros H Hnd Hforest.
  pose proof (detect_cases BASE_DIR np_sqrt db disk now plot_id sensor_type) as Hc.
  cbv zeta in Hc. rewrite H in Hc.
  destruct Hc as [(_ & Hc) | [(_ & _ & Hc) | [(_ & _ & _ & Hc)
    | [(_ & _ & _ & _ & Hc) | [(_ & _ & _ & _ & e & _ & Hc)
    | (Hs & Ht & Hp & Hn & results & Hsc & Hc)]]]]]; try discriminate Hc.
  injection Hc as -> ->. cbn [anomaly_events_created].
  set (readings_list := recent_readings_of db plot_id sensor_type 50) in *.
  set (flagged := filter (λ d, is_anomaly d = true) results).
  destruct (create_events_full now plot_id sensor_type readings_list flagged db)
    as ((new & Hnew & Hids & Hall) & _).
  exists new. split; [exact Hnew|]. split; [by rewrite Hids|].
  intros ev Hev. split.
  2: { intros ctx. apply sensor_dispatch; [exact Hs|].
       apply list_elem_of_lookup in Hev as (i & Hi).
       by destruct (Forall2_lookup_l _ _ _ _ _ Hall Hi) as (d & _ & _ & _ & Hty & _). }
  refine (create_events_recommended now plot_id sensor_type readings_list flagged db
            _ new Hnew ev Hev).
  clear ev Hev. intros d db1 ev Hd Hdb1 Hlink Hplot Hty.
  apply list_elem_of_filter in Hd as [_ Hd].
  apply list_elem_of_lookup in Hd as (k & Hk).
  destruct (score_windows_inv _ _ _ _ Hsc) as (rows & Hrows & Hdet).
  pose proof (detect_with_confidence_index _ _ _ _ Hdet k d Hk) as Hidx.
  assert (k < length readings_list - 9)%nat as Hklt.
  { destruct (proj1 (proj2 (prepare_for_model_shape_aux np_sqrt (preprocessing.new 10)
                (sr_value <$> readings_list)))) as (rows' & Hrows' & Hlen & _).
    { rewrite length_fmap. cbn. lia. }
    rewrite Hrows in Hrows'. injection Hrows' as <-.
    rewrite length_fmap in Hlen. cbn in Hlen.
    destruct (detect_with_confidence_inv _ _ _ _ Hdet)
      as (_ & preds & scores & Hpreds & _ & Hres).
    pose proof (Hforest rows preds Hpreds) as Hle.
    apply lookup_lt_Some in Hk. rewrite Hres in Hk.
    rewrite length_imap, length_zip in Hk. lia. }
  destruct (lookup_lt_is_Some_2 readings_list k ltac:(lia)) as [r Hr].
  destruct (lookup_lt_is_Some_2 readings_list (k + 1) ltac:(lia)) as [r1 Hr1].
  destruct (lookup_lt_is_Some_2 readings_list (k + 2) ltac:(lia)) as [r2 Hr2].
  assert (ae_sensor_reading ev = Some r) as Hread.
  { rewrite Hlink. unfold reading_for. rewrite Hidx.
    destruct (Nat.ltb_spec k (length readings_list)) as [_ | Hge]; [exact Hr | lia]. }
  pose proof (recent_readings_strictly_older db plot_id sensor_type 50 k (k + 1) r r1
                Hnd ltac:(lia) Hr Hr1) as Hlt1.
  pose proof (recent_readings_strictly_older db plot_id sensor_type 50 k (k + 2) r r2
                Hnd ltac:(lia) Hr Hr2) as Hlt2.
  pose proof (recent_readings_strictly_older db plot_id sensor_type 50 (k + 1) (k + 2)
                r1 r2 Hnd ltac:(lia) Hr1 Hr2) as Hlt12.
  destruct (recent_readings_elem db plot_id sensor_type 50 r
              (list_elem_of_lookup_2 _ _ _ Hr)) as (_ & _ & Hrs).
  destruct (recent_readings_elem db plot_id sensor_type 50 r1
              (list_elem_of_lookup_2 _ _ _ Hr1)) as (Hin1 & Hp1 & Hs1).
  destruct (recent_readings_elem db plot_id sensor_type 50 r2
              (list_elem_of_lookup_2 _ _ _ Hr2)) as (Hin2 & Hp2 & Hs2).
  pose proof (reading_context_spec_aux db1 ev) as Hctx. cbv zeta in Hctx.
  destruct Hctx as (_ & _ & Hctx).
  destruct (Hctx r Hread) as (Hvalue & _ & _ & Hsome).
  destruct Hsome as (Hrate & _).
  { rewrite Hdb1. apply (two_in_filter _ _ r1 r2); [done | done | | |].
    - intros ->. lia.
    - rewrite Hplot, Hrs. by repeat split.
    - rewrite Hplot, Hrs. by repeat split. }
  unfold analyze_anomaly.
  apply (sensor_rules_return sensor_type); [exact Hs | exact Hty | | exact Hrate].
  rewrite Hvalue. by eexists.
Qed.

Lemma detect_events_get_recommendations_witness :
  ∃ db' data,
    detect examples.base_dir examples.newton_sqrt examples.dry_db examples.model_files
      1730665700 1 "moisture" = (db', HTTP_200 data)
    ∧ ∃ new_events,
        anomaly_events db' = anomaly_events examples.dry_db ++ new_events
        ∧ ae_id <$> new_events = anomaly_events_created data
        ∧ ∀ e, e ∈ new_events →
            (∃ rec, recommendation_of db' e = Some rec)
            ∧ ∀ ctx,
                analyze_with_context e ctx
                = if decide ("moisture" = "moisture")
                  then _analyze_moisture_anomaly e ctx
                  else if decide ("moisture" = "temperature")
                       then _analyze_temperature_anomaly e ctx
                       else _analyze_humidity_anomaly e ctx.
Proof.
  destruct (detect examples.base_dir examples.newton_sqrt examples.dry_db
              examples.model_files 1730665700 1 "moisture")
    as [db' [data| | |]] eqn:E; try (vm_compute in E; discriminate E).
  exists db', data. split; [reflexivity|].
  apply (detect_events_get_recommendations _ _ _ _ _ _ _ _ _ E).
  - apply (bool_decide_unpack _). vm_compute. exact I.
  - intros rows preds Hpreds.
    assert (load_detector_from_disk examples.base_dir examples.model_files "moisture"
            = examples.trained_detector) as Hload by reflexivity.
    rewrite Hload in Hpreds. cbn in Hpreds. injection Hpreds as <-.
    by rewrite length_map.
Defined.

End orchestrator_facts.

(** ** Batch detection *)

Section batch_facts.
Import models preprocessing anomaly_detector agent_service views spec.
Local Open Scope Q_scope.

(** The sum of [anomalies_detected] over the entries that have one. *)
Local Abbreviation anomalies_of entries :=
  (foldr (λ entry total,
            match be_status entry with
            | Success n => (n + total)%nat
            | _ => total
            end) 0%nat entries).

Lemma anomalies_of_app (xs ys : list BatchEntry) :
  anomalies_of (xs ++ ys) = (anomalies_of xs + anomalies_of ys)%nat.
Proof.
  induction xs as [|x xs IH]; [reflexivity|].
  cbn. rewrite IH. destruct (be_status x); lia.
Qed.

Lemma batch_detect_pair_frame (BASE_DIR : string) (np_sqrt : Q → Q) (db : DB)
    (disk : gmap string IsolationForestDetector) (now plot_id : Z)
    (sensor_type : string) :
  let out := batch_detect_pair BASE_DIR np_sqrt db disk now plot_id sensor_type in
  be_plot_id out.2 = plot_id ∧ be_sensor_type out.2 = sensor_type
  ∧ sensor_readings out.1 = sensor_readings db
  ∧ field_plots out.1 = field_plots db
  ∧ length (anomaly_events out.1)
    = (length (anomaly_events db) + anomalies_of [out.2])%nat
  ∧ (one_recommendation_per_event db → one_recommendation_per_event out.1).
Proof.
  cbv zeta. unfold batch_detect_pair.
  destruct (negb (is_trained _)).
  { cbn. split; [done|]. split; [done|]. split; [done|]. split; [done|].
    split; [lia | done]. }
  destruct (_ <? 10)%nat.
  { cbn. split; [done|]. split; [done|]. split; [done|]. split; [done|].
    split; [lia | done]. }
  destruct (score_windows _ _ _) as [detections|e].
  2: { cbn. split; [done|]. split; [done|]. split; [done|]. split; [done|].
       split; [lia | done]. }
  pose proof (create_events_full now plot_id sensor_type
                (recent_readings_of db plot_id sensor_type 50)
                (filter (λ d, is_anomaly d = true) detections) db) as Hf.
  destruct (create_events _ _ _ _ _ _) as [db2 created].
  cbn [fst snd] in Hf |- *.
  destruct Hf as ((new & Hnew & Hids & Hall) & _ & _ & Hrd & Hpl & _ & Hone).
  split; [done|]. split; [done|]. split; [exact Hrd|]. split; [exact Hpl|].
  split; [|exact Hone].
  rewrite Hnew, length_app. cbn. rewrite (Forall2_length _ _ _ Hall). lia.
Qed.

Lemma batch_detect_sensors_frame (BASE_DIR : string) (np_sqrt : Q → Q)
    (disk : gmap string IsolationForestDetector) (now plot_id : Z)
    (sensor_types : list string) (db : DB) :
  let out := batch_detect_sensors BASE_DIR np_sqrt db disk now plot_id sensor_types in
  (λ e, (be_plot_id e, be_sensor_type e)) <$> out.2
    = (λ s, (plot_id, s)) <$> sensor_types
  ∧ sensor_readings out.1 = sensor_readings db
  ∧ field_plots out.1 = field_plots db
  ∧ length (anomaly_events out.1)
    = (length (anomaly_events db) + anomalies_of out.2)%nat
  ∧ (one_recommendation_per_event db → one_recommendation_per_event out.1).
Proof.
  revert db. induction sensor_types as [|s rest IH]; intros db.
  - cbn. split; [done|]. split; [done|]. split; [done|]. split; [lia | done].
  - cbn [batch_detect_sensors].
    pose proof (batch_detect_pair_frame BASE_DIR np_sqrt db disk now plot_id s) as Hp.
    destruct (batch_detect_pair BASE_DIR np_sqrt db disk now plot_id s) as [db1 entry].
    specialize (IH db1).
    destruct (batch_detect_sensors BASE_DIR np_sqrt db1 disk now plot_id rest)
      as [db2 entries].
    cbn [fst snd] in Hp, IH |- *.
    destruct Hp as (Hid & Hty & Hrd & Hpl & Hlen & Hone).
    destruct IH as (Hkeys & Hrd2 & Hpl2 & Hlen2 & Hone2).
    split; [cbn; by rewrite Hid, Hty, Hkeys|]. split; [by rewrite Hrd2|].
    split; [by rewrite Hpl2|]. split; [|by intros; apply Hone2, Hone].
    rewrite Hlen2, Hlen. cbn. destruct (be_status entry); lia.
Qed.

Lemma batch_detect_plots_frame (BASE_DIR : string) (np_sqrt : Q → Q)
    (disk : gmap string IsolationForestDetector) (now : Z) (plot_ids : list Z)
    (sensor_types : list string) (db : DB) :
  let out := batch_detect_plots BASE_DIR np_sqrt db disk now plot_ids sensor_types in
  (λ e, (be_plot_id e, be_sensor_type e)) <$> out.2
    = plot_ids ≫= (λ p, if plot_exists db p
                        then (λ s, (p, s)) <$> sensor_types
                        else [(p, "all")])
  ∧ sensor_readings out.1 = sensor_readings db
  ∧ field_plots out.1 = field_plots db
  ∧ length (anomaly_events out.1)
    = (length (anomaly_events db) + anomalies_of out.2)%nat
  ∧ (one_recommendation_per_event db → one_recommendation_per_event out.1)
  ∧ ∀ e, e ∈ out.2 →
      if plot_exists db (be_plot_id e)
      then be_sensor_type e ∈ sensor_types
      else be_sensor_type e = "all"
           ∧ be_status e
             = Error ("Plot " +:+ pretty (be_plot_id e) +:+ " does not exist").
Proof.
  revert db. induction plot_ids as [|p rest IH]; intros db.
  - cbn. split; [done|]. split; [done|]. split; [done|]. split; [lia|].
    split; [done|]. intros e He. by apply not_elem_of_nil in He.
  - cbn [batch_detect_plots].
    pose proof (batch_detect_sensors_frame BASE_DIR np_sqrt disk now p sensor_types db)
      as Hs.
    cbv zeta in Hs.
    assert (∀ db1, field_plots db1 = field_plots db →
                   ∀ q, plot_exists db1 q = plot_exists db q) as Hex.
    { intros db1 Heq q. unfold plot_exists. by rewrite Heq. }
    destruct (plot_exists db p) eqn:Hp.
    + destruct (batch_detect_sensors BASE_DIR np_sqrt db disk now p sensor_types)
        as [db1 entries].
      specialize (IH db1).
      destruct (batch_detect_plots BASE_DIR np_sqrt db1 disk now rest sensor_types)
        as [db2 more].
      cbn [fst snd] in Hs, IH |- *.
      destruct Hs as (Hkeys & Hrd & Hpl & Hlen & Hone).
      destruct IH as (Hkeys2 & Hrd2 & Hpl2 & Hlen2 & Hone2 & Hall2).
      split; [|split; [|split; [|split; [|split]]]].
      * rewrite fmap_app, Hkeys, Hkeys2. cbn. rewrite Hp. f_equal.
        apply list_bind_ext; [|done]. intros q. by rewrite (Hex db1 Hpl).
      * by rewrite Hrd2.
      * by rewrite Hpl2.
      * rewrite Hlen2, Hlen, anomalies_of_app. lia.
      * intros. by apply Hone2, Hone.
      * intros e He. apply elem_of_app in He as [He | He].
        -- assert ((be_plot_id e, be_sensor_type e)
                   ∈ (λ s, (p, s)) <$> sensor_types) as Hk.
           { rewrite <- Hkeys. apply list_elem_of_fmap. by exists e. }
           apply list_elem_of_fmap in Hk as (s & Heq & Hin).
           injection Heq as -> ->. by rewrite Hp.
        -- specialize (Hall2 e He). by rewrite (Hex db1 Hpl) in Hall2.
    + specialize (IH db).
      destruct (batch_detect_plots BASE_DIR np_sqrt db disk now rest sensor_types)
        as [db2 more].
      cbn [fst snd] in IH |- *.
      destruct IH as (Hkeys2 & Hrd2 & Hpl2 & Hlen2 & Hone2 & Hall2).
      split; [|split; [|split; [|split; [|split]]]]; try done.
      * cbn. rewrite Hp, Hkeys2. reflexivity.
      * intros e He. apply elem_of_cons in He as [-> | He]; [|by apply Hall2].
        cbn. by rewrite Hp.
Qed.

Lemma length_existing_plots (db : DB) (types : list string) (plots : list Z) :
  (∀ p, p ∈ plots → plot_exists db p = true) →
  length (plots ≫= (λ p, if plot_exists db p
                         then (λ s, (p, s)) <$> types
                         else [(p, "all")]))
  = (length plots * length types)%nat.
Proof.
  induction plots as [|p rest IH]; intros Hall; [reflexivity|].
  cbn. rewrite length_app, IH by (intros q Hq; apply Hall; by right).
  rewrite (Hall p) by left. by rewrite length_fmap.
Qed.

(** X22. The shape of a batch run. The status list has one entry per
    sensor type for every requested plot that exists, in the order of the
    two loops, and a single entry of sensor type [all] with the error
    [Plot p does not exist] for every requested plot that does not; with
    no plot ids given every plot of the table is taken, so the list has
    plots times sensor types entries. [total_processed] is the length of
    the list, and [total_anomalies] is exactly the number of events the
    run added to the table; readings and plots are untouched and
    at-most-one recommendation per event is preserved. *)
Theorem batch_detect_shape (BASE_DIR : string) (np_sqrt : Q → Q) (db : DB)
    (disk : gmap string IsolationForestDetector) (now : Z) (plot_ids : list Z)
    (sensor_types : option (list string)) :
  let out := batch_detect BASE_DIR np_sqrt db disk now plot_ids sensor_types in
  let plots := match plot_ids with [] => field_plots db | _ => plot_ids end in
  let types := default sensor_choices sensor_types in
  (λ e, (be_plot_id e, be_sensor_type e)) <$> bd_results out.2
    = plots ≫= (λ p, if plot_exists db p
                     then (λ s, (p, s)) <$> types
                     else [(p, "all")])
  ∧ (∀ e, e ∈ bd_results out.2 →
       if plot_exists db (be_plot_id e)
       then be_sensor_type e ∈ types
       else be_sensor_type e = "all"
            ∧ be_status e
              = Error ("Plot " +:+ pretty (be_plot_id e) +:+ " does not exist"))
  ∧ (plot_ids = [] →
     length (bd_results out.2) = (length (field_plots db) * length types)%nat)
  ∧ total_processed out.2 = length (bd_results out.2)
  ∧ length (anomaly_events out.1)
    = (length (anomaly_events db) + total_anomalies out.2)%nat
  ∧ sensor_readings out.1 = sensor_readings db
  ∧ field_plots out.1 = field_plots db
  ∧ (one_recommendation_per_event db → one_recommendation_per_event out.1).
Proof.
  cbv zeta. unfold batch_detect.
  set (plots := match plot_ids with [] => field_plots db | _ => plot_ids end).
  set (types := default sensor_choices sensor_types).
  pose proof (batch_detect_plots_frame BASE_DIR np_sqrt disk now plots types db) as Hf.
  cbv zeta in Hf.
  destruct (batch_detect_plots BASE_DIR np_sqrt db disk now plots types)
    as [db' entries].
  cbn [fst snd bd_results total_processed total_anomalies] in Hf |- *.
  destruct Hf as (Hkeys & Hrd & Hpl & Hlen & Hone & Hall).
  split; [exact Hkeys|]. split; [exact Hall|]. split.
  { intros ->. subst plots.
    rewrite <- (length_fmap (λ e, (be_plot_id e, be_sensor_type e))), Hkeys.
    apply length_existing_plots. intros p Hp. by apply bool_decide_eq_true_2. }
  split; [reflexivity|]. split; [exact Hlen|]. split; [exact Hrd|].
  split; [exact Hpl | exact Hone].
Qed.

Lemma batch_detect_shape_witness :
  length (bd_results (batch_detect examples.base_dir examples.newton_sqrt
                        examples.dry_db examples.model_files 1730665700 [] None).2)
  = 3%nat.
Proof.
  apply (proj1 (proj2 (proj2 (batch_detect_shape examples.base_dir
                                examples.newton_sqrt examples.dry_db
                                examples.model_files 1730665700 [] None)))).
  reflexivity.
Defined.

(** X23. One step of the batch loop does what [detect] does for the same
    plot and sensor type, whenever [detect] gets past its own checks of
    the request: both leave the same database, a 200 of [detect] with [n]
    anomalies is a [success] entry with [n], each 400 a [skipped] entry,
    and a 500 an [error] entry with the same message. *)
Theorem batch_step_agrees_with_detect (BASE_DIR : string) (np_sqrt : Q → Q)
    (db : DB) (disk : gmap string IsolationForestDetector) (now plot_id : Z)
    (sensor_type : string) :
  sensor_type ∈ sensor_choices → plot_id ∈ field_plots db →
  let single := detect BASE_DIR np_sqrt db disk now plot_id sensor_type in
  let step := batch_detect_pair BASE_DIR np_sqrt db disk now plot_id sensor_type in
  step.1 = single.1
  ∧ be_plot_id step.2 = plot_id ∧ be_sensor_type step.2 = sensor_type
  ∧ match single.2 with
    | HTTP_200 data => be_status step.2 = Success (anomalies_detected data)
    | HTTP_400 _ =>
        be_status step.2 = Skipped "model not trained"
        ∨ be_status step.2 = Skipped "insufficient data"
    | HTTP_500 error => be_status step.2 = Error error
    | HTTP_404 _ => False
    end.
Proof.
  intros Hs Hp. cbv zeta. unfold detect, batch_detect_pair, plot_exists.
  rewrite (bool_decide_eq_true_2 _ Hs), (bool_decide_eq_true_2 _ Hp). cbn [negb].
  destruct (negb (is_trained _)); [cbn; by repeat split; left|].
  destruct (_ <? 10)%nat; [cbn; by repeat split; right|].
  destruct (score_windows _ _ _) as [results|e]; [|cbn; by repeat split].
  destruct (create_events _ _ _ _ _ _) as [db2 created]. cbn. by repeat split.
Qed.

Lemma batch_step_agrees_with_detect_witness :
  be_status (batch_detect_pair examples.base_dir examples.newton_sqrt examples.dry_db
               examples.model_files 1730665700 1 "moisture").2
  = Success 2.
Proof.
  destruct (batch_step_agrees_with_detect examples.base_dir examples.newton_sqrt
              examples.dry_db examples.model_files 1730665700 1 "moisture")
    as (_ & _ & _ & Hst).
  - left.
  - left.
  - destruct (detect examples.base_dir examples.newton_sqrt examples.dry_db
                examples.model_files 1730665700 1 "moisture")
      as [db' [data| | |]] eqn:E; try (vm_compute in E; discriminate E).
    cbn [snd] in Hst. rewrite Hst. f_equal.
    vm_compute in E. injection E as <- <-. reflexivity.
Defined.

End batch_facts.

(** ** The training endpoint *)

Section training_facts.
Import models preprocessing anomaly_detector views training_views.
Local Open Scope Q_scope.

Lemma training_matrix_recent (np_sqrt : Q → Q) (db : DB) (request : TrainRequest) :
  tr_use_recent_data request = true →
  let values :=
    get_recent_readings_all_plots db (tr_sensor_type request)
      (tr_data_points request) in
  ((length values < 10)%nat →
   training_matrix np_sqrt db request
   = inl (HTTP_400 ("Not enough data. Need 10+, have " +:+ pretty (length values))))
  ∧ ((10 ≤ length values)%nat →
     ∃ rows, training_matrix np_sqrt db request = inr rows
             ∧ length rows = (length values - 9)%nat).
Proof.
  intros Hrecent. cbv zeta. unfold training_matrix. rewrite Hrecent.
  set (values := get_recent_readings_all_plots _ _ _).
  destruct (Nat.ltb_spec (length values) 10) as [Hlt | Hge].
  - split; [done | lia].
  - split; [lia|]. intros _.
    destruct (proj1 (proj2 (prepare_for_model_shape_aux np_sqrt (preprocessing.new 10)
                values))) as (rows & Hrows & Hlen & _).
    { cbn. lia. }
    rewrite Hrows. exists rows. split; [reflexivity|]. cbn in Hlen. lia.
Qed.

Lemma training_matrix_inl (np_sqrt : Q → Q) (db : DB) (request : TrainRequest)
    (response : Response TrainData) :
  training_matrix np_sqrt db request = inl response →
  ∀ data, response ≠ HTTP_200 data.
Proof.
  unfold training_matrix. intros H data ->.
  destruct (tr_use_recent_data request).
  - destruct (_ <? 10)%nat; [discriminate H|].
    destruct (prepare_for_model _ _ _ _); discriminate H.
  - destruct (tr_training_data request) as [[|row rows]|]; discriminate H.
Qed.

Lemma train_view_outcomes_aux (BASE_DIR : string) (np_sqrt : Q → Q)
    (sk_fit : IsolationForest → list (list Q) → IsolationForest) (db : DB)
    (disk : gmap string IsolationForestDetector) (now : Z) (request : TrainRequest) :
  let out := training_views.train BASE_DIR np_sqrt sk_fit db disk now request in
  let s := tr_sensor_type request in
  ((∀ data, out.2 ≠ HTTP_200 data) → out.1 = disk)
  ∧ (∀ data, out.2 = HTTP_200 data →
       let saved := load_detector_from_disk BASE_DIR out.1 s in
       s ∈ sensor_choices
       ∧ out.1 !! get_model_path BASE_DIR s = Some saved
       ∧ is_trained saved = true
       ∧ training_date saved = Some now
       ∧ (10 ≤ training_data_size saved)%nat
       ∧ n_samples (td_stats data) = training_data_size saved
       ∧ td_model_path data = get_model_path BASE_DIR s
       ∧ ∀ other, other ≠ s →
           load_detector_from_disk BASE_DIR out.1 other
           = load_detector_from_disk BASE_DIR disk other)
  ∧ (train_request_valid request = true → tr_use_recent_data request = true →
     let values :=
       get_recent_readings_all_plots db s (tr_data_points request) in
     ((length values < 10)%nat →
      out = (disk, HTTP_400 ("Not enough data. Need 10+, have "
                             +:+ pretty (length values))))
     ∧ ((10 ≤ length values < 19)%nat →
        out = (disk, HTTP_500 ("Need at least 10 samples for training, got "
                               +:+ pretty (length values - 9)%nat)))).
Proof.
  cbv zeta. unfold training_views.train.
  destruct (train_request_valid request) eqn:Hvalid; cbn [negb].
  2: { split; [done|]. split; [intros data H; discriminate H | intros H; discriminate H]. }
  set (s := tr_sensor_type request).
  set (detector := load_detector_from_disk BASE_DIR disk s).
  assert (s ∈ sensor_choices) as Hs.
  { unfold train_request_valid in Hvalid.
    apply andb_prop in Hvalid as [Hvalid _]. apply andb_prop in Hvalid as [Hvalid _].
    apply andb_prop in Hvalid as [Hvalid _]. by apply bool_decide_eq_true_1 in Hvalid. }
  destruct (training_matrix np_sqrt db request) as [response | training_data] eqn:Hm.
  { pose proof (training_matrix_inl _ _ _ _ Hm) as Hno.
    split; [done|]. split; [intros data H; by apply Hno in H|].
    intros _ Hrecent.
    destruct (training_matrix_recent np_sqrt db request Hrecent) as [Hfew Hmany].
    split.
    - intros Hlt. rewrite (Hfew Hlt) in Hm. by injection Hm as <-.
    - intros [Hge _]. destruct (Hmany Hge) as (rows & Hrows & _). congruence. }
  pose proof (train_spec_aux sk_fit np_sqrt detector now training_data) as [Hshort Hlong].
  destruct (Nat.lt_ge_cases (length training_data) 10) as [Hlt | Hge].
  { rewrite (Hshort Hlt). cbn [str_exn fst snd].
    split; [done|]. split; [intros data H; discriminate H|].
    intros _ Hrecent.
    destruct (training_matrix_recent np_sqrt db request Hrecent) as [Hfew Hmany].
    split.
    - intros Hlt'. rewrite (Hfew Hlt') in Hm. discriminate Hm.
    - intros [Hge' _]. destruct (Hmany Hge') as (rows & Hrows & Hlen).
      rewrite Hrows in Hm. injection Hm as <-. by rewrite Hlen. }
  specialize (Hlong Hge). cbv zeta in Hlong.
  destruct (anomaly_detector.train sk_fit np_sqrt detector now training_data)
    as [trained_detector outcome] eqn:Htrain.
  cbn [fst snd] in Hlong.
  destruct Hlong as (Htrained & _ & Hsize & Hdate & _).
  assert (∀ stats, outcome = Ok stats → n_samples stats = length training_data) as Hn.
  { intros stats ->. unfold anomaly_detector.train in Htrain.
    destruct (Nat.ltb_spec (length training_data) 10); [lia|].
    injection Htrain as _ Hst.
    destruct (sk_score_samples _ training_data) as [scores|]; [|discriminate Hst].
    cbn in Hst. destruct (np.min scores); [|discriminate Hst]. cbn in Hst.
    destruct (np.max scores); [|discriminate Hst]. cbn in Hst.
    by injection Hst as <-. }
  destruct outcome as [stats|e].
  2: { split; [done|]. split; [intros data H; discriminate H|].
       intros _ Hrecent.
       destruct (training_matrix_recent np_sqrt db request Hrecent) as [Hfew Hmany].
       split.
       - intros Hlt'. rewrite (Hfew Hlt') in Hm. discriminate Hm.
       - intros [Hge' Hlt']. destruct (Hmany Hge') as (rows & Hrows & Hlen).
         rewrite Hrows in Hm. injection Hm as <-. unfold s in *. lia. }
  destruct (proj1 (detector_files_round_trip_aux BASE_DIR disk trained_detector s)
              Htrained) as (Hsaved & Hload & Hothers).
  destruct (save_detector_to_disk BASE_DIR disk trained_detector s)
    as [disk' saved] eqn:Hsave.
  cbn [fst snd] in Hsaved, Hload, Hothers. subst saved. cbn [negb fst snd].
  split; [intros Hno; exfalso; by eapply Hno|]. split.
  - intros data Hdata. injection Hdata as <-. cbn [td_stats td_model_path].
    rewrite Hload. split; [exact Hs|]. split.
    { unfold save_detector_to_disk, save_model in Hsave. rewrite Htrained in Hsave.
      cbn in Hsave. injection Hsave as <-. apply lookup_insert_eq. }
    split; [exact Htrained|]. split; [exact Hdate|]. split; [lia|].
    split; [rewrite Hsize; by apply Hn|]. split; [reflexivity | exact Hothers].
  - intros _ Hrecent.
    destruct (training_matrix_recent np_sqrt db request Hrecent) as [Hfew Hmany].
    split.
    + intros Hlt'. rewrite (Hfew Hlt') in Hm. discriminate Hm.
    + intros [Hge' Hlt']. destruct (Hmany Hge') as (rows & Hrows & Hlen).
      rewrite Hrows in Hm. injection Hm as <-. unfold s in *. lia.
Qed.



(** X25. The status endpoint reads the same files as detection. It lists
    the three sensor types in order; a model is reported trained only when
    its file exists, and the path is given exactly when the file exists;
    [detect] refuses a sensor type with [Model not trained] exactly when
    the status reports it untrained; and after a training request that
    answered 200 the status of its sensor type is trained, with the size
    and date of that training. *)
Theorem status_reflects_files (BASE_DIR : string) (np_sqrt : Q → Q)
    (disk : gmap string IsolationForestDetector) (s : string) :
  s ∈ sensor_choices →
  let st := model_status BASE_DIR disk s in
  (get_status BASE_DIR disk).*1 = sensor_choices
  ∧ (s, st) ∈ get_status BASE_DIR disk
  ∧ (ms_trained st = true → ms_saved_to_disk st = true)
  ∧ (ms_saved_to_disk st = true ↔ is_Some (disk !! get_model_path BASE_DIR s))
  ∧ (ms_model_path st
     = if ms_saved_to_disk st then Some (get_model_path BASE_DIR s) else None)
  ∧ (ms_trained st = false
     ↔ ∀ db now plot_id,
         detect BASE_DIR np_sqrt db disk now plot_id s
         = (db, HTTP_400 ("Model not trained for " +:+ s)))
  ∧ ∀ sk_fit db now request data,
      tr_sensor_type request = s →
      (training_views.train BASE_DIR np_sqrt sk_fit db disk now request).2
      = HTTP_200 data →
      let st' :=
        model_status BASE_DIR
          (training_views.train BASE_DIR np_sqrt sk_fit db disk now request).1 s in
      ms_trained st' = true ∧ ms_saved_to_disk st' = true
      ∧ ms_training_date st' = Some now
      ∧ ms_training_data_size st' = n_samples (td_stats data).
Proof.
  intros Hs. cbv zeta.
  split; [reflexivity|]. split.
  { unfold get_status.
    apply (list_elem_of_fmap_2 (λ sensor_type,
             (sensor_type, model_status BASE_DIR disk sensor_type))).
    exact Hs. }
  split.
  { unfold model_status, load_detector_from_disk. cbn.
    destruct (bool_decide (is_Some (disk !! get_model_path BASE_DIR s)));
      [done | cbn; discriminate]. }
  split.
  { unfold model_status. cbn. split.
    - apply bool_decide_eq_true_1.
    - apply bool_decide_eq_true_2. }
  split; [reflexivity|]. split.
  { unfold model_status. cbn. split.
    - intros Hun db now plot_id. unfold detect.
      rewrite (bool_decide_eq_true_2 _ Hs), Hun. reflexivity.
    - intros Hall.
      specialize (Hall {| field_plots := []; sensor_readings := [];
                          anomaly_events := []; agent_recommendations := [];
                          anomaly_event_seq := 0; agent_recommendation_seq := 0 |}
                       0%Z 0%Z).
      unfold detect in Hall. rewrite (bool_decide_eq_true_2 _ Hs) in Hall.
      destruct (is_trained (load_detector_from_disk BASE_DIR disk s)); [|done].
      cbn in Hall. discriminate Hall. }
  intros sk_fit db now request data <- Hok.
  pose proof (train_view_outcomes_aux BASE_DIR np_sqrt sk_fit db disk now request)
    as (_ & Hsuccess & _).
  destruct (Hsuccess data Hok) as (_ & Hfile & Htrained & Hdate & _ & Hn & _).
  unfold model_status. cbn.
  split; [exact Htrained|]. split; [|by split].
  apply bool_decide_eq_true_2. rewrite Hfile. by eexists.
Qed.

Lemma status_reflects_files_witness :
  ms_saved_to_disk (model_status examples.base_dir examples.model_files "moisture")
  = true.
Proof.
  destruct (status_reflects_files examples.base_dir examples.newton_sqrt
              examples.model_files "moisture") as (_ & _ & Htrained & _).
  - left.
  - apply Htrained. reflexivity.
Defined.

End training_facts.

(** ** The evaluation script *)

Section evaluation_facts.
Import models preprocessing anomaly_detector views ml_evaluation.
Local Open Scope Q_scope.

(** Window [i] of ten values ends at position [i + 9]. *)
Lemma window_last (values : list Q) (windows : list (list Q)) (i : nat) (w : list Q) :
  create_windows (preprocessing.new 10) values = Ok windows →
  windows !! i = Some w →
  (i + 10 ≤ length values)%nat ∧ last w = values !! (i + 9)%nat.
Proof.
  intros Hw Hi.
  destruct (Nat.lt_ge_cases (length values) 10) as [Hlt | Hge].
  { unfold create_windows in Hw. cbn [window_size preprocessing.new] in Hw.
    destruct (Nat.ltb_spec (length values) 10); [discriminate Hw | lia]. }
  rewrite create_windows_enough in Hw by (cbn; lia). injection Hw as <-.
  cbn in Hi. rewrite list_lookup_fmap in Hi.
  destruct (seq 0 (length values - 10 + 1) !! i) as [k|] eqn:Hk; [|discriminate Hi].
  apply lookup_seq in Hk as [-> Hk]. cbn in Hi. injection Hi as <-.
  split; [lia|]. cbn [window_size preprocessing.new].
  change (take (i + 10 - i) (drop i values)) with (py.slice values i (i + 10)).
  rewrite last_lookup, (slice_length values i 10) by lia. cbn [pred].
  by rewrite (slice_lookup values i 10 9) by lia.
Qed.

(** X26. The evaluation script. It returns nothing for an untrained model
    or fewer than twenty values, and raises [KeyError] for a sensor type
    that has no range. When it returns metrics, the labels it compares
    with the predictions are aligned with the windows: there is one label
    per window and per feature row, and label [i] is the range label of
    the last value of window [i]; each metric is the value of the scoring
    function on these labels and the predictions of the detector, times
    100. *)
Theorem evaluation_alignment (BASE_DIR : string) (np_sqrt : Q → Q)
    (accuracy_score precision_score recall_score f1_score : list Z → list Z → result Q)
    (db : DB) (disk : gmap string IsolationForestDetector) (sensor_type : string)
    (n_samples : nat) :
  let run :=
    evaluate_sensor BASE_DIR np_sqrt accuracy_score precision_score recall_score
      f1_score db disk sensor_type n_samples in
  let detector := load_detector_from_disk BASE_DIR disk sensor_type in
  let values := get_recent_readings_all_plots db sensor_type n_samples in
  (is_trained detector = false ∨ (length values < 20)%nat → run = Returned None)
  ∧ (is_trained detector = true → (20 ≤ length values)%nat →
     NORMAL_RANGES !! sensor_type = None → run = Raised (KeyError sensor_type))
  ∧ ∀ metrics, run = Returned (Some metrics) →
      ∃ bounds windows X y_pred,
        NORMAL_RANGES !! sensor_type = Some bounds
        ∧ create_windows (preprocessing.new 10) values = Ok windows
        ∧ prepare_for_model np_sqrt (preprocessing.new 10) values true = Ok X
        ∧ predict detector X = Ok y_pred
        ∧ let y_true_w := drop 9 (range_label bounds <$> values) in
          length y_true_w = length windows
          ∧ length X = length windows
          ∧ (11 ≤ length windows)%nat
          ∧ (∀ i w, windows !! i = Some w →
               ∃ v, last w = Some v ∧ y_true_w !! i = Some (range_label bounds v))
          ∧ ∃ acc prec rec f1,
              accuracy_score y_true_w y_pred = Ok acc
              ∧ precision_score y_true_w y_pred = Ok prec
              ∧ recall_score y_true_w y_pred = Ok rec
              ∧ f1_score y_true_w y_pred = Ok f1
              ∧ metrics = {| Acc := acc * 100; Prec := prec * 100;
                             Rec := rec * 100; F1 := f1 * 100 |}.
Proof.
  cbv zeta. unfold evaluate_sensor.
  set (detector := load_detector_from_disk BASE_DIR disk sensor_type).
  set (values := get_recent_readings_all_plots db sensor_type n_samples).
  destruct (is_trained detector) eqn:Ht; cbn [negb].
  2: { split; [done|]. split; [discriminate | discriminate]. }
  destruct (Nat.ltb_spec (length values) 20) as [Hlt | Hge].
  { split; [done|]. split; [lia | discriminate]. }
  split; [intros [H | H]; [discriminate H | lia]|].
  unfold create_ground_truth.
  destruct (NORMAL_RANGES !! sensor_type) as [bounds|] eqn:Hb.
  2: { split; [done | discriminate]. }
  split; [discriminate|].
  intros metrics Hrun. cbn in Hrun.
  destruct (proj1 (proj2 (prepare_for_model_shape_aux np_sqrt (preprocessing.new 10)
              values))) as (X & HX & HlenX & _).
  { cbn. lia. }
  cbn in HlenX. rewrite HX in Hrun. cbn in Hrun.
  destruct (predict detector X) as [y_pred|] eqn:Hpred; [|discriminate Hrun].
  cbn in Hrun.
  destruct (accuracy_score _ y_pred) as [acc|] eqn:Hacc; [|discriminate Hrun].
  cbn in Hrun.
  destruct (precision_score _ y_pred) as [prec|] eqn:Hprec; [|discriminate Hrun].
  cbn in Hrun.
  destruct (recall_score _ y_pred) as [rec|] eqn:Hrec; [|discriminate Hrun].
  cbn in Hrun.
  destruct (f1_score _ y_pred) as [f1|] eqn:Hf1; [|discriminate Hrun].
  cbn in Hrun. injection Hrun as <-.
  pose proof (create_windows_enough (preprocessing.new 10) values ltac:(cbn; lia))
    as Hwin.
  eexists bounds, _, X, y_pred. split; [reflexivity|]. split; [exact Hwin|].
  split; [exact HX|]. split; [exact Hpred|]. cbv zeta.
  rewrite length_map, length_seq, length_drop, length_fmap.
  cbn [window_size preprocessing.new].
  split; [lia|]. split; [lia|]. split; [lia|]. split.
  - intros i w Hi.
    destruct (window_last values _ i w Hwin Hi) as [Hle Hlast].
    destruct (lookup_lt_is_Some_2 values (i + 9) ltac:(lia)) as [v Hv].
    exists v. split; [by rewrite Hlast|].
    rewrite lookup_drop, list_lookup_fmap.
    replace (9 + i)%nat with (i + 9)%nat by lia. by rewrite Hv.
  - by exists acc, prec, rec, f1.
Qed.

Lemma evaluation_alignment_witness :
  ∃ metrics bounds windows,
    evaluate_sensor examples.base_dir examples.newton_sqrt
      (λ _ _, Ok 1) (λ _ _, Ok 1) (λ _ _, Ok 1) (λ _ _, Ok 1)
      examples.steady_db examples.model_files "moisture" 150
    = Returned (Some metrics)
    ∧ NORMAL_RANGES !! "moisture" = Some bounds
    ∧ create_windows (preprocessing.new 10)
        (get_recent_readings_all_plots examples.steady_db "moisture" 150)
      = Ok windows
    ∧ length (drop 9 (range_label bounds
                        <$> get_recent_readings_all_plots examples.steady_db
                              "moisture" 150))
      = length windows.
Proof.
  destruct (evaluate_sensor examples.base_dir examples.newton_sqrt
              (λ _ _, Ok 1) (λ _ _, Ok 1) (λ _ _, Ok 1) (λ _ _, Ok 1)
              examples.steady_db examples.model_files "moisture" 150)
    as [[metrics|]|] eqn:E; try (vm_compute in E; discriminate E).
  destruct (proj2 (proj2 (evaluation_alignment _ _ _ _ _ _ _ _ _ _)) metrics E)
    as (bounds & windows & X & y_pred & Hb & Hw & _ & _ & Hlen & _).
  exists metrics, bounds, windows. by repeat split.
Defined.

End evaluation_facts.

(** ** The agent endpoint *)

Section agent_endpoint_facts.
Import models rule_engine agent_service views agent_views spec.

Lemma get_anomaly_Some (db : DB) (anomaly_id : Z) (a : AnomalyEvent) :
  get_anomaly db anomaly_id = Some a → a ∈ anomaly_events db ∧ ae_id a = anomaly_id.
Proof.
  unfold get_anomaly. intros H.
  apply fmap_Some in H as ([i a'] & Hfind & ->).
  apply list_find_Some in Hfind as (Hi & Hid & _).
  split; [by eapply list_elem_of_lookup_2 | exact Hid].
Qed.

Lemma get_anomaly_None (db : DB) (anomaly_id : Z) :
  get_anomaly db anomaly_id = None ↔ ∀ a, a ∈ anomaly_events db → ae_id a ≠ anomaly_id.
Proof.
  unfold get_anomaly. rewrite fmap_None, list_find_None, Forall_forall. reflexivity.
Qed.

Lemma recommendation_of_Some (db : DB) (a : AnomalyEvent) (r : AgentRecommendation) :
  recommendation_of db a = Some r →
  r ∈ agent_recommendations db ∧ rec_anomaly_event r = ae_id a.
Proof.
  unfold recommendation_of. intros H.
  apply fmap_Some in H as ([i r'] & Hfind & ->).
  apply list_find_Some in Hfind as (Hi & Hid & _).
  split; [by eapply list_elem_of_lookup_2 | exact Hid].
Qed.

(** X27. The endpoint that processes one anomaly. An id that no event
    has gives 404 and changes nothing; a failure of the rule engine gives
    500 and changes nothing; it never answers 400. On 200 the answer
    carries the requested id and a stored recommendation that refers to
    that event, and asking again, at any later time, returns the same
    answer and leaves the database as it is. Events and readings are
    never touched and at-most-one recommendation per event is preserved. *)
Theorem process_single_anomaly_spec (db : DB) (now anomaly_id : Z) :
  let out := process_single_anomaly db now anomaly_id in
  ((∀ a, a ∈ anomaly_events db → ae_id a ≠ anomaly_id) →
   out = (db, HTTP_404 "No AnomalyEvent matches the given query."))
  ∧ (∀ data, out.2 = HTTP_200 data →
       pd_anomaly_id data = anomaly_id
       ∧ rec_anomaly_event (pd_recommendation data) = anomaly_id
       ∧ pd_recommendation data ∈ agent_recommendations out.1
       ∧ ∀ later, process_single_anomaly out.1 later anomaly_id
                  = (out.1, HTTP_200 data))
  ∧ ((∀ data, out.2 ≠ HTTP_200 data) → out.1 = db)
  ∧ (∀ error, out.2 ≠ HTTP_400 error)
  ∧ anomaly_events out.1 = anomaly_events db
  ∧ sensor_readings out.1 = sensor_readings db
  ∧ (one_recommendation_per_event db → one_recommendation_per_event out.1).
Proof.
  cbv zeta. unfold process_single_anomaly.
  destruct (get_anomaly db anomaly_id) as [a|] eqn:Hget.
  2: { split; [done|]. split; [intros data H; discriminate H|]. split; [done|].
       split; [intros error H; discriminate H | done]. }
  destruct (get_anomaly_Some db anomaly_id a Hget) as [Hin Hid].
  destruct (process_anomaly_frame db now a) as (Hrd & Hev & _ & _).
  pose proof (process_anomaly_keeps_one db now a) as Hone.
  pose proof (process_anomaly_outcome db now a) as Hout.
  destruct (process_anomaly db now a) as [db' [r|e]]; cbn [fst snd] in *.
  - destruct Hout as [(r' & Hr' & Hrec & Hmem) | (e & He & _)]; [|discriminate He].
    injection Hr' as <-.
    destruct (recommendation_of_Some db' a r Hrec) as [_ Hrefers].
    split; [intros Hnone; by destruct (Hnone a Hin)|]. split.
    + intros data Hdata. injection Hdata as <-. cbn.
      split; [exact Hid|]. split; [by rewrite Hrefers|]. split; [exact Hmem|].
      intros later.
      assert (get_anomaly db' anomaly_id = Some a) as ->.
      { unfold get_anomaly. by rewrite Hev. }
      unfold process_anomaly. by rewrite Hrec.
    + split; [intros Hno; exfalso; by eapply Hno|].
      split; [intros error H; discriminate H | done].
  - destruct Hout as [(r' & Hr' & _) | (e' & _ & _ & Hdb)]; [discriminate Hr'|].
    split; [intros Hnone; by destruct (Hnone a Hin)|].
    split; [intros data H; discriminate H|]. split; [done|].
    split; [intros error H; discriminate H | done].
Qed.

Lemma process_single_anomaly_spec_witness :
  process_single_anomaly examples.dry_db 1730665700 5
  = (examples.dry_db, HTTP_404 "No AnomalyEvent matches the given query.").
Proof.
  apply (proj1 (process_single_anomaly_spec examples.dry_db 1730665700 5)).
  intros a Ha. by apply not_elem_of_nil in Ha.
Defined.

End agent_endpoint_facts.

(** ** The order of the values *)

Section order_facts.
Import models preprocessing.
Local Open Scope Q_scope.





End order_facts.
